(** * newspaper4k: the acquisition and metadata-resolution pipeline

    A shallow embedding of [newspaper/extractors/content_extractor.py]
    ([ContentExtractor]) and [newspaper/article.py] ([Article]), and the
    properties of the specification proved (or refuted) on it.

    Conventions of the embedding.
    - A Python [str] is a [string]; every character stands for one code
      point below 256 (the Latin-1 range), and the character classes of
      [str.strip], [str.lower], [str.isdigit] and of the regular
      expressions ([\w], [\d], [\s]) are the Unicode ones restricted to
      that range.
    - A Python [dict] is an association list in insertion order, with
      unique keys; [None] is [option]'s [None].
    - Code that may raise returns a [Result]; the mutable [Article] object
      is threaded explicitly, and the network calls a method performs are
      recorded in a trace.
    - Collaborators that live outside the two source files (the HTML
      parser, [defines], [urls], [network], [utils], [dateutil], [json],
      [urllib]) are parameters, gathered in records; module [Example]
      holds small instances of them on which the functions are run.

    Part I holds the embedding and the notions the properties are stated
    with, Part II the properties, one section per function. *)

From Stdlib Require Import String Ascii List ZArith NArith Lia Bool Arith.
From Stdlib Require Import DecimalString.
From Equations Require Import Equations.
Import ListNotations.

Set Implicit Arguments.
Set Warnings "-register-all".
Open Scope string_scope.
Open Scope list_scope.

(* ===================================================================== *)
(** * Part I: the embedding *)
(* ===================================================================== *)

(** ** Python strings *)

Module Py.

Definition code (c : ascii) : N := N_of_ascii c.

Definition chr (n : N) : ascii := ascii_of_N n.

Definition between (lo hi n : N) : bool := ((lo <=? n) && (n <=? hi))%N.

(** [str.isspace] of one character, also the class [\s]. *)
Definition isspace (c : ascii) : bool :=
  let n := code c in
  between 9 13 n || between 28 32 n || (n =? 133)%N || (n =? 160)%N.

(** The characters [str.lower] changes: A-Z and the accented capitals. *)
Definition isupper (c : ascii) : bool :=
  let n := code c in
  between 65 90 n || (between 192 222 n && negb (n =? 215)%N).

Definition lower_char (c : ascii) : ascii :=
  if isupper c then chr (code c + 32) else c.

Fixpoint lower (s : string) : string :=
  match s with
  | EmptyString => EmptyString
  | String c s' => String (lower_char c) (lower s')
  end.

Fixpoint lstrip (s : string) : string :=
  match s with
  | EmptyString => EmptyString
  | String c s' => if isspace c then lstrip s' else s
  end.

Fixpoint rstrip (s : string) : string :=
  match s with
  | EmptyString => EmptyString
  | String c s' =>
      match rstrip s' with
      | EmptyString => if isspace c then EmptyString else String c EmptyString
      | r => String c r
      end
  end.

(** [s.strip()] *)
Definition strip (s : string) : string := rstrip (lstrip s).

(** The class [\d]: the decimal digits. *)
Definition isdecimal_char (c : ascii) : bool := between 48 57 (code c).

(** One character of [str.isdigit]: the decimal digits and the
    superscripts one, two and three. *)
Definition isdigit_char (c : ascii) : bool :=
  let n := code c in
  isdecimal_char c || (n =? 178)%N || (n =? 179)%N || (n =? 185)%N.

Fixpoint all_chars (p : ascii -> bool) (s : string) : bool :=
  match s with
  | EmptyString => true
  | String c s' => p c && all_chars p s'
  end.

Fixpoint any_char (p : ascii -> bool) (s : string) : bool :=
  match s with
  | EmptyString => false
  | String c s' => p c || any_char p s'
  end.

(** Truth value of a string: it is not empty. *)
Definition truthy (s : string) : bool :=
  match s with EmptyString => false | _ => true end.

(** [s.isdigit()] *)
Definition isdigit (s : string) : bool := truthy s && all_chars isdigit_char s.

(** The class [\w]: letters, numbers and the underscore. *)
Definition isword (c : ascii) : bool :=
  let n := code c in
  between 48 57 n || between 65 90 n || between 97 122 n || (n =? 95)%N
  || (n =? 170)%N || (n =? 178)%N || (n =? 179)%N || (n =? 181)%N
  || (n =? 185)%N || (n =? 186)%N || between 188 190 n
  || between 192 214 n || between 216 246 n || between 248 255 n.

(** [prefix p s]: [s.startswith(p)] *)
Fixpoint startswith (s p : string) : bool :=
  match p, s with
  | EmptyString, _ => true
  | String a p', String b s' => Ascii.eqb a b && startswith s' p'
  | String _ _, EmptyString => false
  end.

(** [sub in s] *)
Fixpoint contains (sub s : string) : bool :=
  startswith s sub
  || match s with
     | EmptyString => false
     | String _ s' => contains sub s'
     end.

(** [s[n:]] *)
Fixpoint drop (n : nat) (s : string) : string :=
  match n, s with
  | O, _ => s
  | S n', String _ s' => drop n' s'
  | S _, EmptyString => EmptyString
  end.

(** [s[:n]] *)
Fixpoint take (n : nat) (s : string) : string :=
  match n, s with
  | O, _ => EmptyString
  | S n', String c s' => String c (take n' s')
  | S _, EmptyString => EmptyString
  end.

(** [sep.join(l)] *)
Definition join (sep : string) (l : list string) : string := String.concat sep l.

(** Splitting at every character of a class, as [re.split] does for a
    pattern that is one class of characters: one more piece than separators. *)
Fixpoint split_where (p : ascii -> bool) (s : string) : list string :=
  match s with
  | EmptyString => [EmptyString]
  | String c s' =>
      if p c then EmptyString :: split_where p s'
      else match split_where p s' with
           | piece :: rest => String c piece :: rest
           | [] => [String c EmptyString]
           end
  end.

(** [s.split(sep)] for a one-character separator. *)
Definition split_char (sep : ascii) (s : string) : list string :=
  split_where (Ascii.eqb sep) s.

(** [s.split()]: the maximal runs of characters that are not whitespace. *)
Definition split_ws (s : string) : list string :=
  filter truthy (split_where isspace s).

(** [re.sub] for a pattern that is one class of characters. *)
Fixpoint replace_where (p : ascii -> bool) (repl : string) (s : string) : string :=
  match s with
  | EmptyString => EmptyString
  | String c s' =>
      if p c then repl ++ replace_where p repl s'
      else String c (replace_where p repl s')
  end.

(** Characters by code point. *)
Definition LF : ascii := chr 10.
Definition TAB : ascii := chr 9.
Definition CR : ascii := chr 13.
Definition NBSP : ascii := chr 160.
Definition DQUOTE : ascii := chr 34.
Definition RAQUO : ascii := chr 187.

(** [sys.get_int_max_str_digits()]: the most digits a numeral may have
    for [int] to convert it, 4300 unless the interpreter is told
    otherwise; leading zeros count. *)
Definition int_max_str_digits : nat := 4300.

(** [int(s)] on a string for which [isdigit] holds: the value of a decimal
    numeral; [None] stands for the [ValueError] raised on a digit that is
    not decimal, and on a numeral of more than [int_max_str_digits]
    digits. *)
Fixpoint int_acc (acc : Z) (s : string) : option Z :=
  match s with
  | EmptyString => Some acc
  | String c s' =>
      if isdecimal_char c
      then int_acc (10 * acc + Z.of_N (code c - 48)) s'
      else None
  end.

Definition int (s : string) : option Z :=
  if truthy s && (String.length s <=? int_max_str_digits)%nat
  then int_acc 0 s
  else None.

End Py.

(** ** Results of code that may raise *)

Inductive Exception : Type :=
| ArticleException (msg : string)
| AttributeError
| TypeError
| ValueError
| IndexError.

Inductive Result (A : Type) : Type :=
| Ok (a : A)
| Raise (e : Exception).

Arguments Ok {A} a.
Arguments Raise {A} e.

Definition bind {A B : Type} (r : Result A) (k : A -> Result B) : Result B :=
  match r with
  | Ok a => k a
  | Raise e => Raise e
  end.

Notation "x <- r ;; k" := (bind r (fun x => k))
  (at level 61, r at next level, right associativity).

(** A [for] loop whose body may raise. *)
Fixpoint for_each {A S : Type} (body : S -> A -> Result S) (l : list A) (s : S)
  : Result S :=
  match l with
  | [] => Ok s
  | a :: l' => s' <- body s a ;; for_each body l' s'
  end.

(** Python's [list.sort(key=..., reverse=True)]: the stable sort by
    decreasing key, elements of equal key keeping their order. *)
Section StableSort.
Variable A : Type.
Variable key : A -> Z.

Fixpoint insert_desc (x : A) (l : list A) : list A :=
  match l with
  | [] => [x]
  | y :: l' => if (key x <? key y)%Z then y :: insert_desc x l' else x :: l
  end.

Definition sort_desc (l : list A) : list A := fold_right insert_desc [] l.

End StableSort.

(** [re.sub] with the empty replacement: the matches of a pattern are
    removed from left to right without overlap.  The pattern is given by the length of
    its match at the head of the text, if any, knowing the character
    before it; matches are not empty. *)
Fixpoint re_remove_from (match_len : option ascii -> string -> option nat)
  (prev : option ascii) (skip : nat) (s : string) : string :=
  match s with
  | EmptyString => EmptyString
  | String c s' =>
      match skip with
      | S k => re_remove_from match_len (Some c) k s'
      | O =>
          match match_len prev s with
          | Some (S k) => re_remove_from match_len (Some c) k s'
          | _ => String c (re_remove_from match_len (Some c) 0 s')
          end
      end
  end.

Definition re_remove (match_len : option ascii -> string -> option nat)
  (s : string) : string :=
  re_remove_from match_len None 0 s.

(** ** The collaborators *)

(** An element of the parsed tree, as lxml presents it. *)
Record Element : Type := mkElement {
  tag : string;
  attrib : list (string * string);
  text : option string;
  itertext : list string
}.

(** [d.get(k)] on a dict of strings. *)
Fixpoint dict_get {V : Type} (d : list (string * V)) (k : string) : option V :=
  match d with
  | [] => None
  | (k', v) :: d' => if String.eqb k' k then Some v else dict_get d' k
  end.

(** [a or b] on optional strings: [a] when it is a non-empty string. *)
Definition or_else (a b : option string) : option string :=
  match a with
  | Some s => if Py.truthy s then a else b
  | None => b
  end.

(** The string of an optional string that holds one. *)
Definition format_opt_empty (a : option string) : string :=
  match a with
  | Some s => s
  | None => ""
  end.

(** Truth value of an optional string. *)
Definition truthy_opt (a : option string) : bool :=
  match a with
  | Some s => Py.truthy s
  | None => false
  end.

(** [newspaper.parsers]: the tree construction and query layer. *)
Record Parser : Type := mkParser {
  Doc : Type;
  fromstring : string -> option Doc;
  getElementsByTag : Doc -> option string -> option string -> option string -> list Element;
  css_select : Doc -> string -> list Element;
  getText : Element -> string;
  getAttribute : Element -> string -> option string;
  xpath : Doc -> string -> list Element
}.

(** An entry of [defines.PUBLISH_DATE_TAGS]. *)
Record KnownMetaTag : Type := mkKnownMetaTag {
  attribute : string;
  value : string;
  content : string
}.

(** [newspaper.extractors.defines] and [urls.STRICT_DATE_REGEX]: the
    tables and patterns the extractor reads.  A splitter is its [split]
    method, a replacement its [replaceAll] method, and the strict date
    pattern the text of its first match, [re.search(...).group(0)]. *)
Record Defines : Type := mkDefines {
  AUTHOR_ATTRS : list string;
  AUTHOR_VALS : list string;
  AUTHOR_STOP_WORDS : list string;
  MOTLEY_REPLACEMENT : string -> string;
  TITLE_REPLACEMENTS : string -> string;
  PIPE_SPLITTER : string -> list string;
  DASH_SPLITTER : string -> list string;
  UNDERSCORE_SPLITTER : string -> list string;
  SLASH_SPLITTER : string -> list string;
  ARROWS_SPLITTER : string -> list string;
  PUBLISH_DATE_TAGS : list KnownMetaTag;
  STRICT_DATE_REGEX_search : string -> option string
}.

(** A [datetime.datetime]: its calendar date and the rest of it (time of
    day and zone), which no code here reads. *)
Record datetime : Type := mkDatetime {
  year : Z;
  month : Z;
  day : Z;
  time_and_zone : string
}.

Definition is_leap (y : Z) : bool :=
  ((y mod 4 =? 0) && (negb (y mod 100 =? 0) || (y mod 400 =? 0)))%Z.

Definition days_before_year (y : Z) : Z :=
  ((y - 1) * 365 + (y - 1) / 4 - (y - 1) / 100 + (y - 1) / 400)%Z.

Definition days_before_month (y m : Z) : Z :=
  (nth (Z.to_nat (m - 1)) [0; 31; 59; 90; 120; 151; 181; 212; 243; 273; 304; 334] 0
   + (if (2 <? m) && is_leap y then 1 else 0))%Z.

(** [d.date().toordinal()]; the difference of two dates in days is the
    difference of their ordinals. *)
Definition toordinal (d : datetime) : Z :=
  (days_before_year (year d) + days_before_month (year d) (month d) + day d)%Z.

(** A value [json.loads] returns. *)
Inductive json : Type :=
| JNull
| JBool (b : bool)
| JNumber (n : Z)  (* a number; its value is never read *)
| JString (s : string)
| JArray (items : list json)
| JObject (members : list (string * json)).

(** A result of [urllib.parse.urlparse], the fields the code reads. *)
Record ParseResult : Type := mkParseResult {
  scheme : string;
  hostname : option string;
  path : string
}.

(** The libraries: [dateutil.parser.parse] ([None] when it raises one of
    the errors [parse_date_str] catches), [json.loads] ([None] when it
    raises), [urlparse], [urlunparse] of a scheme, a host and a path with
    empty parameters, query and fragment, and the ordinal of
    [datetime.now().date()]. *)
Record Library : Type := mkLibrary {
  date_parser : string -> option datetime;
  json_loads : string -> option json;
  urlparse : string -> ParseResult;
  urlunparse : string -> option string -> string -> string;
  today : Z
}.

(** ** [ContentExtractor] *)

Module ContentExtractor.

Section Extractor.

Variable P : Parser.
Variable D : Defines.
Variable L : Library.

(** *** [get_authors] *)

(** [contains_digits]: a search for [\d]. *)
Definition contains_digits (d : string) : bool := Py.any_char Py.isdecimal_char d.

(** [seen[k] = v] on an [OrderedDict]: a key already present keeps its
    place and takes the new value, a new key goes last. *)
Fixpoint od_set (seen : list (string * string)) (k v : string)
  : list (string * string) :=
  match seen with
  | [] => [(k, v)]
  | (k', v') :: rest =>
      if String.eqb k' k then (k', v) :: rest else (k', v') :: od_set rest k v
  end.

(** The list returned is [seen[k]] for every key [k] of [seen] that is
    not empty, in the order of the keys. *)
Definition uniqify_list (lst : list string) : list string :=
  let seen :=
    fold_left (fun seen item => od_set seen (Py.strip (Py.lower item)) (Py.strip item))
              lst [] in
  map snd (filter (fun kv => Py.truthy (fst kv)) seen).

(** The pattern [<[^<]+?>] at the head of the text: a [<], a first
    character that is not [<], then as few characters that are not [<] as
    lead to a [>]. *)
Fixpoint tag_close (n : nat) (s : string) : option nat :=
  match s with
  | EmptyString => None
  | String c s' =>
      if Ascii.eqb c ">" then Some (S n)
      else if Ascii.eqb c "<" then None
      else tag_close (S n) s'
  end.

Definition html_tag_len (_ : option ascii) (s : string) : option nat :=
  match s with
  | String "<" (String c s') =>
      if Ascii.eqb c "<" then None else tag_close 2 s'
  | _ => None
  end.

Definition colon_or_space (c : ascii) : bool := Ascii.eqb c ":" || Py.isspace c.

Definition one_of (a b c : ascii) : bool := Ascii.eqb c a || Ascii.eqb c b.

(** The pattern [[bB][yY][\:\s]|[fF]rom[\:\s]] at the head of the text. *)
Definition by_marker_len (_ : option ascii) (s : string) : option nat :=
  match s with
  | String c1 (String c2 (String c3 rest)) =>
      if one_of "b" "B" c1 && one_of "y" "Y" c2 && colon_or_space c3 then Some 3%nat
      else
        match rest with
        | String c4 (String c5 _) =>
            if one_of "f" "F" c1 && Ascii.eqb c2 "r" && Ascii.eqb c3 "o"
               && Ascii.eqb c4 "m" && colon_or_space c5
            then Some 5%nat else None
        | _ => None
        end
  | _ => None
  end.

(** The characters [[^\w'\-\.]] splits at. *)
Definition name_separator (c : ascii) : bool :=
  negb (Py.isword c || Ascii.eqb c "'" || Ascii.eqb c "-" || Ascii.eqb c ".").

Definition delimiters : list string := ["and"; ","; ""].

Definition is_delimiter (token : string) : bool :=
  existsb (String.eqb token) delimiters.

(** The loop of [parse_byline] over the tokens, on the pair
    [(_authors, curname)]. *)
Definition byline_step (st : list string * list string) (token : string)
  : list string * list string :=
  let '(_authors, curname) := st in
  if is_delimiter token then
    if (0 <? length curname)%nat
    then (_authors ++ [Py.join " " curname], [])
    else (_authors, curname)
  else if negb (contains_digits token) then (_authors, curname ++ [token])
  else (_authors, curname).

Definition parse_byline (search_str : string) : list string :=
  let search_str := re_remove html_tag_len search_str in
  let search_str :=
    Py.replace_where
      (fun c => Ascii.eqb c Py.LF || Ascii.eqb c Py.TAB || Ascii.eqb c Py.CR
                || Ascii.eqb c Py.NBSP)
      " " search_str in
  let search_str := re_remove by_marker_len search_str in
  let search_str := Py.strip search_str in
  let name_tokens := Py.split_where name_separator search_str in
  let name_tokens := map Py.strip name_tokens in
  let '(_authors, curname) := fold_left byline_step name_tokens ([], []) in
  let valid_name := (2 <=? length curname)%nat in
  if valid_name then _authors ++ [Py.join " " curname] else _authors.

(** The compiled [author_stopwords]: [\b(w1|w2|...)\b], ignoring case.
    [\b] holds between a word character and a character that is not one
    (or an end of the text).  The first stopword of the table that matches
    is the match; an empty stopword, which removes nothing, is passed
    over. *)
Definition is_word_opt (c : option ascii) : bool :=
  match c with
  | Some c => Py.isword c
  | None => false
  end.

Definition head_char (s : string) : option ascii :=
  match s with
  | EmptyString => None
  | String c _ => Some c
  end.

Fixpoint last_char (prev : option ascii) (s : string) : option ascii :=
  match s with
  | EmptyString => prev
  | String c s' => last_char (Some c) s'
  end.

Definition boundary (before after : option ascii) : bool :=
  negb (Bool.eqb (is_word_opt before) (is_word_opt after)).

Definition stopword_at (prev : option ascii) (s : string) (w : string) : bool :=
  let n := String.length w in
  Py.truthy w
  && String.eqb (Py.lower (Py.take n s)) (Py.lower w)
  && (n <=? String.length s)%nat
  && boundary prev (head_char s)
  && boundary (last_char prev (Py.take n s)) (head_char (Py.drop n s)).

Definition author_stopwords (prev : option ascii) (s : string) : option nat :=
  match find (stopword_at prev s) (AUTHOR_STOP_WORDS D) with
  | Some w => Some (String.length w)
  | None => None
  end.

(** The list handed to [uniqify_list]: the bylines of the matching
    elements, parsed and cleaned of stopwords. *)
Definition author_candidates (doc : Doc P) : list string :=
  let matches :=
    flat_map (fun attr =>
      flat_map (fun val => getElementsByTag P doc None (Some attr) (Some val))
               (AUTHOR_VALS D))
             (AUTHOR_ATTRS D) in
  let authors :=
    flat_map (fun match_ =>
      let content :=
        if String.eqb (tag match_) "meta" then
          match dict_get (attrib match_) "content" with
          | Some mm0 => mm0
          | None => ""
          end
        else Py.join " " (itertext match_) in
      if (0 <? String.length content)%nat then parse_byline content else [])
      matches in
  map (re_remove author_stopwords) authors.

Definition get_authors (doc : Doc P) : list string :=
  uniqify_list (author_candidates doc).

(** *** [get_publishing_date] *)

Definition parse_date_str (date_str : option string) : option datetime :=
  match date_str with
  | Some s => if Py.truthy s then date_parser L s else None
  | None => None
  end.

(** [parse_date_str] on a value read from parsed JSON: a value that is
    not a string is either false or makes the date parser raise the
    [TypeError] that is caught. *)
Definition parse_date_json (date_str : option json) : option datetime :=
  match date_str with
  | Some (JString s) => parse_date_str (Some s)
  | _ => None
  end.

Definition date_match : Type := (datetime * Z)%type.

(** The candidate of the URL, [date_matches] after the first block. *)
Definition url_date_matches (url : string) : list date_match :=
  match STRICT_DATE_REGEX_search D url with
  | Some date_str =>
      match parse_date_str (Some date_str) with
      | Some datetime_obj => [(datetime_obj, 10%Z)]
      | None => []
      end
  | None => []
  end.

Definition is_quote (c : ascii) : bool := Ascii.eqb c Py.DQUOTE || Ascii.eqb c "'".

Definition opt_space (s : string) : string :=
  match s with
  | String c s' => if Py.isspace c then s' else s
  | EmptyString => s
  end.

(** The longest run of characters that are not quotes, and what follows. *)
Fixpoint span_unquoted (s : string) : string * string :=
  match s with
  | EmptyString => (EmptyString, EmptyString)
  | String c s' =>
      if is_quote c then (EmptyString, s)
      else let '(v, rest) := span_unquoted s' in (String c v, rest)
  end.

(** The pattern of the raw-text search at the head of the text: a quote
    (single or double), [datePublished], a quote, at most one whitespace,
    a colon, at most one whitespace, a quote, the longest run of one or
    more characters that are not quotes (group 1), a quote. *)
Definition datePublished_at (s : string) : option string :=
  match s with
  | String q1 r1 =>
      if is_quote q1 && Py.startswith r1 "datePublished" then
        match Py.drop 13 r1 with
        | String q2 r2 =>
            if is_quote q2 then
              match opt_space r2 with
              | String colon r3 =>
                  if Ascii.eqb colon ":" then
                    match opt_space r3 with
                    | String q3 r4 =>
                        if is_quote q3 then
                          match span_unquoted r4 with
                          | (String c v, String _ _) => Some (String c v)
                          | _ => None
                          end
                        else None
                    | EmptyString => None
                    end
                  else None
              | EmptyString => None
              end
            else None
        | EmptyString => None
        end
      else None
  | EmptyString => None
  end.

(** [re.search] of that pattern: the first position where it matches. *)
Fixpoint datePublished_search (s : string) : option string :=
  match datePublished_at s with
  | Some v => Some v
  | None =>
      match s with
      | EmptyString => None
      | String _ s' => datePublished_search s'
      end
  end.

(** [for item in g: ...] on the value of the [@graph] member. *)
Definition graph_dates (g : json) (date_matches : list date_match)
  : Result (list date_match) :=
  match g with
  | JArray items =>
      for_each (fun dm item =>
        match item with
        | JObject members =>
            match parse_date_json (dict_get members "datePublished") with
            | Some datetime_obj => Ok (dm ++ [(datetime_obj, 10%Z)])
            | None => Ok dm
            end
        | _ => Raise AttributeError
        end) items date_matches
  | JObject [] => Ok date_matches
  | JObject (_ :: _) => Raise AttributeError
  | JString s => if Py.truthy s then Raise AttributeError else Ok date_matches
  | JNull | JBool _ | JNumber _ => Raise TypeError
  end.

(** The body of the loop over the [application/ld+json] scripts. *)
Definition script_dates (date_matches : list date_match) (script_tag : Element)
  : Result (list date_match) :=
  let class := match dict_get (attrib script_tag) "class" with
               | Some c => c
               | None => ""
               end in
  if Py.contains "yoast-schema-graph" class then
    match text script_tag with
    | None => Ok date_matches
    | Some txt =>
        match json_loads L txt with
        | None => Ok date_matches
        | Some (JObject members) =>
            let g := match dict_get members "@graph" with
                     | Some g => g
                     | None => JArray []
                     end in
            graph_dates g date_matches
        | Some _ => Raise AttributeError
        end
    end
  else
    match text script_tag with
    | None => Raise TypeError
    | Some txt =>
        match datePublished_search txt with
        | Some date_str =>
            match parse_date_str (Some date_str) with
            | Some datetime_obj => Ok (date_matches ++ [(datetime_obj, 9%Z)])
            | None => Ok date_matches
            end
        | None => Ok date_matches
        end
    end.

(** The candidates of the JSON-LD scripts, appended to [date_matches]. *)
Definition jsonld_date_matches (doc : Doc P) (date_matches : list date_match)
  : Result (list date_match) :=
  let yoast_script_tag :=
    getElementsByTag P doc (Some "script") (Some "type") (Some "application/ld+json") in
  for_each script_dates yoast_script_tag date_matches.

(** The score of a date found in a known meta tag. *)
Definition meta_tag_score (meta_tag : Element) (known_meta_tag : KnownMetaTag)
  (datetime_obj : datetime) : Z :=
  let score := 6%Z in
  let score :=
    match dict_get (attrib meta_tag) "name" with
    | Some name => if String.eqb name (value known_meta_tag) then (score + 2)%Z else score
    | None => score
    end in
  let days_diff := (today L - toordinal datetime_obj)%Z in
  if (days_diff <? 0)%Z then (score - 2)%Z
  else if (25 * 365 <? days_diff)%Z then (score - 1)%Z
  else score.

Definition meta_tag_dates (known_meta_tag : KnownMetaTag)
  (date_matches : list date_match) (meta_tag : Element) : list date_match :=
  let date_str := getAttribute P meta_tag (content known_meta_tag) in
  match parse_date_str date_str with
  | Some datetime_obj =>
      date_matches ++ [(datetime_obj, meta_tag_score meta_tag known_meta_tag datetime_obj)]
  | None => date_matches
  end.

(** The candidates of the known meta tags, appended to [date_matches]. *)
Definition meta_date_matches (doc : Doc P) (date_matches : list date_match)
  : list date_match :=
  fold_left (fun dm known_meta_tag =>
    let meta_tags :=
      getElementsByTag P doc None (Some (attribute known_meta_tag))
                       (Some (value known_meta_tag)) in
    fold_left (meta_tag_dates known_meta_tag) meta_tags dm)
    (PUBLISH_DATE_TAGS D) date_matches.

(** [date_matches] before it is sorted. *)
Definition collect_date_matches (url : string) (doc : Doc P)
  : Result (list date_match) :=
  date_matches <- jsonld_date_matches doc (url_date_matches url) ;;
  Ok (meta_date_matches doc date_matches).

Definition get_publishing_date (url : string) (doc : Doc P)
  : Result (option datetime) :=
  date_matches <- collect_date_matches url doc ;;
  let date_matches := sort_desc (fun x : date_match => snd x) date_matches in
  Ok (match date_matches with
      | x :: _ => Some (fst x)
      | [] => None
      end).

(** *** [get_title] and [split_title] *)

(** [get_meta_content] *)
Definition get_meta_content (doc : Doc P) (metaname : string) : string :=
  let meta := css_select P doc metaname in
  let content :=
    match meta with
    | meta0 :: _ => getAttribute P meta0 "content"
    | [] => None
    end in
  match content with
  | Some c => if Py.truthy c then Py.strip c else ""
  | None => ""
  end.

(** The characters the title filters keep: letters, digits and the space
    (the ideographs the filter of [get_title] also keeps lie outside the
    range of the model). *)
Definition title_char (c : ascii) : bool :=
  let n := Py.code c in
  Py.between 97 122 n || Py.between 65 90 n || Py.between 48 57 n || Ascii.eqb c " ".

(** [filter_regex.sub("", s)] *)
Definition filter_regex_sub (s : string) : string :=
  Py.replace_where (fun c => negb (title_char c)) "" s.

(** The loop of [split_title] over the pieces, from piece [i] on: the
    index of the piece it settles on. *)
Fixpoint largest_piece (hint : string) (title_pieces : list string) (i : nat)
  (large_text_length large_text_index : nat) : nat :=
  match title_pieces with
  | [] => large_text_index
  | title_piece :: rest =>
      let current := Py.strip title_piece in
      if Py.truthy hint && Py.contains hint (Py.lower (filter_regex_sub current))
      then i
      else if (large_text_length <? String.length current)%nat
      then largest_piece hint rest (S i) (String.length current) i
      else largest_piece hint rest (S i) large_text_length large_text_index
  end.

Definition split_title (title : string) (splitter : string -> list string)
  (hint : string) : Result string :=
  let title_pieces := splitter title in
  let hint := if Py.truthy hint then Py.lower (filter_regex_sub hint) else hint in
  let large_text_index := largest_piece hint title_pieces 0 0 0 in
  match nth_error title_pieces large_text_index with
  | Some title => Ok (Py.strip (TITLE_REPLACEMENTS D title))
  | None => Raise IndexError
  end.

Definition quoted (s : string) : string :=
  String Py.DQUOTE s ++ String Py.DQUOTE EmptyString.

(** One of the five [split title with ...] steps. *)
Definition split_step (delimiter : string) (splitter : string -> list string)
  (title_text_h1 : string) (st : string * bool) : Result (string * bool) :=
  let '(title_text, used_delimeter) := st in
  if negb used_delimeter && Py.contains delimiter title_text then
    title_text <- split_title title_text splitter title_text_h1 ;;
    Ok (title_text, true)
  else Ok st.

Definition get_title (doc : Doc P) : Result string :=
  let title_element := getElementsByTag P doc (Some "title") None None in
  match title_element with
  | [] => Ok ""
  | title_element0 :: _ =>
      let title_text := getText P title_element0 in
      let title_element_h1_list := getElementsByTag P doc (Some "h1") None None in
      let title_text_h1_list := map (getText P) title_element_h1_list in
      let title_text_h1 :=
        match sort_desc (fun s => Z.of_nat (String.length s)) title_text_h1_list with
        | [] => ""
        | longest :: _ =>
            let h :=
              if (length (Py.split_char " " longest) <=? 2)%nat then "" else longest in
            Py.join " " (filter Py.truthy (Py.split_ws h))
        end in
      let title_text_fb :=
        let by_property :=
          get_meta_content doc ("meta[property=" ++ quoted "og:title" ++ "]") in
        if Py.truthy by_property then by_property
        else get_meta_content doc ("meta[name=" ++ quoted "og:title" ++ "]") in
      let filter_title_text := Py.lower (filter_regex_sub title_text) in
      let filter_title_text_h1 := Py.lower (filter_regex_sub title_text_h1) in
      let filter_title_text_fb := Py.lower (filter_regex_sub title_text_fb) in
      let st :=
        if String.eqb title_text_h1 title_text then (title_text, true)
        else if Py.truthy filter_title_text_h1
                && String.eqb filter_title_text_h1 filter_title_text_fb
        then (title_text_h1, true)
        else if Py.truthy filter_title_text_h1
                && Py.contains filter_title_text_h1 filter_title_text
                && Py.truthy filter_title_text_fb
                && Py.contains filter_title_text_fb filter_title_text
                && (String.length title_text_fb <? String.length title_text_h1)%nat
        then (title_text_h1, true)
        else if Py.truthy filter_title_text_fb
                && negb (String.eqb filter_title_text_fb filter_title_text)
                && Py.startswith filter_title_text filter_title_text_fb
        then (title_text_fb, true)
        else (title_text, false) in
      st <- split_step "|" (PIPE_SPLITTER D) title_text_h1 st ;;
      st <- split_step "-" (DASH_SPLITTER D) title_text_h1 st ;;
      st <- split_step "_" (UNDERSCORE_SPLITTER D) title_text_h1 st ;;
      st <- split_step "/" (SLASH_SPLITTER D) title_text_h1 st ;;
      st <- split_step (String " " (String Py.RAQUO " ")) (ARROWS_SPLITTER D)
                       title_text_h1 st ;;
      let title := MOTLEY_REPLACEMENT D (fst st) in
      let filter_title := Py.lower (filter_regex_sub title) in
      if String.eqb filter_title_text_h1 filter_title then Ok title_text_h1
      else Ok title
  end.

(** *** [get_meta_data] *)

(** A value of the metadata tree: an [int], a [str] or a nested [dict]. *)
Inductive MetaValue : Type :=
| MInt (n : Z)
| MStr (s : string)
| MDict (d : list (string * MetaValue)).

(** [d[k] = v] on a dict: a key already present keeps its place. *)
Fixpoint dict_set {V : Type} (d : list (string * V)) (k : string) (v : V)
  : list (string * V) :=
  match d with
  | [] => [(k, v)]
  | (k', v') :: rest =>
      if String.eqb k' k then (k', v) :: rest else (k', v') :: dict_set rest k v
  end.

(** Truth value of a stored value, as [not ref.get(part)] reads it. *)
Definition meta_truthy (v : option MetaValue) : bool :=
  match v with
  | None => false
  | Some (MInt n) => negb (n =? 0)%Z
  | Some (MStr s) => Py.truthy s
  | Some (MDict d) => match d with [] => false | _ => true end
  end.

(** The loop over the parts of the key after its head, on the dict [ref]:
    the last part takes the value; a part before it is descended into,
    after a missing or false entry has been made an empty dict and a
    scalar entry a dict holding it as [identifier]. *)
Fixpoint store_parts (ref : list (string * MetaValue)) (key : list string)
  (val : MetaValue) : list (string * MetaValue) :=
  match key with
  | [] => ref
  | [part] => dict_set ref part val
  | part :: rest =>
      let sub :=
        if negb (meta_truthy (dict_get ref part)) then []
        else match dict_get ref part with
             | Some (MDict d) => d
             | Some scalar => [("identifier", scalar)]
             | None => []
             end in
      dict_set ref part (MDict (store_parts sub rest val))
  end.

(** The body of the loop over the meta elements. *)
(** [if value.isdigit(): value = int(value)] *)
Definition int_if_digit (val : string) : Result MetaValue :=
  if Py.isdigit val then
    match Py.int val with
    | Some n => Ok (MInt n)
    | None => Raise ValueError
    end
  else Ok (MStr val).

Definition meta_key (prop : Element) : option string :=
  or_else (dict_get (attrib prop) "property") (dict_get (attrib prop) "name").

Definition meta_val (prop : Element) : option string :=
  or_else (dict_get (attrib prop) "content") (dict_get (attrib prop) "value").

Definition meta_step (data : list (string * MetaValue)) (prop : Element)
  : Result (list (string * MetaValue)) :=
  let key := meta_key prop in
  let val := meta_val prop in
  if negb (truthy_opt key) || negb (truthy_opt val) then Ok data
  else
    match key, val with
    | Some key, Some val =>
        let key := Py.strip key in
        let val := Py.strip val in
        val <- int_if_digit val ;;
        if negb (Py.contains ":" key) then Ok (dict_set data key val)
        else
          match Py.split_char ":" key with
          | key_head :: key =>
              (* [data[key_head]] on the [defaultdict(dict)] *)
              let ref := match dict_get data key_head with
                         | Some r => r
                         | None => MDict []
                         end in
              let ref := match ref with
                         | MDict d => d
                         | scalar => [(key_head, scalar)]
                         end in
              Ok (dict_set data key_head (MDict (store_parts ref key val)))
          | [] => Ok data
          end
    | _, _ => Ok data
    end.

Definition get_meta_data (doc : Doc P) : Result (list (string * MetaValue)) :=
  let properties := css_select P doc "meta" in
  for_each meta_step properties [].

(** *** [get_canonical_link] *)

(** [str.format] of an optional string. *)
Definition format_opt (s : option string) : string :=
  match s with
  | Some s => s
  | None => "None"
  end.

(** The characters with a meaning of their own in a pattern, the dot
    apart. *)
Definition regex_special (c : ascii) : bool :=
  existsb (Ascii.eqb c) ["^"; "$"; "*"; "+"; "?"; "{"; "}"; "["; "]"; "\"; "|"; "("; ")"]%char.

(** A hostname whose characters stand for themselves in a pattern, but
    for its dots. *)
Definition plain_hostname (h : string) : bool :=
  Py.all_chars (fun c => negb (regex_special c)) h.

(** One character of the hostname, read as a pattern: a dot matches any
    character but a line feed. *)
Definition host_char_matches (p c : ascii) : bool :=
  if Ascii.eqb p "." then negb (Ascii.eqb c Py.LF) else Ascii.eqb p c.

(** The run matched by the final group: up to the first line feed. *)
Fixpoint line_of (s : string) : string :=
  match s with
  | EmptyString => EmptyString
  | String c s' => if Ascii.eqb c Py.LF then EmptyString else String c (line_of s')
  end.

(** The hostname, the slash it is followed by, and the final group, at
    the head of the text: the group. *)
Fixpoint hostname_at (h s : string) : option string :=
  match h, s with
  | EmptyString, String c rest => if Ascii.eqb c "/" then Some (line_of rest) else None
  | String p h', String c s' => if host_char_matches p c then hostname_at h' s' else None
  | _, EmptyString => None
  end.

(** [re.match] of the pattern made of: any run, the hostname, a slash,
    and the group of any run.  The first run is greedy: the match that
    starts the hostname latest wins.  This is the pattern of the code for
    a [plain_hostname]. *)
Fixpoint strip_hostname_in_meta_path (h s : string) : option string :=
  match s with
  | EmptyString => hostname_at h s
  | String c s' =>
      match (if Ascii.eqb c Py.LF then None else strip_hostname_in_meta_path h s') with
      | Some true_path => Some true_path
      | None => hostname_at h s
      end
  end.

(** [meta_url] as first assigned: [canonical or og_url or ""]. *)
Definition canonical_or_og_url (doc : Doc P) : string :=
  let links :=
    getElementsByTag P doc (Some "link") (Some "rel") (Some "canonical") in
  let canonical :=
    match links with
    | link0 :: _ => getAttribute P link0 "href"
    | [] => Some ""
    end in
  let og_url := get_meta_content doc ("meta[property=" ++ quoted "og:url" ++ "]") in
  format_opt_empty (or_else canonical (Some og_url)).

Definition get_canonical_link (article_url : string) (doc : Doc P) : string :=
  let meta_url := canonical_or_og_url doc in
  if Py.truthy meta_url then
    let meta_url := Py.strip meta_url in
    let parsed_meta_url := urlparse L meta_url in
    if negb (truthy_opt (hostname parsed_meta_url)) then
      let parsed_article_url := urlparse L article_url in
      let true_path :=
        match strip_hostname_in_meta_path
                (format_opt (hostname parsed_article_url)) (path parsed_meta_url) with
        | Some group1 => group1
        | None => path parsed_meta_url
        end in
      urlunparse L (scheme parsed_article_url) (hostname parsed_article_url) true_path
    else meta_url
  else meta_url.

End Extractor.

End ContentExtractor.

(** ** [Article] *)

Module Article.

Local Open Scope string_scope.

Inductive ArticleDownloadState : Type :=
| NOT_STARTED
| FAILED_RESPONSE
| SUCCESS.

(** The settings of [Configuration] the methods below read. *)
Record Configuration : Type := mkConfiguration {
  follow_meta_refresh : bool;
  MAX_TITLE : nat
}.

(** The fields of the [Article] object the methods below read or write;
    the fields filled by the extraction are left to [extract_fields]. *)
Record Article : Type := mkArticle {
  config : Configuration;
  url : string;
  original_url : string;
  title : string;
  read_more_link : string;
  html : string;
  is_parsed : bool;
  download_state : ArticleDownloadState;
  download_exception_msg : option string
}.

(** [newspaper.network], [utils.extract_meta_refresh], [urls.prepare_url]
    and the file system.  [get_html_2XX_only] returns the body and the
    status code, or the text of the [RequestException] it raised;
    [get_html] never raises; [open_read] returns the text of the file, or
    the [strerror] of the [OSError].  These are the two ends of a read
    that [_parse_scheme_file] handles; a read that raises an exception of
    another class (a file that does not decode) is not caught there and
    has no result in this record. *)
Record Network : Type := mkNetwork {
  get_html_2XX_only : string -> Configuration -> (string * Z) + string;
  get_html : string -> string;
  extract_meta_refresh : string -> option string;
  open_read : string -> string + option string;
  prepare_url : string -> string -> string
}.

(** What a method did on the outside. *)
Inductive Event : Type :=
| HttpGet (url : string)
| RefreshGet (url : string)
| FileRead (path : string).

(** A finished call: the article as the call left it, the exception it
    raised if any, and its events in order. *)
Record Outcome : Type := mkOutcome {
  article : Article;
  raised : option Exception;
  trace : list Event
}.

Definition set_download_failed (self : Article) (msg : option string) : Article :=
  mkArticle (config self) (url self) (original_url self) (title self)
            (read_more_link self) (html self) (is_parsed self)
            FAILED_RESPONSE msg.

Definition set_url (self : Article) (new_url : string) : Article :=
  mkArticle (config self) new_url (original_url self) (title self)
            (read_more_link self) (html self) (is_parsed self)
            (download_state self) (download_exception_msg self).

Definition set_is_parsed (self : Article) : Article :=
  mkArticle (config self) (url self) (original_url self) (title self)
            (read_more_link self) (html self) true
            (download_state self) (download_exception_msg self).

Definition set_title (self : Article) (input_title : option string) : Article :=
  if truthy_opt input_title then
    mkArticle (config self) (url self) (original_url self)
              (Py.take (MAX_TITLE (config self)) (format_opt_empty input_title))
              (read_more_link self) (html self) (is_parsed self)
              (download_state self) (download_exception_msg self)
  else self.

Definition set_html (self : Article) (html_ : string) : Article :=
  if Py.truthy html_ then
    mkArticle (config self) (url self) (original_url self) (title self)
              (read_more_link self) html_ (is_parsed self)
              SUCCESS (download_exception_msg self)
  else self.

(** The text of an [int]. *)
Definition str_of_int (n : Z) : string := NilZero.string_of_int (Z.to_int n).

Section Methods.

Variable P : Parser.
Variable L : Library.
Variable N : Network.

(** What [parse] does between its guard and [is_parsed = True], once the
    tree is built, and what [nlp] does after its guards: the work of the
    extractors and of the other collaborators. *)
Variable extract_fields : Article -> Doc P -> Result Article.
Variable nlp_fields : Article -> Result Article.

Definition _parse_scheme_file (self : Article) (path : string)
  : Article * option string * list Event :=
  match open_read N path with
  | inl fin => (self, Some fin, [FileRead path])
  | inr strerror => (set_download_failed self strerror, None, [FileRead path])
  end.

Definition _detect_protection (html : string) : option string :=
  if Py.contains "cloudflare" html then Some "Cloudflare"
  else if Py.contains "/cdn-cgi/challenge-platform/h/b/orchestrate/chl_page" html
  then Some "Cloudflare"
  else if Py.contains "CloudFront" html then Some "CloudFront"
  else if Py.contains "perimeterx" html then Some "PerimeterX"
  else None.

Definition _parse_scheme_http (self : Article) (url_ : option string)
  : Article * option string * list Event :=
  let target := if truthy_opt url_ then format_opt_empty url_ else url self in
  match get_html_2XX_only N target (config self) with
  | inl (html, stauts_code) =>
      if (400 <=? stauts_code)%Z then
        let msg :=
          match _detect_protection html with
          | Some protection =>
              "Website protected with " ++ protection ++ ", url: "
              ++ ContentExtractor.format_opt url_
          | None =>
              "Status code " ++ str_of_int stauts_code ++ " for url "
              ++ ContentExtractor.format_opt url_
          end in
        (set_download_failed self (Some msg), None, [HttpGet target])
      else (self, Some html, [HttpGet target])
  | inr e => (set_download_failed self (Some e), None, [HttpGet target])
  end.

(** The first block of [download]: the html to work on, [None] when the
    download failed. *)
Definition fetch (self : Article) (input_html : option string)
  : Article * option string * list Event :=
  match input_html with
  | None =>
      let parsed_url := urlparse L (url self) in
      if String.eqb (scheme parsed_url) "file"
      then _parse_scheme_file self (path parsed_url)
      else _parse_scheme_http self None
  | Some html => (self, Some html, [])
  end.

(** The target of the meta refresh [download] would follow. *)
Definition meta_refresh_target (self : Article) (html : string) : option string :=
  if follow_meta_refresh (config self) then
    match extract_meta_refresh N html with
    | Some meta_refresh_url =>
        if Py.truthy meta_refresh_url then Some meta_refresh_url else None
    | None => None
    end
  else None.

(** The block that follows the read-more link. *)
Definition follow_read_more (self : Article) (html : string) (ignore_read_more : bool)
  : Result (Article * string) * list Event :=
  if negb ignore_read_more && Py.truthy (read_more_link self) then
    match fromstring P html with
    | None => (Raise AttributeError, [])
    | Some doc =>
        match find (fun read_more_node =>
                      truthy_opt (dict_get (attrib read_more_node) "href"))
                   (xpath P doc (read_more_link self)) with
        | Some read_more_node =>
            let new_url := format_opt_empty (dict_get (attrib read_more_node) "href") in
            let new_url := prepare_url N new_url (url self) in
            match _parse_scheme_http self (Some new_url) with
            | (self, Some html_, tr) => (Ok (set_url self new_url, html_), tr)
            | (self, None, tr) => (Ok (self, html), tr)
            end
        | None => (Ok (self, html), [])
        end
    end
  else (Ok (self, html), []).

(** The end of [download], from the read-more block on. *)
Definition finish_download (self : Article) (html : string) (title : option string)
  (ignore_read_more : bool) (tr : list Event) : Outcome :=
  match follow_read_more self html ignore_read_more with
  | (Ok (self, html), tr') =>
      mkOutcome (set_title (set_html self html) title) None (tr ++ tr')
  | (Raise e, tr') => mkOutcome self (Some e) (tr ++ tr')
  end.

Definition after (tr : list Event) (o : Outcome) : Outcome :=
  mkOutcome (article o) (raised o) (tr ++ trace o).

Equations? download (self : Article) (input_html : option string)
  (title : option string) (recursion_counter : Z) (ignore_read_more : bool)
  : Outcome by wf (Z.to_nat (1 - recursion_counter)) lt :=
download self input_html title recursion_counter ignore_read_more
  with fetch self input_html => {
  | (self', None, tr) => mkOutcome self' None tr;
  | (self', Some html, tr)
      with meta_refresh_target self' html, Z_lt_dec recursion_counter 1 => {
      | Some meta_refresh_url, left _ =>
          after (tr ++ [RefreshGet meta_refresh_url])
                (download self' (Some (get_html N meta_refresh_url)) None
                          (recursion_counter + 1) false);
      | _, _ => finish_download self' html title ignore_read_more tr } }.
Proof.
  change (Z.to_nat (1 - (recursion_counter + 1)) < Z.to_nat (1 - recursion_counter))%nat.
  lia.
Qed.

Definition throw_if_not_downloaded_verbose (self : Article) : Result unit :=
  match download_state self with
  | NOT_STARTED => Raise (ArticleException "You must `download()` an article first!")
  | FAILED_RESPONSE =>
      Raise (ArticleException
               ("Article `download()` failed with "
                ++ ContentExtractor.format_opt (download_exception_msg self)
                ++ " on URL " ++ url self))
  | SUCCESS => Ok tt
  end.

Definition throw_if_not_parsed_verbose (self : Article) : Result unit :=
  if negb (is_parsed self)
  then Raise (ArticleException "You must `parse()` an article first!")
  else Ok tt.

Definition parse (self : Article) : Article * option Exception :=
  match throw_if_not_downloaded_verbose self with
  | Raise e => (self, Some e)
  | Ok _ =>
      match fromstring P (html self) with
      | None => (self, None)
      | Some doc =>
          match extract_fields self doc with
          | Ok self => (set_is_parsed self, None)
          | Raise e => (self, Some e)
          end
      end
  end.

Definition nlp (self : Article) : Article * option Exception :=
  match throw_if_not_downloaded_verbose self with
  | Raise e => (self, Some e)
  | Ok _ =>
      match throw_if_not_parsed_verbose self with
      | Raise e => (self, Some e)
      | Ok _ =>
          match nlp_fields self with
          | Ok self => (self, None)
          | Raise e => (self, Some e)
          end
      end
  end.

End Methods.

(** The article [__init__] leaves, for the prepared [url]. *)
Definition init (config_ : Configuration) (url_ title_ read_more_link_ : string)
  : Article :=
  mkArticle config_ url_ url_ title_ read_more_link_ "" false NOT_STARTED None.

End Article.

(** ** Notions the properties are stated with *)

(** The comparison of the author list: ignoring case, after trimming. *)
Definition author_key (s : string) : string := Py.strip (Py.lower s).

(** The distinct elements of a list in the order of their first
    occurrence. *)
Fixpoint first_seen (l : list string) : list string :=
  match l with
  | [] => []
  | x :: l' => x :: filter (fun y => negb (String.eqb y x)) (first_seen l')
  end.

(** [v] is the trimmed text of the first entry of [lst] with its key. *)
Definition first_casing (lst : list string) (v : string) : Prop :=
  exists l1 x l2,
    lst = l1 ++ x :: l2 /\ v = Py.strip x
    /\ Forall (fun y => author_key y <> author_key x) l1.

(** [v] is the trimmed text of the last entry of [lst] with its key. *)
Definition last_casing (lst : list string) (v : string) : Prop :=
  exists l1 x l2,
    lst = l1 ++ x :: l2 /\ v = Py.strip x
    /\ Forall (fun y => author_key y <> author_key x) l2.

(** A text that does not begin with whitespace. *)
Definition starts_clean (s : string) : bool :=
  match s with
  | EmptyString => true
  | String c _ => negb (Py.isspace c)
  end.

(** The dict [seen] of [uniqify_list] after the loop over [lst]. *)
Definition seen_of (lst : list string) : list (string * string) :=
  fold_left (fun seen item => ContentExtractor.od_set seen (Py.strip (Py.lower item)) (Py.strip item))
            lst [].

(** The penalty of a date for its age: 2 in the future, 1 when more
    than 25 years (of 365 days) old. *)
Definition age_penalty (today_ : Z) (d : datetime) : Z :=
  if (today_ <? toordinal d)%Z then 2
  else if (25 * 365 <? today_ - toordinal d)%Z then 1
  else 0.

(** The [name] attribute of the tag is exactly the expected value. *)
Definition name_matches (meta_tag : Element) (known_meta_tag : KnownMetaTag) : bool :=
  match dict_get (attrib meta_tag) "name" with
  | Some name => String.eqb name (value known_meta_tag)
  | None => false
  end.

(** The score of a candidate of the meta tags: 6, plus 2 for some tags,
    minus the penalty of its date. *)
Definition meta_scored (L : Library) (c : datetime * Z) : Prop :=
  exists name_bonus : bool,
    snd c = (6 + (if name_bonus then 2 else 0) - age_penalty (today L) (fst c))%Z.

(** [data[k1][k2]...[kn]] *)
Fixpoint path_get (d : list (string * ContentExtractor.MetaValue)) (keys : list string)
  : option ContentExtractor.MetaValue :=
  match keys with
  | [] => None
  | [k] => dict_get d k
  | k :: rest =>
      match dict_get d k with
      | Some (ContentExtractor.MDict d') => path_get d' rest
      | _ => None
      end
  end.

Definition is_scalar (v : ContentExtractor.MetaValue) : bool :=
  match v with
  | ContentExtractor.MDict _ => false
  | _ => true
  end.

(** [m] is a text the hostname [h], read as a pattern, matches. *)
Fixpoint host_matches (h m : string) : bool :=
  match h, m with
  | EmptyString, EmptyString => true
  | String p h', String c m' =>
      ContentExtractor.host_char_matches p c && host_matches h' m'
  | _, _ => false
  end.

Definition no_line_feed (s : string) : bool :=
  Py.all_chars (fun c => negb (Ascii.eqb c Py.LF)) s.

(** The meta refresh targets a call re-fetched. *)
Definition refresh_count (tr : list Article.Event) : nat :=
  length (filter (fun e => match e with Article.RefreshGet _ => true | _ => false end) tr).

(** ** Instances for the examples *)

Module Example.

(** [sep] splitting a text: [s.split(sep)], pieces in order. *)
Fixpoint split_str (sep : string) (skip : nat) (s : string) : list string :=
  match s with
  | EmptyString => [EmptyString]
  | String c s' =>
      match skip with
      | S k => split_str sep k s'
      | O =>
          if Py.truthy sep && Py.startswith s sep
          then EmptyString :: split_str sep (String.length sep - 1) s'
          else match split_str sep 0 s' with
               | piece :: rest => String c piece :: rest
               | [] => [String c EmptyString]
               end
      end
  end.

(** [s.replace(old, new)] *)
Fixpoint str_replace (old new : string) (skip : nat) (s : string) : string :=
  match s with
  | EmptyString => EmptyString
  | String c s' =>
      match skip with
      | S k => str_replace old new k s'
      | O =>
          if Py.truthy old && Py.startswith s old
          then (new ++ str_replace old new (String.length old - 1) s')%string
          else String c (str_replace old new 0 s')
      end
  end.

(** Modelled from the spec: the splitters of [defines] (its
    [StringSplitter] objects, absent from the sources), which split the
    title at the delimiter; an empty title has no pieces. *)
Definition splitter (sep : string) (s : string) : list string :=
  if Py.truthy s then split_str sep 0 s else [].

(** A run [/YYYY/MM/DD/] at the head of the text. *)
Definition date_path_at (s : string) : bool :=
  match s with
  | String "/" (String y1 (String y2 (String y3 (String y4
      (String "/" (String m1 (String m2
      (String "/" (String d1 (String d2 (String "/" _))))))))))) =>
      forallb Py.isdecimal_char [y1; y2; y3; y4; m1; m2; d1; d2]
  | _ => false
  end.

(** Modelled from the spec: the strict date pattern of [urls], absent
    from the sources, as far as the examples need it: the first run
    [/YYYY/MM/DD/] of the URL. *)
Fixpoint strict_date_search (s : string) : option string :=
  if date_path_at s then Some (Py.take 12 s)
  else match s with
       | EmptyString => None
       | String _ s' => strict_date_search s'
       end.

(** Modelled from the spec: the tables of [defines], absent from the
    sources: byline attributes and values, a role word the stopword
    filter removes, the replacement tables, the five delimiters in their
    order, and known date tags among which [article:published_time]. *)
Definition defines : Defines :=
  mkDefines
    ["name"; "rel"; "itemprop"; "class"; "id"]
    ["author"; "byline"]
    ["Reporter"]
    (str_replace "&#65533;" "" 0)
    (str_replace "&raquo;" (String Py.RAQUO "") 0)
    (splitter "|")
    (splitter " - ")
    (splitter "_")
    (splitter "/")
    (splitter (String " " (String Py.RAQUO " ")))
    [mkKnownMetaTag "property" "rnews:datePublished" "content";
     mkKnownMetaTag "property" "article:published_time" "content";
     mkKnownMetaTag "name" "OriginalPublicationDate" "content";
     mkKnownMetaTag "itemprop" "datePublished" "datetime"]
    strict_date_search.

Definition attr_is (attr value : option string) (e : Element) : bool :=
  match attr, value with
  | Some a, Some v =>
      match dict_get (attrib e) a with
      | Some x => String.eqb x v
      | None => false
      end
  | _, _ => true
  end.

Definition tag_is (t : option string) (e : Element) : bool :=
  match t with
  | Some t => String.eqb (tag e) t
  | None => true
  end.

Definition elements_by_tag (doc : list Element) (t attr value : option string)
  : list Element :=
  filter (fun e => tag_is t e && attr_is attr value e) doc.

Definition unquote (s : string) : string :=
  Py.replace_where (fun c => Ascii.eqb c Py.DQUOTE || Ascii.eqb c "]") "" s.

(** A selector [tag] or [tag[attr=value]]. *)
Definition select (doc : list Element) (selector : string) : list Element :=
  match Py.split_char "[" selector with
  | [t] => elements_by_tag doc (Some t) None None
  | t :: cond :: _ =>
      match Py.split_char "=" cond with
      | a :: v :: _ => elements_by_tag doc (Some t) (Some a) (Some (unquote v))
      | _ => []
      end
  | [] => []
  end.

(** Modelled from the spec: the tree construction and query collaborator
    ([newspaper.parsers], absent from the sources) over a document given
    as the list of its elements in document order; a query keeps the
    elements of the tag whose attribute has the value asked for.  Raw
    html is not parsed: [fromstring] yields the empty document. *)
Definition parser : Parser :=
  mkParser
    (fun _ : string => Some ([] : list Element))
    elements_by_tag
    select
    (fun e => format_opt_empty (text e))
    (fun e a => dict_get (attrib e) a)
    (fun _ _ => []).

Definition digits_of (s : string) : string :=
  Py.replace_where (fun c => negb (Py.isdecimal_char c)) "" s.

(** A date written as year, month and day in digits, with any
    separators. *)
Definition parse_ymd (s : string) : option datetime :=
  let ds := digits_of s in
  if (String.length ds =? 8)%nat then
    match Py.int (Py.take 4 ds), Py.int (Py.take 2 (Py.drop 4 ds)),
          Py.int (Py.drop 6 ds) with
    | Some y, Some m, Some d =>
        if ((1 <=? m) && (m <=? 12) && (1 <=? d) && (d <=? 31))%Z
        then Some (mkDatetime y m d "00:00:00")
        else None
    | _, _, _ => None
    end
  else None.

(** [urlparse] of [scheme://host/path] and of a bare path. *)
Definition parse_url (u : string) : ParseResult :=
  match String.index 0 "://" u with
  | Some i =>
      let rest := Py.drop (i + 3) u in
      match String.index 0 "/" rest with
      | Some j =>
          let host := Py.take j rest in
          mkParseResult (Py.take i u)
                        (if Py.truthy host then Some (Py.lower host) else None)
                        (Py.drop j rest)
      | None =>
          mkParseResult (Py.take i u)
                        (if Py.truthy rest then Some (Py.lower rest) else None) ""
      end
  | None => mkParseResult "" None u
  end.

(** [urlunparse] of a scheme, a host and a path. *)
Definition unparse_url (scheme_ : string) (netloc : option string) (url : string)
  : string :=
  let url :=
    if truthy_opt netloc
       || (existsb (String.eqb scheme_) ["http"; "https"; "ftp"; "file"]
           && negb (Py.startswith url "//"))
    then ("//" ++ format_opt_empty netloc
          ++ (if Py.truthy url && negb (Py.startswith url "/") then "/" ++ url else url))%string
    else url in
  if Py.truthy scheme_ then (scheme_ ++ ":" ++ url)%string else url.

(** The libraries of the examples: dates in digits, no JSON, URLs of the
    two shapes above, and the first of January 2024 as today. *)
Definition library : Library :=
  mkLibrary parse_ymd (fun _ => None) parse_url unparse_url
            (toordinal (mkDatetime 2024 1 1 "")).

Definition meta (attr value content_ : string) : Element :=
  mkElement "meta" [(attr, value); ("content", content_)] None [].

Definition titled (tag_ text_ : string) : Element :=
  mkElement tag_ [] (Some text_) [text_].

(** Two bylines of one author, in two casings. *)
Definition doc_two_bylines : list Element :=
  [meta "name" "author" "John Smith"; meta "name" "author" "JOHN SMITH"].

(** The title example of the specification. *)
Definition doc_foo_bar : list Element :=
  [titled "title" "Foo - Bar News"; titled "h1" "Foo"].

(** A title whose headline qualifies as a hint and is the shorter piece. *)
Definition doc_hinted : list Element :=
  [titled "title" "Foo Fighters Return - Bar News Daily Sentinel";
   titled "h1" "Foo Fighters Return"].

(** The date example of the specification. *)
Definition url_2023 : string := "https://example.com/2023/05/10/story".

Definition doc_2099 : list Element :=
  [meta "property" "article:published_time" "2099-01-01"].


(** A key that holds a scalar, then is the head of a deeper key. *)
Definition doc_head_prefix : list Element :=
  [meta "property" "article" "x"; meta "property" "article:author" "y"].

(** A key below the head that holds a scalar, then is a prefix. *)
Definition doc_nested_prefix : list Element :=
  [meta "property" "og:image" "http://i.test/a.png";
   meta "property" "og:image:width" "640"].

(** A value of whitespace only. *)
Definition doc_blank_value : list Element := [meta "name" "k" " "].

Definition refresh_page : string :=
  ("<meta http-equiv=" ++ ContentExtractor.quoted "refresh" ++ " content="
   ++ ContentExtractor.quoted "0;url=http://a.test/next" ++ ">")%string.

Definition final_page : string := "<html>final</html>".

Definition pages (u : string) : string :=
  if String.eqb u "http://a.test/start" then refresh_page
  else if String.eqb u "http://a.test/next" then final_page
  else "".

(** The target of a refresh directive written as in [refresh_page]. *)
Definition refresh_url (html : string) : option string :=
  if Py.contains ("http-equiv=" ++ ContentExtractor.quoted "refresh")%string html then
    match String.index 0 "url=" html with
    | Some i => Some (fst (ContentExtractor.span_unquoted (Py.drop (i + 4) html)))
    | None => None
    end
  else None.

(** A network that serves [pages] with status 200. *)
Definition network : Article.Network :=
  Article.mkNetwork
    (fun u _ => inl (pages u, 200%Z))
    pages
    refresh_url
    (fun _ => inr None)
    (fun u _ => u).

(** A network on which every page redirects to the next one, for ever. *)
Definition looping_network : Article.Network :=
  Article.mkNetwork
    (fun u _ => inl (refresh_page, 200%Z))
    (fun _ => refresh_page)
    refresh_url
    (fun _ => inr None)
    (fun u _ => u).

(** A network on which every page is answered with status 404. *)
Definition network_404 : Article.Network :=
  Article.mkNetwork
    (fun u _ => inl ("Not Found", 404%Z))
    (fun _ => "")
    (fun _ => None)
    (fun _ => inr None)
    (fun u _ => u).

(** Extraction and analysis that change nothing, for the examples of the
    guards. *)
Definition no_extraction (self : Article.Article) (doc : list Element)
  : Result Article.Article := Ok self.

Definition no_analysis (self : Article.Article) : Result Article.Article := Ok self.

Definition configuration : Article.Configuration := Article.mkConfiguration true 200.

Definition fresh_article : Article.Article :=
  Article.init configuration "http://a.test/start" "" "".

End Example.

(** The selectors of the Open Graph title. *)
Definition og_title_by_property : string :=
  ("meta[property=" ++ ContentExtractor.quoted "og:title" ++ "]")%string.

Definition og_title_by_name : string :=
  ("meta[name=" ++ ContentExtractor.quoted "og:title" ++ "]")%string.

(** A document whose first title element reads [title_], whose headlines
    read [h1s], and that holds no Open Graph title. *)
Definition titled_document (P : Parser) (doc : Doc P) (title_ : string)
  (h1s : list string) : Prop :=
  (exists t rest,
      getElementsByTag P doc (Some "title") None None = t :: rest
      /\ getText P t = title_)
  /\ map (getText P) (getElementsByTag P doc (Some "h1") None None) = h1s
  /\ css_select P doc og_title_by_property = []
  /\ css_select P doc og_title_by_name = [].

(** The dash splitter cuts [Foo - Bar News] in its two pieces, which the
    replacement tables leave as they are. *)
Definition splits_foo_bar (D : Defines) : Prop :=
  exists p1 p2,
    DASH_SPLITTER D "Foo - Bar News" = [p1; p2]
    /\ Py.strip p1 = "Foo"
    /\ Py.strip p2 = "Bar News"
    /\ Py.strip (TITLE_REPLACEMENTS D p2) = "Bar News"
    /\ MOTLEY_REPLACEMENT D "Bar News" = "Bar News".

(** The filtered form of a text, as the title heuristics compare it. *)
Definition filtered (s : string) : string :=
  Py.lower (ContentExtractor.filter_regex_sub s).

(** The selector of the Open Graph URL. *)
Definition og_url_selector : string :=
  ("meta[property=" ++ ContentExtractor.quoted "og:url" ++ "]")%string.

(** The dict reached from [d] through the keys [keys], each holding a
    dict. *)
Fixpoint dict_at (d : list (string * ContentExtractor.MetaValue)) (keys : list string)
  : option (list (string * ContentExtractor.MetaValue)) :=
  match keys with
  | [] => Some d
  | k :: rest =>
      match dict_get d k with
      | Some (ContentExtractor.MDict d') => dict_at d' rest
      | _ => None
      end
  end.

(** A text made of decimal digits, at least one. *)
Definition decimal (s : string) : bool :=
  Py.truthy s && Py.all_chars Py.isdecimal_char s.

(** A numeral [int] converts: decimal digits, at least one and at most
    [int_max_str_digits]. *)
Definition numeral (s : string) : bool :=
  decimal s && (String.length s <=? Py.int_max_str_digits)%nat.

(** The dict the parts after the head are stored in: the dict held by
    the head, a new dict, or the scalar held by the head wrapped under the
    name of the head. *)
Definition head_ref (data : list (string * ContentExtractor.MetaValue)) (key_head : string)
  : list (string * ContentExtractor.MetaValue) :=
  match dict_get data key_head with
  | Some (ContentExtractor.MDict d) => d
  | Some scalar => [(key_head, scalar)]
  | None => []
  end.

(** Every string stored in the value is whitespace-stripped and is not a
    text of digits. *)
Fixpoint stripped_value (v : ContentExtractor.MetaValue) : bool :=
  match v with
  | ContentExtractor.MInt _ => true
  | ContentExtractor.MStr s => String.eqb (Py.strip s) s && negb (Py.isdigit s)
  | ContentExtractor.MDict d =>
      (fix all (l : list (string * ContentExtractor.MetaValue)) : bool :=
         match l with
         | [] => true
         | (_, x) :: l' => stripped_value x && all l'
         end) d
  end.

Definition stripped_dict (d : list (string * ContentExtractor.MetaValue)) : bool :=
  stripped_value (ContentExtractor.MDict d).

(** ** Notions of the further properties *)

(** A token of a name: not empty, made of word characters, apostrophes,
    hyphens and periods, and without a decimal digit. *)
Definition name_token (t : string) : bool :=
  Py.truthy t
  && Py.all_chars (fun c => negb (ContentExtractor.name_separator c)) t
  && Py.all_chars (fun c => negb (Py.isdecimal_char c)) t.

(** A name: one token or more, joined by single spaces. *)
Definition well_formed_name (n : string) : Prop :=
  exists tokens,
    tokens <> [] /\ n = Py.join " " tokens
    /\ Forall (fun t => name_token t = true) tokens.

(** The length of a piece of a title once stripped, as [split_title]
    measures it. *)
Definition piece_length (q : string) : nat := String.length (Py.strip q).

(** A date is held by a structured source: the URL or a JSON-LD script. *)
Definition structured_dates (P : Parser) (D : Defines) (L : Library)
  (url_ : string) (doc : Doc P) : Result (list (datetime * Z)) :=
  ContentExtractor.jsonld_date_matches P L doc (ContentExtractor.url_date_matches D L url_).

(** The head of a meta key: its part before the first colon, once
    stripped. *)
Definition key_head_of (k : string) : string :=
  hd "" (Py.split_char ":" (Py.strip k)).


(** The [application/ld+json] scripts of a document, as
    [get_publishing_date] asks for them. *)
Definition ld_json_scripts (P : Parser) (doc : Doc P) : list Element :=
  getElementsByTag P doc (Some "script") (Some "type") (Some "application/ld+json").

(** A script searched as raw text: it has a text and its class does not
    name the schema graph. *)
Definition searched_script (script_tag : Element) : bool :=
  match text script_tag with
  | Some _ =>
      negb (Py.contains "yoast-schema-graph"
              match dict_get (attrib script_tag) "class" with
              | Some c => c
              | None => ""
              end)
  | None => false
  end.

(** A script without text whose class does not name the schema graph. *)
Definition textless_script (script_tag : Element) : bool :=
  match text script_tag with
  | Some _ => false
  | None =>
      negb (Py.contains "yoast-schema-graph"
              match dict_get (attrib script_tag) "class" with
              | Some c => c
              | None => ""
              end)
  end.

(** A JSON-LD script holding a date of 2022, and a meta tag holding a
    date of 2023 under the expected name. *)
Definition ld_json_script (text_ : option string) : Element :=
  mkElement "script" [("type", "application/ld+json")] text_ [].

Definition doc_json_ld : list Element :=
  [mkElement "meta" [("property", "article:published_time");
                     ("name", "article:published_time");
                     ("content", "2023-05-10")] None [];
   ld_json_script
     (Some ("{" ++ ContentExtractor.quoted "datePublished" ++ ": "
            ++ ContentExtractor.quoted "2022-03-04" ++ "}")%string)].

Definition doc_textless_script : list Element :=
  [ld_json_script None].


(** The top-level key a meta element is stored under: the head of its
    key, when it has a key and a value that are not empty. *)
Definition stored_head (prop : Element) : option string :=
  match ContentExtractor.meta_key prop, ContentExtractor.meta_val prop with
  | Some k, Some v => if Py.truthy k && Py.truthy v then Some (key_head_of k) else None
  | _, _ => None
  end.

Definition stored_heads (props : list Element) : list string :=
  flat_map (fun prop => match stored_head prop with
                        | Some h => [h]
                        | None => []
                        end) props.

(** The value of a meta element reads as an integer, or is not made of
    digits. *)
Definition readable_value (prop : Element) : bool :=
  match ContentExtractor.meta_val prop with
  | Some v => implb (Py.isdigit (Py.strip v)) (numeral (Py.strip v))
  | None => true
  end.

(** A value made of a superscript two. *)
Definition doc_superscript : list Element :=
  [Example.meta "name" "k" (String (Py.chr 178) "")].


(** An Open Graph URL that is a bare file name, and a canonical link
    with an absolute URL. *)
Definition doc_og_relative : list Element :=
  [Example.meta "property" "og:url" "article.html"].

Definition doc_canonical_absolute : list Element :=
  [mkElement "link" [("rel", "canonical"); ("href", " https://other.test/a ")] None []].


(** ** [Article.build] and notions of the download *)

Section Build.

Variable P : Parser.
Variable L : Library.
Variable N : Article.Network.
Variable extract_fields : Article.Article -> Doc P -> Result Article.Article.
Variable nlp_fields : Article.Article -> Result Article.Article.

(** [build]: [download()], [parse()] and [nlp()] in succession; the
    first exception raised ends the call. *)
Definition build (self : Article.Article) : Article.Outcome :=
  let o := Article.download P L N self None None 0 false in
  match Article.raised o with
  | Some _ => o
  | None =>
      match Article.parse P extract_fields (Article.article o) with
      | (self, Some e) => Article.mkOutcome self (Some e) (Article.trace o)
      | (self, None) =>
          let '(self, r) := Article.nlp nlp_fields self in
          Article.mkOutcome self r (Article.trace o)
      end
  end.

End Build.

(** An article in the state [SUCCESS] holds an html that is not empty. *)
Definition downloaded_html (a : Article.Article) : Prop :=
  Article.download_state a = Article.SUCCESS -> Py.truthy (Article.html a) = true.

(** The fields of an article that a download does not write. *)
Definition same_settings (a b : Article.Article) : Prop :=
  Article.config a = Article.config b
  /\ Article.original_url a = Article.original_url b
  /\ Article.read_more_link a = Article.read_more_link b
  /\ Article.is_parsed a = Article.is_parsed b.

(** The read-more block is skipped. *)
Definition no_read_more (self : Article.Article) (ignore_read_more : bool) : bool :=
  ignore_read_more || negb (Py.truthy (Article.read_more_link self)).

(** The node the read-more block follows, and the URL it fetches. *)
Definition read_more_node (P : Parser) (self : Article.Article) (html_ : string)
  : option Element :=
  match fromstring P html_ with
  | Some doc =>
      find (fun read_more_node => truthy_opt (dict_get (attrib read_more_node) "href"))
           (xpath P doc (Article.read_more_link self))
  | None => None
  end.

Definition read_more_url (N : Article.Network) (self : Article.Article)
  (node : Element) : string :=
  Article.prepare_url N (format_opt_empty (dict_get (attrib node) "href"))
                      (Article.url self).

(** Modelled from the spec: a tree builder (absent from the sources)
    whose every document is one link to the full article, found by every
    xpath. *)
Definition read_more_parser : Parser :=
  mkParser
    (fun _ : string => Some [mkElement "a" [("href", "http://a.test/full")] None []])
    Example.elements_by_tag
    Example.select
    (fun e => format_opt_empty (text e))
    (fun e a => dict_get (attrib e) a)
    (fun doc _ => doc).

(** Modelled from the spec: a tree builder (absent from the sources)
    that yields no document. *)
Definition no_tree_parser : Parser :=
  mkParser
    (fun _ : string => None)
    Example.elements_by_tag
    Example.select
    (fun e => format_opt_empty (text e))
    (fun e a => dict_get (attrib e) a)
    (fun (_ : list Element) _ => []).

(** A network that serves a teaser and the full article. *)
Definition network_full : Article.Network :=
  Article.mkNetwork
    (fun u _ => if String.eqb u "http://a.test/full"
                then inl ("<html>full</html>", 200%Z)
                else inl ("<html>teaser</html>", 200%Z))
    (fun _ => "")
    (fun _ => None)
    (fun _ => inr None)
    (fun u _ => u).

(** A network that serves the teaser and answers 404 for the full
    article. *)
Definition network_teaser_only : Article.Network :=
  Article.mkNetwork
    (fun u _ => if String.eqb u "http://a.test/full"
                then inl ("Not Found", 404%Z)
                else inl ("<html>teaser</html>", 200%Z))
    (fun _ => "")
    (fun _ => None)
    (fun _ => inr None)
    (fun u _ => u).

(** A network whose every page is empty, with status 200. *)
Definition network_empty : Article.Network :=
  Article.mkNetwork
    (fun u _ => inl ("", 200%Z))
    (fun _ => "")
    (fun _ => None)
    (fun _ => inr None)
    (fun u _ => u).

Definition teaser_article : Article.Article :=
  Article.init Example.configuration "http://a.test/teaser" "" "//a".


(** What a call of [download] keeps: the settings of the article, the
    html of an article in the state [SUCCESS], and no exception but the
    [AttributeError] of the read-more block. *)
Definition download_kept (self : Article.Article) (o : Article.Outcome) : Prop :=
  same_settings (Article.article o) self
  /\ (downloaded_html self -> downloaded_html (Article.article o))
  /\ (forall e, Article.raised o = Some e ->
        e = AttributeError /\ Py.truthy (Article.read_more_link self) = true).


(** Every splitter of the title yields a piece, for every title that is
    not empty. *)
Definition splitters_yield (D : Defines) : Prop :=
  forall s,
    Py.truthy s = true ->
    PIPE_SPLITTER D s <> [] /\ DASH_SPLITTER D s <> []
    /\ UNDERSCORE_SPLITTER D s <> [] /\ SLASH_SPLITTER D s <> []
    /\ ARROWS_SPLITTER D s <> [].


(** ** [get_meta_lang] *)

Section MetaLang.

Variable P : Parser.

(** The document read as its root element, on which [get_meta_lang] asks
    for the [lang] attribute. *)
Variable root : Doc P -> Element.

(** [re.search(RE_LANG, value)], of [defines], as a truth value. *)
Variable RE_LANG_search : string -> bool.

Definition get_meta_lang (doc : Doc P) : option string :=
  let attr := getAttribute P (root doc) "lang" in
  let attr :=
    match attr with
    | None =>
        match getElementsByTag P doc (Some "meta") (Some "http-equiv")
                               (Some "content-language") with
        | meta0 :: _ => getAttribute P meta0 "content"
        | [] =>
            match getElementsByTag P doc (Some "meta") (Some "name") (Some "lang") with
            | meta0 :: _ => getAttribute P meta0 "content"
            | [] => None
            end
        end
    | Some _ => attr
    end in
  if truthy_opt attr then
    let value := Py.take 2 (format_opt_empty attr) in
    if RE_LANG_search value then Some (Py.lower value) else None
  else None.

End MetaLang.

(** Modelled from the spec: the root element of a document of the
    examples (the tree layer is absent from the sources), with the [lang]
    attribute given. *)
Definition root_lang (lang : option string) (_ : list Element) : Element :=
  mkElement "html"
            match lang with
            | Some l => [("lang", l)]
            | None => []
            end None [].

(** Modelled from the spec: a language pattern ([RE_LANG] of [defines],
    absent from the sources) that accepts exactly two letters. *)
Definition two_letters (value : string) : bool :=
  (String.length value =? 2)%nat
  && Py.all_chars (fun c => Py.between 65 90 (Py.code c) || Py.between 97 122 (Py.code c))
                  value.

(** A page whose meta element declares a language, and one whose
    [content-language] element has no content. *)
Definition doc_meta_lang : list Element :=
  [mkElement "meta" [("name", "lang"); ("content", "FR-fr")] None []].

Definition doc_content_language : list Element :=
  [mkElement "meta" [("http-equiv", "content-language")] None [];
   mkElement "meta" [("name", "lang"); ("content", "FR-fr")] None []].


(** The numeral of [n] digits nine. *)
Fixpoint nines (n : nat) : string :=
  match n with
  | O => EmptyString
  | S k => String "9" (nines k)
  end.






(** ** The date candidates as the specification words them *)











(* ===================================================================== *)
(** * Part II: the properties *)
(* ===================================================================== *)

Import ContentExtractor.

Unset Implicit Arguments.

(** ** Facts on strings *)

Lemma isspace_lower_char c : Py.isspace (Py.lower_char c) = Py.isspace c.
Proof.
  destruct c as [[] [] [] [] [] [] [] []]; reflexivity.
Qed.

Lemma lstrip_lower s : Py.lstrip (Py.lower s) = Py.lower (Py.lstrip s).
Proof.
  induction s as [|c s IH]; simpl; [reflexivity|].
  rewrite isspace_lower_char. destruct (Py.isspace c); [exact IH | reflexivity].
Qed.

Lemma rstrip_lower s : Py.rstrip (Py.lower s) = Py.lower (Py.rstrip s).
Proof.
  induction s as [|c s IH]; simpl; [reflexivity|].
  rewrite IH. destruct (Py.rstrip s); simpl.
  - rewrite isspace_lower_char. destruct (Py.isspace c); reflexivity.
  - reflexivity.
Qed.

Lemma strip_lower s : Py.strip (Py.lower s) = Py.lower (Py.strip s).
Proof.
  unfold Py.strip. rewrite lstrip_lower. apply rstrip_lower.
Qed.

Lemma rstrip_idem s : Py.rstrip (Py.rstrip s) = Py.rstrip s.
Proof.
  induction s as [|c s IH]; simpl; [reflexivity|].
  destruct (Py.rstrip s) as [|c' r] eqn:E.
  - destruct (Py.isspace c) eqn:Hc; simpl; [reflexivity|]. rewrite Hc. reflexivity.
  - simpl in *. rewrite IH. reflexivity.
Qed.

Lemma lstrip_starts_clean s : starts_clean (Py.lstrip s) = true.
Proof.
  induction s as [|c s IH]; simpl; [reflexivity|].
  destruct (Py.isspace c) eqn:Hc; [exact IH|]. simpl. rewrite Hc. reflexivity.
Qed.

Lemma lstrip_clean s : starts_clean s = true -> Py.lstrip s = s.
Proof.
  destruct s as [|c s]; simpl; [reflexivity|].
  destruct (Py.isspace c); [discriminate | reflexivity].
Qed.

Lemma rstrip_starts_clean s : starts_clean s = true -> starts_clean (Py.rstrip s) = true.
Proof.
  destruct s as [|c s]; simpl; [reflexivity|].
  intros Hc. destruct (Py.rstrip s); simpl.
  - destruct (Py.isspace c) eqn:E; simpl; [reflexivity|]. rewrite E. reflexivity.
  - exact Hc.
Qed.

Lemma strip_idem s : Py.strip (Py.strip s) = Py.strip s.
Proof.
  unfold Py.strip.
  rewrite (lstrip_clean (Py.rstrip (Py.lstrip s))).
  - apply rstrip_idem.
  - apply rstrip_starts_clean, lstrip_starts_clean.
Qed.

Lemma author_key_strip x : author_key (Py.strip x) = author_key x.
Proof.
  unfold author_key. rewrite !strip_lower, strip_idem. reflexivity.
Qed.

Lemma startswith_refl_app p s : Py.startswith (p ++ s)%string p = true.
Proof.
  induction p as [|c p IH]; simpl.
  - destruct s; reflexivity.
  - rewrite Ascii.eqb_refl. exact IH.
Qed.

Lemma startswith_app_l s t p :
  Py.startswith s p = true -> Py.startswith (s ++ t)%string p = true.
Proof.
  revert s. induction p as [|c p IH]; intros s; simpl.
  - destruct (s ++ t)%string; reflexivity.
  - destruct s as [|b s]; simpl; [discriminate|].
    intros H. apply andb_true_iff in H as [-> H]. simpl. apply IH, H.
Qed.

Lemma contains_cons sub c s :
  Py.contains sub (String c s) = Py.startswith (String c s) sub || Py.contains sub s.
Proof. reflexivity. Qed.

Lemma contains_app_l sub s t :
  Py.contains sub s = true -> Py.contains sub (s ++ t)%string = true.
Proof.
  induction s as [|c s IH]; intros H.
  - destruct sub; [destruct t; reflexivity | discriminate].
  - change (String c s ++ t)%string with (String c (s ++ t)).
    rewrite contains_cons in *. apply orb_true_iff in H as [H|H].
    + change (String c (s ++ t)) with (String c s ++ t)%string.
      rewrite (startswith_app_l _ t _ H). reflexivity.
    + rewrite (IH H). apply orb_true_r.
Qed.

Lemma contains_app_r sub s t :
  Py.contains sub t = true -> Py.contains sub (s ++ t)%string = true.
Proof.
  intros H. induction s as [|c s IH]; [exact H|].
  change (String c s ++ t)%string with (String c (s ++ t)).
  rewrite contains_cons, IH. apply orb_true_r.
Qed.

(** ** The author list ([uniqify_list], [get_authors]) *)

Lemma od_set_keys_in seen k v :
  In k (map fst seen) -> map fst (od_set seen k v) = map fst seen.
Proof.
  induction seen as [|[k0 v0] rest IH]; simpl; [tauto|].
  intros H. destruct (String.eqb_spec k0 k) as [->|Hne]; simpl; [reflexivity|].
  destruct H as [H|H]; [contradiction|]. rewrite (IH H). reflexivity.
Qed.

Lemma od_set_keys_notin seen k v :
  ~ In k (map fst seen) -> map fst (od_set seen k v) = map fst seen ++ [k].
Proof.
  induction seen as [|[k0 v0] rest IH]; simpl; [reflexivity|].
  intros H. destruct (String.eqb_spec k0 k) as [->|Hne]; simpl; [tauto|].
  rewrite IH; tauto.
Qed.

Lemma od_set_In seen k v k' v' :
  NoDup (map fst seen) ->
  In (k', v') (od_set seen k v) ->
  (k' = k /\ v' = v) \/ (k' <> k /\ In (k', v') seen).
Proof.
  induction seen as [|[k0 v0] rest IH]; simpl; intros Hnd H.
  - destruct H as [H|[]]. inversion H. auto.
  - inversion Hnd as [|? ? Hnotin Hnd']; subst.
    destruct (String.eqb_spec k0 k) as [->|Hne]; simpl in H.
    + destruct H as [H|H]; [inversion H; auto|].
      right. split; [|auto]. intros ->. apply Hnotin.
      change k with (fst (k, v')). apply in_map, H.
    + destruct H as [H|H].
      * inversion H; subst. right. split; auto.
      * destruct (IH Hnd' H) as [?|[? ?]]; auto.
Qed.

Lemma first_seen_In x l : In x (first_seen l) <-> In x l.
Proof.
  induction l as [|a l IH]; simpl; [tauto|].
  rewrite filter_In, IH. destruct (String.eqb_spec x a) as [->|Hne]; simpl.
  - tauto.
  - split; [tauto|]. intros [H|H]; [congruence | auto].
Qed.

Lemma first_seen_NoDup l : NoDup (first_seen l).
Proof.
  induction l as [|a l IH]; simpl; constructor.
  - rewrite filter_In, String.eqb_refl. simpl. intros [_ H]. discriminate.
  - apply NoDup_filter, IH.
Qed.

Lemma first_seen_snoc l a :
  first_seen (l ++ [a])
  = if in_dec string_dec a l then first_seen l else first_seen l ++ [a].
Proof.
  induction l as [|x l IH]; simpl; [reflexivity|].
  rewrite IH. destruct (in_dec string_dec a l) as [Hin|Hnin].
  - destruct (string_dec x a); reflexivity.
  - rewrite filter_app. simpl.
    destruct (string_dec x a) as [->|Hne].
    + rewrite String.eqb_refl. simpl. rewrite app_nil_r. reflexivity.
    + destruct (String.eqb_spec a x) as [->|_]; [congruence|]. reflexivity.
Qed.

Lemma seen_of_snoc lst x :
  seen_of (lst ++ [x]) = od_set (seen_of lst) (author_key x) (Py.strip x).
Proof.
  unfold seen_of. rewrite fold_left_app. reflexivity.
Qed.

Lemma seen_of_keys lst : map fst (seen_of lst) = first_seen (map author_key lst).
Proof.
  induction lst as [|x lst IH] using rev_ind; [reflexivity|].
  rewrite seen_of_snoc, map_app. simpl (map author_key [x]).
  rewrite first_seen_snoc.
  destruct (in_dec string_dec (author_key x) (map author_key lst)) as [Hin|Hnin].
  - rewrite od_set_keys_in; [exact IH|]. rewrite IH. apply first_seen_In, Hin.
  - rewrite od_set_keys_notin, IH; [reflexivity|].
    rewrite IH, first_seen_In. exact Hnin.
Qed.

Lemma seen_of_NoDup lst : NoDup (map fst (seen_of lst)).
Proof.
  rewrite seen_of_keys. apply first_seen_NoDup.
Qed.

Lemma seen_of_values lst k v :
  In (k, v) (seen_of lst) ->
  exists l1 x l2,
    lst = l1 ++ x :: l2 /\ author_key x = k /\ v = Py.strip x
    /\ Forall (fun y => author_key y <> author_key x) l2.
Proof.
  revert k v. induction lst as [|x lst IH] using rev_ind; intros k v H.
  - destruct H.
  - rewrite seen_of_snoc in H.
    apply od_set_In in H; [|apply seen_of_NoDup].
    destruct H as [[-> ->]|[Hne H]].
    + exists lst, x, []. auto.
    + destruct (IH _ _ H) as (l1 & y & l2 & -> & Hk & -> & Hl2).
      exists l1, y, (l2 ++ [x]). rewrite <- app_assoc. simpl.
      repeat split; auto. apply Forall_app. split; [exact Hl2|].
      constructor; [|constructor]. congruence.
Qed.

Lemma uniqify_list_keys lst :
  map author_key (uniqify_list lst)
  = filter Py.truthy (first_seen (map author_key lst)).
Proof.
  unfold uniqify_list. fold (seen_of lst).
  rewrite <- seen_of_keys.
  assert (H : forall k v, In (k, v) (seen_of lst) -> author_key v = k).
  { intros k v Hin. apply seen_of_values in Hin as (l1 & x & l2 & _ & <- & -> & _).
    apply author_key_strip. }
  induction (seen_of lst) as [|[k v] rest IH]; simpl; [reflexivity|].
  destruct (Py.truthy k); simpl.
  - rewrite (H k v); [|left; reflexivity]. f_equal. apply IH.
    intros; apply H; right; assumption.
  - apply IH. intros; apply H; right; assumption.
Qed.

Lemma uniqify_list_last_casing lst v :
  In v (uniqify_list lst) -> last_casing lst v.
Proof.
  unfold uniqify_list. fold (seen_of lst). intros H.
  apply in_map_iff in H as ([k v'] & <- & H). apply filter_In in H as [H _].
  apply seen_of_values in H as (l1 & x & l2 & -> & _ & -> & Hl2).
  exists l1, x, l2. auto.
Qed.

(** C3, as the code has it: for every document the author list
    [get_authors] returns holds no two entries equal under the
    case-insensitive, trimmed comparison; its entries come in the order in
    which their keys are first seen among the parsed bylines; and every
    entry is the trimmed text of the LAST byline entry with its key (the
    casing of the last occurrence, not of the first). *)
Theorem C3_get_authors_dedup_last_casing :
  forall (P : Parser) (D : Defines) (doc : Doc P),
    let lst := author_candidates P D doc in
    let out := get_authors P D doc in
    NoDup (map author_key out)
    /\ map author_key out = filter Py.truthy (first_seen (map author_key lst))
    /\ forall v, In v out -> last_casing lst v.
Proof.
  intros P D doc lst out. unfold out, get_authors. fold lst.
  split; [|split].
  - rewrite uniqify_list_keys. apply NoDup_filter, first_seen_NoDup.
  - apply uniqify_list_keys.
  - apply uniqify_list_last_casing.
Qed.

(** C3 as stated fails: of the bylines [John Smith] and [JOHN SMITH] the
    list keeps [JOHN SMITH], which is not the casing of the first
    occurrence. *)
Lemma C3_first_casing_counterexample :
  author_candidates Example.parser Example.defines Example.doc_two_bylines
  = ["John Smith"; "JOHN SMITH"]
  /\ get_authors Example.parser Example.defines Example.doc_two_bylines
     = ["JOHN SMITH"]
  /\ uniqify_list ["John Smith"; "JOHN SMITH"] = ["JOHN SMITH"]
  /\ ~ (forall v,
          In v (get_authors Example.parser Example.defines Example.doc_two_bylines) ->
          first_casing
            (author_candidates Example.parser Example.defines Example.doc_two_bylines) v).
Proof.
  assert (E1 : author_candidates Example.parser Example.defines Example.doc_two_bylines
               = ["John Smith"; "JOHN SMITH"]) by (vm_compute; reflexivity).
  assert (E2 : get_authors Example.parser Example.defines Example.doc_two_bylines
               = ["JOHN SMITH"]) by (vm_compute; reflexivity).
  split; [exact E1|]. split; [exact E2|]. split; [vm_compute; reflexivity|].
  rewrite E1, E2. intros H.
  destruct (H "JOHN SMITH" (or_introl eq_refl)) as (l1 & x & l2 & Hl & Hv & Hfirst).
  destruct l1 as [|a l1].
  - simpl in Hl. inversion Hl; subst. vm_compute in Hv. discriminate.
  - simpl in Hl. inversion Hl; subst a.
    destruct l1 as [|b l1]; simpl in *.
    + match goal with E : _ = _ :: _ |- _ => inversion E; subst end.
      inversion Hfirst as [|? ? Hk _]; subst. apply Hk. vm_compute. reflexivity.
    + match goal with E : [_] = _ :: _ |- _ => inversion E as [[Hb Ht]] end.
      destruct l1; discriminate.
Qed.

(** ** The byline parser ([parse_byline]) *)

(** The example of the docstring of [parse_byline]. *)
Example parse_byline_docstring :
  parse_byline "<div>By: <strong>Lucas Ou-Yang</strong>, <strong>Alex Smith</strong></div>"
  = ["Lucas Ou-Yang"; "Alex Smith"].
Proof. vm_compute. reflexivity. Qed.

(** C8, the code at the failing input: a one-token name that a delimiter
    follows is accepted ([Madonna] is returned), while the check for two
    tokens is made on the last name only ([Madonna] is dropped when it
    comes last). *)
Theorem C8_parse_byline_single_token_name :
  parse_byline "Madonna, John Smith" = ["Madonna"; "John Smith"]
  /\ parse_byline "John Smith, Madonna" = ["John Smith"].
Proof. split; vm_compute; reflexivity. Qed.

(** ** The publishing date ([get_publishing_date]) *)

Section SortFacts.
Variable A : Type.
Variable key : A -> Z.

Lemma insert_desc_not_nil x l : insert_desc key x l <> [].
Proof.
  destruct l as [|y l]; simpl; [discriminate|].
  destruct (key x <? key y)%Z; discriminate.
Qed.

Lemma sort_desc_nil l : sort_desc key l = [] -> l = [].
Proof.
  destruct l as [|a l]; [reflexivity|]. simpl. intros H.
  exfalso. exact (insert_desc_not_nil _ _ H).
Qed.

(** The head of the sorted list is the leftmost element of greatest key. *)
Lemma sort_desc_head l x rest :
  sort_desc key l = x :: rest ->
  exists pre post,
    l = pre ++ x :: post
    /\ Forall (fun c => (key c < key x)%Z) pre
    /\ Forall (fun c => (key c <= key x)%Z) post.
Proof.
  revert x rest. induction l as [|a l IH]; intros x rest H; [discriminate|].
  simpl in H. destruct (sort_desc key l) as [|y ys] eqn:E.
  - apply sort_desc_nil in E. subst l. simpl in H. inversion H; subst.
    exists [], []. auto.
  - destruct (IH y ys eq_refl) as (pre & post & -> & Hpre & Hpost).
    simpl in H. destruct (Z.ltb_spec (key a) (key y)) as [Hlt|Hge].
    + inversion H; subst. exists (a :: pre), post. auto.
    + inversion H; subst. exists [], (pre ++ y :: post). repeat split; auto.
      apply Forall_app. split.
      * eapply Forall_impl; [|exact Hpre]. simpl. intros; lia.
      * constructor; [lia|]. eapply Forall_impl; [|exact Hpost]. simpl. intros; lia.
Qed.

End SortFacts.

Lemma for_each_appends (A B : Type) (Q : B -> Prop)
  (body : list B -> A -> Result (list B)) :
  (forall s a s', body s a = Ok s' -> exists new, s' = s ++ new /\ Forall Q new) ->
  forall l s s', for_each body l s = Ok s' -> exists new, s' = s ++ new /\ Forall Q new.
Proof.
  intros Hbody. induction l as [|a l IH]; simpl; intros s s' H.
  - inversion H; subst. exists []. rewrite app_nil_r. auto.
  - destruct (body s a) as [s1|e] eqn:E; simpl in H; [|discriminate].
    destruct (Hbody _ _ _ E) as (n1 & -> & H1).
    destruct (IH _ _ H) as (n2 & -> & H2).
    exists (n1 ++ n2). rewrite app_assoc. split; [reflexivity|].
    apply Forall_app; auto.
Qed.

Lemma fold_left_appends (A B : Type) (Q : B -> Prop) (step : list B -> A -> list B) :
  (forall s a, exists new, step s a = s ++ new /\ Forall Q new) ->
  forall l s, exists new, fold_left step l s = s ++ new /\ Forall Q new.
Proof.
  intros Hstep. induction l as [|a l IH]; simpl; intros s.
  - exists []. rewrite app_nil_r. auto.
  - destruct (Hstep s a) as (n1 & -> & H1).
    destruct (IH (s ++ n1)) as (n2 & -> & H2).
    exists (n1 ++ n2). rewrite app_assoc. split; [reflexivity|].
    apply Forall_app; auto.
Qed.

Section DateFacts.
Variable P : Parser.
Variable D : Defines.
Variable L : Library.

Lemma url_date_matches_score url :
  Forall (fun c : date_match => snd c = 10%Z) (url_date_matches D L url).
Proof.
  unfold url_date_matches.
  destruct (STRICT_DATE_REGEX_search D url); [|constructor].
  destruct (parse_date_str L (Some s)); repeat constructor.
Qed.

Lemma graph_dates_appends g dm dm' :
  graph_dates L g dm = Ok dm' ->
  exists new, dm' = dm ++ new
              /\ Forall (fun c : date_match => snd c = 10%Z \/ snd c = 9%Z) new.
Proof.
  assert (Hnil : forall x : list date_match, exists new : list date_match,
             x = x ++ new /\ Forall (fun c : date_match => snd c = 10%Z \/ snd c = 9%Z) new).
  { intros x. exists []. rewrite app_nil_r. auto. }
  destruct g as [| | |s|items|members]; simpl; try discriminate.
  - destruct (Py.truthy s); [discriminate|]. intros H; inversion H; subst. apply Hnil.
  - apply for_each_appends. intros s a s'.
    destruct a; try discriminate.
    destruct (parse_date_json L (dict_get members "datePublished")); intros H;
      inversion H; subst; [|apply Hnil].
    eexists. split; [reflexivity|]. constructor; [left; reflexivity | constructor].
  - destruct members; [|discriminate]. intros H; inversion H; subst. apply Hnil.
Qed.

Lemma script_dates_appends dm script_tag dm' :
  script_dates L dm script_tag = Ok dm' ->
  exists new, dm' = dm ++ new
              /\ Forall (fun c : date_match => snd c = 10%Z \/ snd c = 9%Z) new.
Proof.
  assert (Hnil : forall x : list date_match, exists new : list date_match,
             x = x ++ new /\ Forall (fun c : date_match => snd c = 10%Z \/ snd c = 9%Z) new).
  { intros x. exists []. rewrite app_nil_r. auto. }
  unfold script_dates.
  destruct (Py.contains _ _).
  - destruct (text script_tag) as [txt|]; [|intros H; inversion H; subst; apply Hnil].
    destruct (json_loads L txt) as [j|]; [|intros H; inversion H; subst; apply Hnil].
    destruct j; try discriminate. apply graph_dates_appends.
  - destruct (text script_tag) as [txt|]; [|discriminate].
    destruct (datePublished_search txt); [|intros H; inversion H; subst; apply Hnil].
    destruct (parse_date_str L (Some s)); intros H; inversion H; subst; [|apply Hnil].
    eexists. split; [reflexivity|]. constructor; [right; reflexivity | constructor].
Qed.

Lemma jsonld_date_matches_appends doc dm dm' :
  jsonld_date_matches P L doc dm = Ok dm' ->
  exists new, dm' = dm ++ new
              /\ Forall (fun c : date_match => snd c = 10%Z \/ snd c = 9%Z) new.
Proof.
  unfold jsonld_date_matches. apply for_each_appends.
  intros s a s'. apply script_dates_appends.
Qed.

Lemma meta_tag_score_rule meta_tag known_meta_tag d :
  meta_tag_score L meta_tag known_meta_tag d
  = (6 + (if name_matches meta_tag known_meta_tag then 2 else 0)
     - age_penalty (today L) d)%Z.
Proof.
  unfold meta_tag_score, name_matches, age_penalty.
  destruct (dict_get (attrib meta_tag) "name") as [name|];
    [destruct (name =? value known_meta_tag)|];
    destruct (Z.ltb_spec (today L - toordinal d) 0);
    destruct (Z.ltb_spec (today L) (toordinal d));
    destruct (Z.ltb_spec (25 * 365) (today L - toordinal d)); lia.
Qed.

Lemma meta_date_matches_appends doc dm :
  exists new, meta_date_matches P D L doc dm = dm ++ new /\ Forall (meta_scored L) new.
Proof.
  unfold meta_date_matches. revert dm. apply fold_left_appends.
  intros s known. apply fold_left_appends. intros s' meta_tag.
  unfold meta_tag_dates.
  destruct (parse_date_str L (getAttribute P meta_tag (content known))) as [d|].
  - eexists. split; [reflexivity|]. constructor; [|constructor].
    exists (name_matches meta_tag known). simpl. apply meta_tag_score_rule.
  - exists []. rewrite app_nil_r. auto.
Qed.

Lemma age_penalty_nonneg t d : (0 <= age_penalty t d)%Z.
Proof.
  unfold age_penalty. destruct (_ <? _)%Z; [lia|]. destruct (_ <? _)%Z; lia.
Qed.

Lemma meta_scored_le c : meta_scored L c -> (snd c <= 8)%Z.
Proof.
  intros [b ->]. pose proof (age_penalty_nonneg (today L) (fst c)).
  destruct b; lia.
Qed.

(** The choice of [get_publishing_date] among the collected candidates. *)
Lemma get_publishing_date_choice url doc cands :
  collect_date_matches P D L url doc = Ok cands ->
  match cands with
  | [] => get_publishing_date P D L url doc = Ok None
  | _ :: _ =>
      exists pre d s post,
        cands = pre ++ (d, s) :: post
        /\ Forall (fun c => (snd c < s)%Z) pre
        /\ Forall (fun c => (snd c <= s)%Z) post
        /\ get_publishing_date P D L url doc = Ok (Some d)
  end.
Proof.
  intros H. unfold get_publishing_date. rewrite H. simpl.
  destruct cands as [|c cands]; [reflexivity|].
  destruct (sort_desc (fun x : date_match => snd x) (c :: cands)) as [|[d s] rest] eqn:E.
  - apply sort_desc_nil in E. discriminate.
  - destruct (sort_desc_head _ _ _ _ _ E) as (pre & post & Hl & Hpre & Hpost).
    exists pre, d, s, post. auto.
Qed.


End DateFacts.

(** ** The title ([get_title], [split_title]) *)

Section TitleFacts.
Variable P : Parser.
Variable D : Defines.

Lemma largest_piece_hint hint pre p post i len idx :
  Py.truthy hint = true ->
  Forall (fun q => Py.contains hint (filtered (Py.strip q)) = false) pre ->
  Py.contains hint (filtered (Py.strip p)) = true ->
  largest_piece hint (pre ++ p :: post) i len idx = (i + length pre)%nat.
Proof.
  intros Hh Hpre Hp. revert i len idx.
  induction Hpre as [|q pre Hq Hpre IH]; intros i len idx; simpl.
  - fold (filtered (Py.strip p)). rewrite Hh, Hp. simpl. lia.
  - fold (filtered (Py.strip q)). rewrite Hh, Hq. simpl.
    destruct (len <? String.length (Py.strip q))%nat; rewrite IH; lia.
Qed.

(** With a hint whose filtered form is not empty, the first piece whose
    filtered form contains it is the piece [split_title] returns. *)
Lemma split_title_hint title splitter hint pre p post :
  Py.truthy (filtered hint) = true ->
  splitter title = pre ++ p :: post ->
  Forall (fun q => Py.contains (filtered hint) (filtered (Py.strip q)) = false) pre ->
  Py.contains (filtered hint) (filtered (Py.strip p)) = true ->
  split_title D title splitter hint = Ok (Py.strip (TITLE_REPLACEMENTS D p)).
Proof.
  intros Hf Hs Hpre Hp. unfold split_title. rewrite Hs.
  assert (Hh : Py.truthy hint = true).
  { destruct hint; [discriminate | reflexivity]. }
  rewrite Hh. fold (filtered hint).
  rewrite (largest_piece_hint (filtered hint) pre p post 0 0 0 Hf Hpre Hp). simpl.
  rewrite nth_error_app2, Nat.sub_diag; [reflexivity | lia].
Qed.

Lemma split_step_used delimiter splitter h1 t :
  split_step D delimiter splitter h1 (t, true) = Ok (t, true).
Proof. reflexivity. Qed.

Lemma split_step_absent delimiter splitter h1 t :
  Py.contains delimiter t = false ->
  split_step D delimiter splitter h1 (t, false) = Ok (t, false).
Proof. unfold split_step. simpl. intros ->. reflexivity. Qed.

Lemma get_title_foo_bar doc :
  titled_document P doc "Foo - Bar News" ["Foo"] ->
  splits_foo_bar D ->
  get_title P D doc = Ok "Bar News".
Proof.
  intros ((t & rest & Ht & Htext) & Hh1 & Hog1 & Hog2)
         (p1 & p2 & Hsplit & Hp1 & Hp2 & Hrepl & Hmot).
  unfold get_title. rewrite Ht, Htext, Hh1.
  unfold get_meta_content.
  fold og_title_by_property. fold og_title_by_name. rewrite Hog1, Hog2.
  cbv beta iota zeta.
  change (sort_desc (fun s => Z.of_nat (String.length s)) ["Foo"]) with ["Foo"].
  cbv beta iota zeta.
  replace (split_step D "|" (PIPE_SPLITTER D) _ _)
    with (Ok (A := string * bool) ("Foo - Bar News", false)) by reflexivity.
  unfold bind at 1.
  replace (split_step D "-" (DASH_SPLITTER D) _ _)
    with (Ok (A := string * bool) ("Bar News", true)).
  - unfold bind. rewrite !split_step_used. cbv beta iota zeta.
    simpl fst. rewrite Hmot. reflexivity.
  - unfold split_step. simpl negb. 
    change (Py.contains "-" "Foo - Bar News") with true. simpl andb. cbv iota.
    unfold split_title. rewrite Hsplit. simpl Py.truthy. cbv iota.
    unfold largest_piece. rewrite Hp1, Hp2. simpl.
    rewrite Hrepl. reflexivity.
Qed.

End TitleFacts.

(** C4, as the code has it: on a document with the title
    [Foo - Bar News], the single headline [Foo] and no Open Graph title,
    [get_title] returns [Bar News]: the headline of one word is discarded
    as too short, [split_title] gets no hint, and the longest piece of the
    dash split wins.  When [split_title] does get a hint whose filtered
    form is not empty, the first piece whose filtered form contains it
    wins outright, whatever the lengths of the pieces. *)
Theorem C4_get_title_longest_piece_without_hint :
  forall (P : Parser) (D : Defines) (doc : Doc P),
    titled_document P doc "Foo - Bar News" ["Foo"] ->
    splits_foo_bar D ->
    get_title P D doc = Ok "Bar News"
    /\ forall title splitter hint pre p post,
         Py.truthy (filtered hint) = true ->
         splitter title = pre ++ p :: post ->
         Forall (fun q => Py.contains (filtered hint) (filtered (Py.strip q)) = false) pre ->
         Py.contains (filtered hint) (filtered (Py.strip p)) = true ->
         split_title D title splitter hint = Ok (Py.strip (TITLE_REPLACEMENTS D p)).
Proof.
  intros P D doc Hdoc HD. split.
  - apply get_title_foo_bar; assumption.
  - intros. eapply split_title_hint; eassumption.
Qed.

Lemma example_titled_foo_bar :
  titled_document Example.parser Example.doc_foo_bar "Foo - Bar News" ["Foo"].
Proof.
  split; [|split; [|split]]; try reflexivity.
  eexists. eexists. split; reflexivity.
Defined.

Lemma example_splits_foo_bar : splits_foo_bar Example.defines.
Proof.
  exists "Foo", "Bar News". repeat split; reflexivity.
Defined.

(** The theorem at the example document, and at a title whose headline
    of three words is kept as the hint: the piece holding the hint wins
    over the longer piece. *)
Lemma C4_example_titles :
  get_title Example.parser Example.defines Example.doc_foo_bar = Ok "Bar News"
  /\ split_title Example.defines "Foo Fighters Return - Bar News Daily Sentinel"
                 (DASH_SPLITTER Example.defines) "Foo Fighters Return"
     = Ok "Foo Fighters Return".
Proof.
  destruct (C4_get_title_longest_piece_without_hint
              Example.parser Example.defines Example.doc_foo_bar
              example_titled_foo_bar example_splits_foo_bar) as [H1 H2].
  split; [exact H1|].
  apply (H2 "Foo Fighters Return - Bar News Daily Sentinel"
            (DASH_SPLITTER Example.defines) "Foo Fighters Return"
            [] "Foo Fighters Return" ["Bar News Daily Sentinel"]);
    [reflexivity | reflexivity | constructor | reflexivity].
Defined.

(** C4 as stated fails: the document of the claim yields [Bar News], not
    [Foo]. *)
Lemma C4_foo_counterexample :
  get_title Example.parser Example.defines Example.doc_foo_bar = Ok "Bar News"
  /\ get_title Example.parser Example.defines Example.doc_foo_bar <> Ok "Foo"
  /\ ~ (forall (P : Parser) (D : Defines) (doc : Doc P),
          titled_document P doc "Foo - Bar News" ["Foo"] ->
          splits_foo_bar D ->
          get_title P D doc = Ok "Foo").
Proof.
  assert (E : get_title Example.parser Example.defines Example.doc_foo_bar
              = Ok "Bar News") by (vm_compute; reflexivity).
  split; [exact E|]. split.
  - rewrite E. discriminate.
  - intros H.
    specialize (H Example.parser Example.defines Example.doc_foo_bar
                  example_titled_foo_bar example_splits_foo_bar).
    rewrite E in H. discriminate.
Qed.

(** ** The canonical link ([get_canonical_link]) *)

Local Open Scope string_scope.

Lemma str_app_assoc (a b c : string) : (a ++ b) ++ c = a ++ b ++ c.
Proof. induction a as [|x a IH]; simpl; [reflexivity | rewrite IH; reflexivity]. Qed.

Lemma str_length_app (a b : string) :
  String.length (a ++ b) = (String.length a + String.length b)%nat.
Proof. induction a as [|x a IH]; simpl; [reflexivity | rewrite IH; reflexivity]. Qed.

Lemma drop_length_app (a b : string) : Py.drop (String.length a) (a ++ b) = b.
Proof. induction a as [|x a IH]; simpl; [destruct b; reflexivity | exact IH]. Qed.

Lemma drop_add n k s : Py.drop (n + k) s = Py.drop k (Py.drop n s).
Proof.
  revert s. induction n as [|n IH]; intros s; simpl; [reflexivity|].
  destruct s as [|c s]; [destruct k; reflexivity | apply IH].
Qed.

Lemma take_drop k s : s = Py.take k s ++ Py.drop k s.
Proof.
  revert s. induction k as [|k IH]; intros s; simpl; [reflexivity|].
  destruct s as [|c s]; simpl; [reflexivity | rewrite <- IH; reflexivity].
Qed.

Lemma no_line_feed_app a b :
  no_line_feed (a ++ b) = no_line_feed a && no_line_feed b.
Proof.
  unfold no_line_feed. induction a as [|x a IH]; simpl; [reflexivity|].
  rewrite IH. apply andb_assoc.
Qed.

Lemma line_of_no_line_feed s : no_line_feed s = true -> line_of s = s.
Proof.
  unfold no_line_feed. induction s as [|c s IH]; simpl; [reflexivity|].
  intros H. apply andb_true_iff in H as [Hc Hs].
  destruct (Ascii.eqb c Py.LF); [discriminate|]. rewrite (IH Hs). reflexivity.
Qed.

Lemma host_matches_length h m :
  host_matches h m = true -> String.length m = String.length h.
Proof.
  revert m. induction h as [|p h IH]; intros [|c m]; simpl; try discriminate.
  - reflexivity.
  - intros H. apply andb_true_iff in H as [_ H]. rewrite (IH _ H). reflexivity.
Qed.

Lemma host_matches_refl h : no_line_feed h = true -> host_matches h h = true.
Proof.
  unfold no_line_feed. induction h as [|p h IH]; simpl; [reflexivity|].
  intros H. apply andb_true_iff in H as [Hp Hh]. rewrite (IH Hh), andb_true_r.
  unfold host_char_matches. destruct (Ascii.eqb p "."); [exact Hp | apply Ascii.eqb_refl].
Qed.

Lemma hostname_at_complete h m rest :
  host_matches h m = true ->
  hostname_at h (m ++ String "/" rest) = Some (line_of rest).
Proof.
  revert m. induction h as [|p h IH]; intros [|c m]; simpl; try discriminate.
  - reflexivity.
  - intros H. apply andb_true_iff in H as [-> H]. apply IH, H.
Qed.

Lemma hostname_at_sound h s tp :
  hostname_at h s = Some tp ->
  exists m rest, s = m ++ String "/" rest /\ host_matches h m = true /\ tp = line_of rest.
Proof.
  revert s. induction h as [|p h IH]; intros [|c s]; simpl; try discriminate.
  - destruct (Ascii.eqb_spec c "/") as [->|]; [|discriminate].
    intros H; inversion H; subst. exists "", s. auto.
  - destruct (host_char_matches p c) eqn:E; [|discriminate]. intros H.
    destruct (IH _ H) as (m & rest & -> & Hm & ->).
    exists (String c m), rest. simpl. rewrite E, Hm. auto.
Qed.

Lemma strip_hostname_sound h s tp :
  strip_hostname_in_meta_path h s = Some tp ->
  exists pre m rest,
    s = pre ++ m ++ String "/" rest /\ host_matches h m = true
    /\ no_line_feed pre = true /\ tp = line_of rest.
Proof.
  revert tp. induction s as [|c s IH]; intros tp H.
  - simpl in H. apply hostname_at_sound in H as (m & rest & E & Hm & ->).
    exists "", m, rest. auto.
  - cbn [strip_hostname_in_meta_path] in H.
    destruct (Ascii.eqb c Py.LF) eqn:Ec.
    + apply hostname_at_sound in H as (m & rest & E & Hm & ->).
      exists "", m, rest. auto.
    + destruct (strip_hostname_in_meta_path h s) as [tp'|] eqn:Es.
      * inversion H; subst tp'.
        destruct (IH _ eq_refl) as (pre & m & rest & -> & Hm & Hpre & ->).
        exists (String c pre), m, rest. repeat split; auto.
        unfold no_line_feed in *. simpl. rewrite Ec. exact Hpre.
      * apply hostname_at_sound in H as (m & rest & E & Hm & ->).
        exists "", m, rest. auto.
Qed.

(** Where the hostname, followed by a slash, occurs in the text, the
    pattern matches there or later. *)
Lemma strip_hostname_found h pre m rest :
  no_line_feed pre = true ->
  host_matches h m = true ->
  exists pre' m' rest',
    pre ++ m ++ String "/" rest = pre' ++ m' ++ String "/" rest'
    /\ host_matches h m' = true
    /\ (String.length pre <= String.length pre')%nat
    /\ strip_hostname_in_meta_path h (pre ++ m ++ String "/" rest)
       = Some (line_of rest').
Proof.
  intros Hpre Hm. induction pre as [|c pre IH].
  - simpl ("" ++ _).
    destruct (strip_hostname_in_meta_path h (m ++ String "/" rest)) as [tp|] eqn:E.
    + destruct (strip_hostname_sound _ _ _ E) as (pre' & m' & rest' & E' & Hm' & _ & ->).
      exists pre', m', rest'. repeat split; auto. simpl. lia.
    + exfalso.
      assert (Hat := hostname_at_complete h m rest Hm).
      destruct (m ++ String "/" rest) as [|c s]; simpl in E.
      * rewrite Hat in E. discriminate.
      * destruct (if Ascii.eqb c Py.LF then None else strip_hostname_in_meta_path h s);
          [discriminate|]. rewrite Hat in E. discriminate.
  - unfold no_line_feed in Hpre. simpl in Hpre.
    apply andb_true_iff in Hpre as [Hc Hpre].
    destruct (IH Hpre) as (pre' & m' & rest' & E & Hm' & Hlen & Hres).
    exists (String c pre'), m', rest'. repeat split; auto.
    + simpl. rewrite E. reflexivity.
    + simpl. lia.
    + change ((String c pre) ++ m ++ String "/" rest)
        with (String c (pre ++ m ++ String "/" rest)).
      cbn [strip_hostname_in_meta_path].
      destruct (Ascii.eqb c Py.LF); [discriminate|]. rewrite Hres. reflexivity.
Qed.

(** In a text without line feed that holds the hostname followed by a
    slash, the pattern matches, and its group is what is left of the text
    after that occurrence, or after a later one. *)
Lemma strip_hostname_suffix h pre rest :
  no_line_feed (pre ++ h ++ String "/" rest) = true ->
  exists skipped true_path,
    rest = skipped ++ true_path
    /\ strip_hostname_in_meta_path h (pre ++ h ++ String "/" rest) = Some true_path.
Proof.
  intros Hnl. pose proof Hnl as Hnl'.
  rewrite !no_line_feed_app in Hnl'.
  apply andb_true_iff in Hnl' as [Hpre Hrest'].
  apply andb_true_iff in Hrest' as [Hh _].
  destruct (strip_hostname_found h pre h rest Hpre (host_matches_refl h Hh))
    as (pre' & m' & rest' & E & Hm' & Hlen & Hres).
  assert (Hrest : rest' = Py.drop (String.length pre' - String.length pre) rest).
  { assert (E1 : Py.drop (String.length pre' + (String.length m' + 1))
                         (pre ++ h ++ String "/" rest) = rest').
    { rewrite E, drop_add, drop_length_app, drop_add, drop_length_app. reflexivity. }
    rewrite <- E1.
    replace (String.length pre' + (String.length m' + 1))%nat
      with (String.length pre + (String.length h + (1 + (String.length pre' - String.length pre))))%nat
      by (rewrite (host_matches_length _ _ Hm'); lia).
    rewrite drop_add, drop_length_app, drop_add, drop_length_app, drop_add.
    reflexivity. }
  exists (Py.take (String.length pre' - String.length pre) rest), rest'.
  split.
  - rewrite Hrest. apply take_drop.
  - rewrite Hres. f_equal. apply line_of_no_line_feed.
    rewrite E in Hnl. rewrite !no_line_feed_app in Hnl.
    apply andb_true_iff in Hnl as [_ Hnl]. apply andb_true_iff in Hnl as [_ Hnl].
    unfold no_line_feed in *. simpl in Hnl. exact Hnl.
Qed.





Section CanonicalFacts.
Variable P : Parser.
Variable L : Library.

Lemma canonical_preferred doc link0 rest href :
  getElementsByTag P doc (Some "link") (Some "rel") (Some "canonical") = link0 :: rest ->
  getAttribute P link0 "href" = Some href ->
  Py.truthy href = true ->
  canonical_or_og_url P doc = href.
Proof.
  intros Hl Ha Ht. unfold canonical_or_og_url. rewrite Hl, Ha.
  unfold or_else. rewrite Ht. reflexivity.
Qed.

Lemma og_url_without_link doc :
  getElementsByTag P doc (Some "link") (Some "rel") (Some "canonical") = [] ->
  canonical_or_og_url P doc = get_meta_content P doc og_url_selector.
Proof.
  intros Hl. unfold canonical_or_og_url. rewrite Hl. reflexivity.
Qed.




End CanonicalFacts.



(** ** The metadata tree ([get_meta_data]) *)

Local Open Scope list_scope.

Lemma dict_get_set_same (V : Type) (d : list (string * V)) k v :
  dict_get (dict_set d k v) k = Some v.
Proof.
  induction d as [|[k0 v0] d IH]; simpl.
  - rewrite String.eqb_refl. reflexivity.
  - destruct (String.eqb_spec k0 k) as [->|Hne]; simpl.
    + rewrite String.eqb_refl. reflexivity.
    + destruct (String.eqb_spec k0 k); [contradiction | exact IH].
Qed.

Lemma dict_set_keys_in (V : Type) (d : list (string * V)) k v v0 :
  dict_get d k = Some v0 -> map fst (dict_set d k v) = map fst d.
Proof.
  induction d as [|[k1 v1] d IH]; simpl; [discriminate|].
  destruct (String.eqb_spec k1 k) as [->|Hne]; simpl; [reflexivity|].
  intros H. rewrite (IH H). reflexivity.
Qed.

Lemma path_get_set d k sub key :
  key <> [] ->
  path_get (dict_set d k (MDict sub)) (k :: key) = path_get sub key.
Proof.
  destruct key as [|k' key]; [congruence|]. intros _.
  cbn [path_get]. rewrite dict_get_set_same. reflexivity.
Qed.

Lemma store_parts_cons ref part p rest val :
  store_parts ref (part :: p :: rest) val
  = dict_set ref part
      (MDict (store_parts
                (if negb (meta_truthy (dict_get ref part)) then []
                 else match dict_get ref part with
                      | Some (MDict d) => d
                      | Some scalar => [("identifier", scalar)]
                      | None => []
                      end)
                (p :: rest) val)).
Proof. reflexivity. Qed.

(** The value stored is read back along the key. *)
Lemma path_get_store_parts key ref val :
  key <> [] -> path_get (store_parts ref key val) key = Some val.
Proof.
  revert ref. induction key as [|part key IH]; intros ref Hne; [congruence|].
  destruct key as [|p rest].
  - simpl. apply dict_get_set_same.
  - rewrite store_parts_cons, path_get_set by discriminate.
    apply IH. discriminate.
Qed.

Lemma store_parts_descend ref part d p rest val :
  dict_get ref part = Some (MDict d) ->
  store_parts ref (part :: p :: rest) val
  = dict_set ref part (MDict (store_parts d (p :: rest) val)).
Proof.
  intros H. rewrite store_parts_cons, H. simpl meta_truthy.
  destruct d; reflexivity.
Qed.

Lemma store_parts_wrap ref part scalar p rest val :
  dict_get ref part = Some scalar ->
  is_scalar scalar = true ->
  meta_truthy (Some scalar) = true ->
  store_parts ref (part :: p :: rest) val
  = dict_set ref part (MDict (store_parts [("identifier", scalar)] (p :: rest) val)).
Proof.
  intros H Hs Ht. rewrite store_parts_cons, H, Ht. simpl negb. cbv iota.
  destruct scalar; [reflexivity | reflexivity | discriminate].
Qed.

Lemma store_parts_keys ref part p rest val v0 :
  dict_get ref part = Some v0 ->
  map fst (store_parts ref (part :: p :: rest) val) = map fst ref.
Proof.
  intros H. rewrite store_parts_cons. eapply dict_set_keys_in, H.
Qed.

Lemma store_parts_leaf ref part val :
  store_parts ref [part] val = dict_set ref part val.
Proof. reflexivity. Qed.

Lemma dict_set_single (V : Type) k0 (v0 : V) k v :
  dict_set [(k0, v0)] k v
  = if String.eqb k0 k then [(k0, v)] else [(k0, v0); (k, v)].
Proof. reflexivity. Qed.

(** The scalar wrapped under a name stays there when the deeper key
    does not go through that name itself. *)
Lemma wrapped_kept name scalar p rest val :
  p <> name ->
  dict_get (store_parts [(name, scalar)] (p :: rest) val) name = Some scalar.
Proof.
  intros Hp. assert (E : String.eqb name p = false).
  { apply String.eqb_neq. congruence. }
  destruct rest as [|q rest].
  - rewrite store_parts_leaf, dict_set_single, E. simpl.
    rewrite String.eqb_refl. reflexivity.
  - rewrite store_parts_cons, dict_set_single, E. simpl.
    rewrite String.eqb_refl. reflexivity.
Qed.

(** A scalar met under the head of the key, at any depth, is wrapped
    under [identifier], in place, and the value is stored below it. *)
Lemma store_parts_identifier pre : forall ref d part p rest val scalar,
  dict_at ref pre = Some d ->
  dict_get d part = Some scalar ->
  is_scalar scalar = true ->
  meta_truthy (Some scalar) = true ->
  path_get (store_parts ref (pre ++ part :: p :: rest) val) (pre ++ part :: p :: rest)
  = Some val
  /\ (p <> "identifier" ->
      path_get (store_parts ref (pre ++ part :: p :: rest) val)
               (pre ++ [part; "identifier"]) = Some scalar)
  /\ (rest = [] -> p <> "identifier" ->
      path_get (store_parts ref (pre ++ part :: p :: rest) val) (pre ++ [part])
      = Some (MDict [("identifier", scalar); (p, val)])).
Proof.
  induction pre as [|k pre IH]; intros ref d part p rest val scalar Hat Hget Hs Ht.
  - simpl in Hat. inversion Hat; subst d. simpl app.
    split; [apply path_get_store_parts; discriminate|].
    rewrite (store_parts_wrap ref part scalar p rest val Hget Hs Ht).
    split.
    + intros Hp. rewrite path_get_set by discriminate.
      change (path_get ?d ["identifier"]) with (dict_get d "identifier").
      apply wrapped_kept, Hp.
    + intros -> Hp.
      change (path_get ?d [part]) with (dict_get d part).
      rewrite dict_get_set_same, store_parts_leaf, dict_set_single.
      destruct (String.eqb_spec "identifier" p); [congruence | reflexivity].
  - simpl in Hat.
    destruct (dict_get ref k) as [[| |d']|] eqn:Ek; try discriminate.
    destruct (IH d' d part p rest val scalar Hat Hget Hs Ht) as (H1 & H2 & H3).
    assert (E : exists q more, pre ++ part :: p :: rest = q :: more).
    { destruct pre; simpl; eauto. }
    destruct E as (q & more & E).
    simpl app. rewrite E.
    rewrite (store_parts_descend ref k d' q more val Ek). rewrite <- E.
    split; [|split].
    + rewrite path_get_set; [exact H1 | destruct pre; discriminate].
    + intros Hp. rewrite path_get_set; [exact (H2 Hp) | destruct pre; discriminate].
    + intros Hr Hp. rewrite path_get_set; [exact (H3 Hr Hp) | destruct pre; discriminate].
Qed.

Lemma split_where_not_nil p s : exists h t, Py.split_where p s = h :: t.
Proof.
  induction s as [|c s (h & t & IH)]; simpl; [eauto|].
  destruct (p c); [eauto|]. rewrite IH. eauto.
Qed.

Lemma split_char_absent c s :
  Py.contains (String c "") s = false -> Py.split_char c s = [s].
Proof.
  unfold Py.split_char. induction s as [|b s IH]; [reflexivity|].
  rewrite contains_cons. intros H. apply orb_false_iff in H as [Hb Hs].
  simpl in Hb. rewrite andb_comm in Hb.
  assert (Hb' : Ascii.eqb c b = false) by (destruct s; simpl in Hb; exact Hb).
  simpl. rewrite Hb', (IH Hs). reflexivity.
Qed.

Lemma split_char_present c s :
  Py.contains (String c "") s = true ->
  exists h p t, Py.split_char c s = h :: p :: t.
Proof.
  unfold Py.split_char. induction s as [|b s IH]; [discriminate|].
  rewrite contains_cons. intros H. simpl.
  destruct (Ascii.eqb c b) eqn:Hb.
  - destruct (split_where_not_nil (Ascii.eqb c) s) as (h & t & ->). eauto.
  - apply orb_true_iff in H as [H|H].
    + simpl in H. rewrite Hb in H. discriminate.
    + destruct (IH H) as (h & p & t & ->). eauto.
Qed.

Section MetaStepFacts.
Variables (data : list (string * MetaValue)) (prop : Element) (k v : string).
Hypothesis Hk : meta_key prop = Some k.
Hypothesis Hv : meta_val prop = Some v.
Hypothesis Hkt : Py.truthy k = true.
Hypothesis Hvt : Py.truthy v = true.

Lemma meta_step_colon val key_head key :
  int_if_digit (Py.strip v) = Ok val ->
  Py.split_char ":" (Py.strip k) = key_head :: key ->
  key <> [] ->
  meta_step data prop
  = Ok (dict_set data key_head (MDict (store_parts (head_ref data key_head) key val))).
Proof.
  intros Hval Hsplit Hne. unfold meta_step. rewrite Hk, Hv. simpl truthy_opt.
  rewrite Hkt, Hvt, Hval. simpl.
  destruct (Py.contains ":" (Py.strip k)) eqn:Hc.
  - simpl. rewrite Hsplit. unfold head_ref.
    destruct (dict_get data key_head) as [[| |]|]; reflexivity.
  - rewrite (split_char_absent _ _ Hc) in Hsplit. inversion Hsplit; subst.
    congruence.
Qed.

Lemma meta_step_plain val :
  int_if_digit (Py.strip v) = Ok val ->
  Py.contains ":" (Py.strip k) = false ->
  meta_step data prop = Ok (dict_set data (Py.strip k) val).
Proof.
  intros Hval Hc. unfold meta_step. rewrite Hk, Hv. simpl truthy_opt.
  rewrite Hkt, Hvt, Hval. simpl. rewrite Hc. reflexivity.
Qed.

(** Whatever the key, the value is read back along its parts. *)
Lemma meta_step_stores val :
  int_if_digit (Py.strip v) = Ok val ->
  exists data',
    meta_step data prop = Ok data'
    /\ path_get data' (Py.split_char ":" (Py.strip k)) = Some val.
Proof.
  intros Hval. destruct (Py.contains ":" (Py.strip k)) eqn:Hc.
  - destruct (split_char_present _ _ Hc) as (h & p & t & Hs).
    eexists. split; [apply (meta_step_colon val h (p :: t) Hval Hs); discriminate|].
    rewrite Hs, path_get_set by discriminate.
    apply path_get_store_parts. discriminate.
  - eexists. split; [apply (meta_step_plain val Hval Hc)|].
    rewrite (split_char_absent _ _ Hc). simpl. apply dict_get_set_same.
Qed.

End MetaStepFacts.

Lemma meta_step_skips data prop :
  truthy_opt (meta_key prop) = false \/ truthy_opt (meta_val prop) = false ->
  meta_step data prop = Ok data.
Proof.
  intros H. unfold meta_step.
  destruct H as [-> | ->]; simpl; [reflexivity|].
  rewrite orb_true_r. reflexivity.
Qed.

Lemma int_acc_decimal s acc :
  Py.all_chars Py.isdecimal_char s = true -> exists n, Py.int_acc acc s = Some n.
Proof.
  revert acc. induction s as [|c s IH]; intros acc; simpl; [eauto|].
  intros H. apply andb_true_iff in H as [-> Hs]. apply IH, Hs.
Qed.

Lemma decimal_isdigit s : decimal s = true -> Py.isdigit s = true.
Proof.
  unfold decimal, Py.isdigit. intros H. apply andb_true_iff in H as [-> H].
  simpl. induction s as [|c s IH]; simpl in *; [reflexivity|].
  apply andb_true_iff in H as [Hc Hs]. rewrite (IH Hs), andb_true_r.
  unfold Py.isdigit_char. rewrite Hc. reflexivity.
Qed.

Lemma int_acc_some s : forall acc n,
  Py.int_acc acc s = Some n -> Py.all_chars Py.isdecimal_char s = true.
Proof.
  induction s as [|c s IH]; intros acc n; simpl; [reflexivity|].
  destruct (Py.isdecimal_char c); [|discriminate]. intros H. exact (IH _ _ H).
Qed.

(** [int] converts the numerals, and nothing else. *)
Lemma int_numeral s : numeral s = true <-> exists n, Py.int s = Some n.
Proof.
  unfold numeral, decimal, Py.int. split.
  - intros H. apply andb_true_iff in H as [H Hl].
    apply andb_true_iff in H as [Ht Ha]. rewrite Ht, Hl.
    apply int_acc_decimal, Ha.
  - intros [n H]. destruct (Py.truthy s); [|discriminate].
    destruct (String.length s <=? Py.int_max_str_digits)%nat; [|discriminate].
    simpl in H. rewrite (int_acc_some _ _ _ H). reflexivity.
Qed.

Lemma int_if_digit_numeral s :
  numeral s = true -> exists n, Py.int s = Some n /\ int_if_digit s = Ok (MInt n).
Proof.
  intros H. destruct (proj1 (int_numeral s) H) as [n Hn].
  exists n. split; [exact Hn|].
  unfold int_if_digit. rewrite Hn.
  unfold numeral in H. apply andb_true_iff in H as [Hd _].
  rewrite (decimal_isdigit s Hd). reflexivity.
Qed.

(** A text of digits that is not a numeral makes [int] raise. *)
Lemma int_if_digit_not_numeral s :
  Py.isdigit s = true -> numeral s = false -> int_if_digit s = Raise ValueError.
Proof.
  intros Hd Hn. unfold int_if_digit. rewrite Hd.
  destruct (Py.int s) as [n|] eqn:E; [|reflexivity].
  rewrite (proj2 (int_numeral s) (ex_intro _ n E)) in Hn. discriminate.
Qed.

Lemma isdecimal_not_space c : Py.isdecimal_char c = true -> Py.isspace c = false.
Proof.
  destruct c as [[] [] [] [] [] [] [] []]; vm_compute; congruence.
Qed.

Lemma rstrip_clean s :
  Py.all_chars (fun c => negb (Py.isspace c)) s = true -> Py.rstrip s = s.
Proof.
  induction s as [|c s IH]; simpl; [reflexivity|].
  intros H. apply andb_true_iff in H as [Hc Hs]. rewrite (IH Hs).
  destruct s; [|reflexivity]. destruct (Py.isspace c); [discriminate | reflexivity].
Qed.

(** A text made of digits has no whitespace to strip. *)
Lemma strip_decimal s : decimal s = true -> Py.strip s = s.
Proof.
  unfold decimal. intros H. apply andb_true_iff in H as [_ H].
  assert (Hn : Py.all_chars (fun c => negb (Py.isspace c)) s = true).
  { induction s as [|c s IH]; simpl in *; [reflexivity|].
    apply andb_true_iff in H as [Hc Hs].
    rewrite (isdecimal_not_space c Hc), (IH Hs). reflexivity. }
  unfold Py.strip. rewrite lstrip_clean; [apply rstrip_clean, Hn|].
  destruct s as [|c s]; [reflexivity|]. simpl in *.
  apply andb_true_iff in Hn as [-> _]. reflexivity.
Qed.

(** C6, as the code has it: when a part of a colon-separated key below
    its head already holds a scalar that is true (a string that is not
    empty, an integer that is not zero) and the key goes deeper, the
    scalar is converted in place into a dict holding it under
    [identifier], and the value of the deeper key is stored in that dict:
    for a key one part deeper that is not [identifier], the dict is
    exactly the scalar under [identifier] and the value under its part.
    When the scalar is held by the head of the key itself, it is wrapped
    under the name of the head instead. *)
Theorem C6_meta_data_identifier_below_head :
  forall (data : list (string * MetaValue)) (prop : Element) (k v : string)
         (val : MetaValue),
    meta_key prop = Some k ->
    meta_val prop = Some v ->
    Py.truthy k = true ->
    Py.truthy v = true ->
    int_if_digit (Py.strip v) = Ok val ->
    (forall key_head pre part p rest ref d scalar,
        Py.split_char ":" (Py.strip k) = key_head :: pre ++ part :: p :: rest ->
        dict_get data key_head = Some (MDict ref) ->
        dict_at ref pre = Some d ->
        dict_get d part = Some scalar ->
        is_scalar scalar = true ->
        meta_truthy (Some scalar) = true ->
        exists data',
          meta_step data prop = Ok data'
          /\ map fst data' = map fst data
          /\ path_get data' (key_head :: pre ++ part :: p :: rest) = Some val
          /\ (p <> "identifier" ->
              path_get data' (key_head :: pre ++ [part; "identifier"]) = Some scalar)
          /\ (rest = [] -> p <> "identifier" ->
              path_get data' (key_head :: pre ++ [part])
              = Some (MDict [("identifier", scalar); (p, val)])))
    /\ (forall key_head p rest scalar,
        Py.split_char ":" (Py.strip k) = key_head :: p :: rest ->
        dict_get data key_head = Some scalar ->
        is_scalar scalar = true ->
        exists data',
          meta_step data prop = Ok data'
          /\ map fst data' = map fst data
          /\ path_get data' (key_head :: p :: rest) = Some val
          /\ dict_get data' key_head
             = Some (MDict (store_parts [(key_head, scalar)] (p :: rest) val))
          /\ (p <> key_head -> path_get data' [key_head; key_head] = Some scalar)).
Proof.
  intros data prop k v val Hk Hv Hkt Hvt Hval. split.
  - intros key_head pre part p rest ref d scalar Hsplit Hhead Hat Hget Hs Ht.
    assert (Hne : pre ++ part :: p :: rest <> []) by (destruct pre; discriminate).
    eexists. split.
    { apply (meta_step_colon data prop k v Hk Hv Hkt Hvt val key_head _ Hval Hsplit Hne). }
    unfold head_ref. rewrite Hhead.
    destruct (store_parts_identifier pre ref d part p rest val scalar Hat Hget Hs Ht)
      as (H1 & H2 & H3).
    split; [eapply dict_set_keys_in, Hhead|].
    split; [rewrite path_get_set by exact Hne; exact H1|].
    split.
    + intros Hp. rewrite path_get_set by (destruct pre; discriminate). exact (H2 Hp).
    + intros Hr Hp. rewrite path_get_set by (destruct pre; discriminate).
      exact (H3 Hr Hp).
  - intros key_head p rest scalar Hsplit Hhead Hs.
    eexists. split.
    { apply (meta_step_colon data prop k v Hk Hv Hkt Hvt val key_head (p :: rest)
               Hval Hsplit). discriminate. }
    assert (Href : head_ref data key_head = [(key_head, scalar)]).
    { unfold head_ref. rewrite Hhead. destruct scalar; [reflexivity | reflexivity | discriminate]. }
    rewrite Href.
    split; [eapply dict_set_keys_in, Hhead|].
    split; [rewrite path_get_set by discriminate; apply path_get_store_parts; discriminate|].
    split; [apply dict_get_set_same|].
    intros Hp. rewrite path_get_set by discriminate.
    change (path_get ?d [key_head]) with (dict_get d key_head).
    apply wrapped_kept, Hp.
Qed.

(** The theorem at a tree in which [og:image] holds a URL, when the tag
    [og:image:width] arrives. *)
Lemma C6_example_image_width :
  exists data',
    meta_step [("og", MDict [("image", MStr "http://i.test/a.png")])]
              (Example.meta "property" "og:image:width" "640")
    = Ok data'
    /\ path_get data' ["og"; "image"]
       = Some (MDict [("identifier", MStr "http://i.test/a.png"); ("width", MInt 640)]).
Proof.
  destruct (C6_meta_data_identifier_below_head
              [("og", MDict [("image", MStr "http://i.test/a.png")])]
              (Example.meta "property" "og:image:width" "640")
              "og:image:width" "640" (MInt 640)
              eq_refl eq_refl eq_refl eq_refl eq_refl) as [H _].
  destruct (H "og" [] "image" "width" []
              [("image", MStr "http://i.test/a.png")]
              [("image", MStr "http://i.test/a.png")]
              (MStr "http://i.test/a.png")
              eq_refl eq_refl eq_refl eq_refl eq_refl eq_refl)
    as (data' & Hstep & _ & _ & _ & Hdict).
  exists data'. split; [exact Hstep|].
  apply Hdict; [reflexivity | discriminate].
Defined.

(** C6 as stated fails: a scalar held by the head of a key is wrapped
    under the name of the head, and no [identifier] field is made; and a
    zero held below the head is replaced by an empty dict, hence lost. *)
Lemma C6_head_key_counterexample :
  get_meta_data Example.parser Example.doc_head_prefix
  = Ok [("article", MDict [("article", MStr "x"); ("author", MStr "y")])]
  /\ (forall data,
        get_meta_data Example.parser Example.doc_head_prefix = Ok data ->
        path_get data ["article"; "identifier"] = None)
  /\ get_meta_data Example.parser
       [Example.meta "property" "og:image" "0";
        Example.meta "property" "og:image:width" "640"]
     = Ok [("og", MDict [("image", MDict [("width", MInt 640)])])].
Proof.
  split; [vm_compute; reflexivity|]. split; [|vm_compute; reflexivity].
  intros data H. vm_compute in H. inversion H; subst. reflexivity.
Qed.

Lemma stripped_dict_cons k v d :
  stripped_dict ((k, v) :: d) = stripped_value v && stripped_dict d.
Proof. reflexivity. Qed.

Lemma stripped_dict_set d k v :
  stripped_dict d = true -> stripped_value v = true ->
  stripped_dict (dict_set d k v) = true.
Proof.
  intros Hd Hv. induction d as [|[k0 v0] d IH]; simpl dict_set.
  - rewrite stripped_dict_cons, Hv. reflexivity.
  - rewrite stripped_dict_cons in Hd. apply andb_true_iff in Hd as [H0 Hd].
    destruct (String.eqb k0 k); rewrite stripped_dict_cons.
    + rewrite Hv. exact Hd.
    + rewrite H0. apply IH, Hd.
Qed.

Lemma stripped_dict_get d k v :
  stripped_dict d = true -> dict_get d k = Some v -> stripped_value v = true.
Proof.
  induction d as [|[k0 v0] d IH]; simpl dict_get; [discriminate|].
  rewrite stripped_dict_cons. intros Hd. apply andb_true_iff in Hd as [H0 Hd].
  destruct (String.eqb k0 k); [intros E; inversion E; subst; exact H0 | apply IH, Hd].
Qed.

Lemma stripped_store_parts key : forall ref val,
  stripped_dict ref = true -> stripped_value val = true ->
  stripped_dict (store_parts ref key val) = true.
Proof.
  induction key as [|part key IH]; intros ref val Hr Hv; [exact Hr|].
  destruct key as [|p rest].
  - rewrite store_parts_leaf. apply stripped_dict_set; assumption.
  - rewrite store_parts_cons. apply stripped_dict_set; [exact Hr|].
    apply IH; [|exact Hv].
    destruct (negb (meta_truthy (dict_get ref part))); [reflexivity|].
    destruct (dict_get ref part) as [x|] eqn:E; [|reflexivity].
    pose proof (stripped_dict_get ref part x Hr E) as Hx.
    destruct x; [ | | exact Hx];
      unfold stripped_dict; cbn [stripped_value] in *; rewrite ?Hx; reflexivity.
Qed.

Lemma stripped_int_if_digit s val :
  int_if_digit (Py.strip s) = Ok val -> stripped_value val = true.
Proof.
  unfold int_if_digit. destruct (Py.isdigit (Py.strip s)) eqn:E.
  - destruct (Py.int (Py.strip s)); [|discriminate].
    intros H; inversion H; reflexivity.
  - intros H; inversion H; subst. simpl.
    rewrite strip_idem, String.eqb_refl, E. reflexivity.
Qed.

Lemma stripped_meta_step data prop data' :
  stripped_dict data = true -> meta_step data prop = Ok data' ->
  stripped_dict data' = true.
Proof.
  intros Hd. unfold meta_step.
  destruct (negb (truthy_opt (meta_key prop)) || negb (truthy_opt (meta_val prop)));
    [intros H; inversion H; subst; exact Hd|].
  destruct (meta_key prop) as [k|]; [|intros H; inversion H; subst; exact Hd].
  destruct (meta_val prop) as [v|]; [|intros H; inversion H; subst; exact Hd].
  destruct (int_if_digit (Py.strip v)) as [val|] eqn:Ev; [|discriminate].
  apply stripped_int_if_digit in Ev. simpl bind.
  destruct (negb (Py.contains ":" (Py.strip k))).
  - intros H; inversion H; subst. apply stripped_dict_set; assumption.
  - destruct (Py.split_char ":" (Py.strip k)) as [|key_head key];
      [intros H; inversion H; subst; exact Hd|].
    intros H; inversion H; subst. apply stripped_dict_set; [exact Hd|].
    apply (stripped_store_parts key _ val); [|exact Ev].
    destruct (dict_get data key_head) as [x|] eqn:E; [|reflexivity].
    pose proof (stripped_dict_get data key_head x Hd E) as Hx.
    destruct x; [ | | exact Hx];
      unfold stripped_dict; cbn [stripped_value] in *; rewrite ?Hx; reflexivity.
Qed.

Lemma stripped_get_meta_data (P : Parser) (doc : Doc P) data :
  get_meta_data P doc = Ok data -> stripped_dict data = true.
Proof.
  unfold get_meta_data.
  assert (H : forall l d0 d1, stripped_dict d0 = true ->
                for_each meta_step l d0 = Ok d1 -> stripped_dict d1 = true).
  { induction l as [|prop l IH]; simpl; intros d0 d1 H0 H.
    - inversion H; subst; exact H0.
    - destruct (meta_step d0 prop) as [d|] eqn:E; [|discriminate].
      simpl in H. eapply IH; [|exact H]. eapply stripped_meta_step; eassumption. }
  apply H. reflexivity.
Qed.

(** C10, as the code has it: a meta tag whose key (the [property]
    attribute, else [name]) or value (the [content] attribute, else
    [value]) is missing or empty is skipped.  For any other tag the value
    is stripped of whitespace, then stored along the parts of the stripped
    key: as an integer when the stripped value is a numeral (decimal
    digits, at most 4300 of them; so for every content that is such a
    numeral), as the stripped string when it is not a text of digits.  A
    stripped value that is a text of digits but not a numeral (a digit
    that is not decimal, or more than 4300 digits) makes the call raise
    [ValueError].  Every string in the tree [get_meta_data] returns is
    whitespace-stripped and not a text of digits. *)
Theorem C10_meta_data_integer_or_stripped_string :
  forall (data : list (string * MetaValue)) (prop : Element),
    (truthy_opt (meta_key prop) = false \/ truthy_opt (meta_val prop) = false ->
     meta_step data prop = Ok data)
    /\ (forall k v,
          meta_key prop = Some k -> meta_val prop = Some v ->
          Py.truthy k = true -> Py.truthy v = true ->
          (numeral (Py.strip v) = true ->
           exists n data',
             Py.int (Py.strip v) = Some n
             /\ meta_step data prop = Ok data'
             /\ path_get data' (Py.split_char ":" (Py.strip k)) = Some (MInt n))
          /\ (decimal v = true -> Py.strip v = v)
          /\ (Py.isdigit (Py.strip v) = false ->
              exists data',
                meta_step data prop = Ok data'
                /\ path_get data' (Py.split_char ":" (Py.strip k))
                   = Some (MStr (Py.strip v)))
          /\ (Py.isdigit (Py.strip v) = true ->
              numeral (Py.strip v) = false ->
              meta_step data prop = Raise ValueError))
    /\ (forall (P : Parser) (doc : Doc P) tree,
          get_meta_data P doc = Ok tree -> stripped_dict tree = true).
Proof.
  intros data prop. split; [apply meta_step_skips|]. split.
  - intros k v Hk Hv Hkt Hvt. split; [|split; [|split]].
    + intros Hd. destruct (int_if_digit_numeral _ Hd) as (n & Hn & Hval).
      destruct (meta_step_stores data prop k v Hk Hv Hkt Hvt (MInt n) Hval)
        as (data' & H1 & H2).
      exists n, data'. auto.
    + apply strip_decimal.
    + intros Hd. apply (meta_step_stores data prop k v Hk Hv Hkt Hvt).
      unfold int_if_digit. rewrite Hd. reflexivity.
    + intros Hd Hn. unfold meta_step. rewrite Hk, Hv. simpl truthy_opt.
      rewrite Hkt, Hvt, (int_if_digit_not_numeral _ Hd Hn). reflexivity.
  - intros P doc tree. apply stripped_get_meta_data.
Qed.

(** The theorem at the tag [og:image:width] with content [640], stored
    as the integer 640, and at a content of 4301 digits, on which the call
    raises. *)
Lemma C10_example_width :
  (exists n data',
     Py.int "640" = Some n
     /\ meta_step [] (Example.meta "property" "og:image:width" "640") = Ok data'
     /\ path_get data' ["og"; "image"; "width"] = Some (MInt n))
  /\ meta_step [] (Example.meta "name" "k" (nines 4301)) = Raise ValueError.
Proof.
  split.
  - destruct (C10_meta_data_integer_or_stripped_string
                [] (Example.meta "property" "og:image:width" "640")) as (_ & H & _).
    destruct (H "og:image:width" "640" eq_refl eq_refl eq_refl eq_refl) as (Hint & _).
    exact (Hint eq_refl).
  - destruct (C10_meta_data_integer_or_stripped_string
                [] (Example.meta "name" "k" (nines 4301))) as (_ & H & _).
    destruct (H "k" (nines 4301) eq_refl eq_refl eq_refl eq_refl) as (_ & _ & _ & Hr).
    apply Hr; vm_compute; reflexivity.
Defined.

(** C10 as stated fails: a value that is empty after stripping is not
    skipped, it is stored as the empty string. *)
Lemma C10_blank_value_counterexample :
  get_meta_data Example.parser Example.doc_blank_value = Ok [("k", MStr "")]
  /\ meta_val (Example.meta "name" "k" " ") = Some " "
  /\ Py.strip " " = "".
Proof.
  repeat split; vm_compute; reflexivity.
Qed.

(** ** The download ([Article.download]) *)

Import Article.

Lemma refresh_count_app a b :
  refresh_count (a ++ b) = (refresh_count a + refresh_count b)%nat.
Proof.
  unfold refresh_count. rewrite filter_app, length_app. reflexivity.
Qed.

Section DownloadFacts.
Variable P : Parser.
Variable L : Library.
Variable N : Network.

Lemma parse_scheme_http_no_refresh self url_ self' h tr :
  _parse_scheme_http N self url_ = (self', h, tr) -> refresh_count tr = 0%nat.
Proof.
  unfold _parse_scheme_http.
  destruct (get_html_2XX_only N _ _) as [[html code]|e].
  - destruct (400 <=? code)%Z; intros H; inversion H; reflexivity.
  - intros H; inversion H; reflexivity.
Qed.

Lemma fetch_no_refresh self input_html self' h tr :
  fetch L N self input_html = (self', h, tr) -> refresh_count tr = 0%nat.
Proof.
  unfold fetch. destruct input_html as [html|].
  - intros H; inversion H; reflexivity.
  - destruct (String.eqb _ _).
    + unfold _parse_scheme_file. destruct (open_read N _); intros H; inversion H; reflexivity.
    + apply parse_scheme_http_no_refresh.
Qed.

Lemma follow_read_more_no_refresh self html irm r tr :
  follow_read_more P N self html irm = (r, tr) -> refresh_count tr = 0%nat.
Proof.
  unfold follow_read_more.
  destruct (negb irm && Py.truthy (read_more_link self));
    [|intros H; inversion H; reflexivity].
  destruct (fromstring P html) as [doc|]; [|intros H; inversion H; reflexivity].
  destruct (find _ _) as [node|]; [|intros H; inversion H; reflexivity].
  destruct (_parse_scheme_http N self _) as [[self' [h|]] tr'] eqn:E;
    intros H; inversion H; subst;
    eapply parse_scheme_http_no_refresh; exact E.
Qed.

Lemma finish_download_no_refresh self html title irm tr :
  refresh_count (trace (finish_download P N self html title irm tr)) = refresh_count tr.
Proof.
  unfold finish_download.
  destruct (follow_read_more P N self html irm) as [r tr'] eqn:E.
  apply follow_read_more_no_refresh in E.
  destruct r as [[self' html']|e]; simpl; rewrite refresh_count_app, E; lia.
Qed.

(** The meta refresh targets a call re-fetches are at most as many as the
    recursion counter is below 1. *)
Lemma download_refresh_bound self input_html title recursion_counter irm :
  (refresh_count (trace (download P L N self input_html title recursion_counter irm))
   <= Z.to_nat (1 - recursion_counter))%nat.
Proof.
  funelim (download P L N self input_html title recursion_counter irm).
  all: try match goal with H : fetch _ _ _ _ = _ |- _ => pose proof (fetch_no_refresh _ _ _ _ _ H) end.
  - simpl. lia.
  - unfold after. simpl trace. rewrite !refresh_count_app.
    change (refresh_count [RefreshGet meta_refresh_url]) with 1%nat. lia.
  - rewrite finish_download_no_refresh. lia.
  - rewrite finish_download_no_refresh. lia.
Qed.

End DownloadFacts.

Section DownloadSteps.
Variable P : Parser.
Variable L : Library.
Variable N : Network.

Lemma download_follows_refresh self input_html title recursion_counter irm
      self' html tr meta_refresh_url :
  fetch L N self input_html = (self', Some html, tr) ->
  meta_refresh_target N self' html = Some meta_refresh_url ->
  (recursion_counter < 1)%Z ->
  download P L N self input_html title recursion_counter irm
  = after (tr ++ [RefreshGet meta_refresh_url])
          (download P L N self' (Some (get_html N meta_refresh_url)) None
                    (recursion_counter + 1) false).
Proof.
  intros Hf Ht Hlt.
  funelim (download P L N self input_html title recursion_counter irm);
    rewrite Hf in *;
    match goal with E : (_, _, _) = (_, _, _) |- _ => inversion E; subst end;
    try rewrite Ht in *; try discriminate; try lia.
  match goal with E : Some _ = Some _ |- _ => inversion E; subst end.
  reflexivity.
Qed.

Lemma download_without_refresh self input_html title recursion_counter irm
      self' html tr :
  fetch L N self input_html = (self', Some html, tr) ->
  meta_refresh_target N self' html = None \/ (1 <= recursion_counter)%Z ->
  download P L N self input_html title recursion_counter irm
  = finish_download P N self' html title irm tr.
Proof.
  intros Hf Hno.
  funelim (download P L N self input_html title recursion_counter irm);
    rewrite Hf in *;
    match goal with E : (_, _, _) = (_, _, _) |- _ => inversion E; subst end;
    try reflexivity.
  destruct Hno as [Hno|Hno]; [|lia].
  match goal with E : meta_refresh_target _ _ _ = Some _ |- _ => rewrite Hno in E end.
  discriminate.
Qed.

Lemma download_failed self title recursion_counter irm self' tr input_html :
  fetch L N self input_html = (self', None, tr) ->
  download P L N self input_html title recursion_counter irm = mkOutcome self' None tr.
Proof.
  intros Hf.
  funelim (download P L N self input_html title recursion_counter irm);
    rewrite Hf in *;
    match goal with E : (_, _, _) = (_, _, _) |- _ => inversion E; subst end.
  reflexivity.
Qed.

Lemma parse_scheme_http_result self url_ self' h tr :
  _parse_scheme_http N self url_ = (self', h, tr) ->
  url self' = url self
  /\ read_more_link self' = read_more_link self
  /\ config self' = config self
  /\ match h with
     | Some _ => self' = self
     | None => download_state self' = FAILED_RESPONSE
     end.
Proof.
  unfold _parse_scheme_http.
  destruct (get_html_2XX_only N _ _) as [[html code]|e].
  - destruct (400 <=? code)%Z; intros H; inversion H; subst; auto.
  - intros H; inversion H; subst; auto.
Qed.

Lemma fetch_result self input_html self' h tr :
  fetch L N self input_html = (self', h, tr) ->
  url self' = url self
  /\ read_more_link self' = read_more_link self
  /\ config self' = config self
  /\ match h with
     | Some _ => self' = self
     | None => download_state self' = FAILED_RESPONSE
     end.
Proof.
  unfold fetch. destruct input_html as [html|].
  - intros H; inversion H; subst; auto.
  - destruct (String.eqb _ _).
    + unfold _parse_scheme_file.
      destruct (open_read N _); intros H; inversion H; subst; auto.
    + apply parse_scheme_http_result.
Qed.

(** After a followed refresh, with no read-more link and a re-fetched
    page that is not empty: the page is stored, the URL is kept. *)
Lemma download_refresh_stores self input_html title irm self' html tr u :
  fetch L N self input_html = (self', Some html, tr) ->
  meta_refresh_target N self' html = Some u ->
  read_more_link self = "" ->
  Py.truthy (get_html N u) = true ->
  download P L N self input_html title 0 irm
  = mkOutcome (set_html self (get_html N u)) None (tr ++ [RefreshGet u]).
Proof.
  intros Hf Ht Hr Hn.
  rewrite (download_follows_refresh self input_html title 0 irm self' html tr u Hf Ht)
    by lia.
  destruct (fetch_result _ _ _ _ _ Hf) as (_ & _ & _ & ->).
  rewrite (download_without_refresh self (Some (get_html N u)) None (0 + 1) false
             self (get_html N u) []); [|reflexivity | right; lia].
  unfold finish_download, follow_read_more. rewrite Hr. simpl.
  unfold after. simpl. rewrite app_nil_r. reflexivity.
Qed.

End DownloadSteps.

(** C2: whatever the pages served and however many refresh directives
    they chain, a call of [download] at a recursion depth of 0 or more
    re-fetches at most one meta refresh target, and none at a depth of 1
    or more: a target is followed only at a depth below 1.  ([download] is
    a total function: the recursion ends.) *)
Theorem C2_download_follows_at_most_one_refresh :
  forall (P : Parser) (L : Library) (N : Network) (self : Article)
         (input_html title : option string) (recursion_counter : Z)
         (ignore_read_more : bool),
    (0 <= recursion_counter)%Z ->
    (refresh_count
       (trace (download P L N self input_html title recursion_counter ignore_read_more))
     <= 1)%nat
    /\ ((1 <= recursion_counter)%Z ->
        refresh_count
          (trace (download P L N self input_html title recursion_counter ignore_read_more))
        = 0%nat).
Proof.
  intros P L N self input_html title rc irm Hrc.
  pose proof (download_refresh_bound P L N self input_html title rc irm) as H.
  split; [lia|]. intros H1. lia.
Qed.

(** The theorem on a network whose every page redirects: one target is
    re-fetched, and the second directive is not followed. *)
Lemma C2_example_refresh_loop :
  (refresh_count
     (trace (download Example.parser Example.library Example.looping_network
                      Example.fresh_article None None 0 false)) <= 1)%nat
  /\ trace (download Example.parser Example.library Example.looping_network
                     Example.fresh_article None None 0 false)
     = [HttpGet "http://a.test/start"; RefreshGet "http://a.test/next"].
Proof.
  split; [|vm_compute; reflexivity].
  apply (C2_download_follows_at_most_one_refresh
           Example.parser Example.library Example.looping_network
           Example.fresh_article None None 0 false).
  lia.
Defined.

(** What the meta refresh path of [download] does: when the fetched html
    holds a meta refresh directive, following is enabled and the recursion
    depth is 0, [download] re-fetches the target and carries on with the
    re-fetched html at depth 1; with no read-more link configured and a
    re-fetched html that is not empty, the stored html becomes the
    re-fetched one and the state [SUCCESS], while the URL of the article
    is left as it was. *)
Lemma download_refresh_keeps_url :
  forall (P : Parser) (L : Library) (N : Network) (self self' : Article)
         (input_html title : option string) (ignore_read_more : bool)
         (html_ : string) (tr : list Event) (meta_refresh_url : string),
    fetch L N self input_html = (self', Some html_, tr) ->
    follow_meta_refresh (config self) = true ->
    extract_meta_refresh N html_ = Some meta_refresh_url ->
    Py.truthy meta_refresh_url = true ->
    let o := download P L N self input_html title 0 ignore_read_more in
    In (RefreshGet meta_refresh_url) (trace o)
    /\ o = after (tr ++ [RefreshGet meta_refresh_url])
                 (download P L N self (Some (get_html N meta_refresh_url)) None 1 false)
    /\ (read_more_link self = "" ->
        Py.truthy (get_html N meta_refresh_url) = true ->
        html (article o) = get_html N meta_refresh_url
        /\ download_state (article o) = SUCCESS
        /\ url (article o) = url self
        /\ raised o = None).
Proof.
  intros P L N self self' input_html title irm html_ tr u Hf Hcfg Hx Hu o.
  assert (Hself : self' = self).
  { destruct (fetch_result L N _ _ _ _ _ Hf) as (_ & _ & _ & H). exact H. }
  subst self'.
  assert (Ht : meta_refresh_target N self html_ = Some u).
  { unfold meta_refresh_target. rewrite Hcfg, Hx, Hu. reflexivity. }
  assert (Ho : o = after (tr ++ [RefreshGet u])
                     (download P L N self (Some (get_html N u)) None 1 false)).
  { unfold o.
    rewrite (download_follows_refresh P L N self input_html title 0 irm self html_ tr u
               Hf Ht) by lia.
    reflexivity. }
  split; [|split; [exact Ho|]].
  - rewrite Ho. unfold after. simpl. rewrite <- app_assoc.
    apply in_or_app. right. left. reflexivity.
  - intros Hr Hn. unfold o.
    rewrite (download_refresh_stores P L N self input_html title irm self html_ tr u
               Hf Ht Hr Hn).
    simpl. unfold set_html. rewrite Hn. simpl. auto.
Qed.

(** The lemma on the network of the examples: the page of the start URL
    redirects to the next URL, whose page is stored. *)
Lemma example_refresh_keeps_url :
  html (article (download Example.parser Example.library Example.network
                          Example.fresh_article None None 0 false))
  = Example.final_page
  /\ url (article (download Example.parser Example.library Example.network
                            Example.fresh_article None None 0 false))
     = "http://a.test/start".
Proof.
  destruct (download_refresh_keeps_url
              Example.parser Example.library Example.network
              Example.fresh_article Example.fresh_article None None false
              Example.refresh_page [HttpGet "http://a.test/start"]
              "http://a.test/next" eq_refl eq_refl eq_refl eq_refl)
    as (_ & _ & H).
  destruct (H eq_refl eq_refl) as (Hh & _ & Hu & _).
  split; [exact Hh | exact Hu].
Defined.

(** C7: the claim, and the documentation of [Article] (the [url]
    attribute is different from the original URL in case of a redirect
    through meta refresh or read-more link), say that after a followed
    meta refresh the URL of the article is the URL that was re-fetched.
    On the network of the examples, whose start page redirects to the next
    page, [download] stores the page of the target and leaves the URL of
    the article at the start URL; on the read-more path, which assigns the
    URL, the article ends at the URL of the link. *)
Theorem C7_meta_refresh_leaves_url :
  extract_meta_refresh Example.network Example.refresh_page = Some "http://a.test/next"
  /\ trace (download Example.parser Example.library Example.network
                     Example.fresh_article None None 0 false)
     = [HttpGet "http://a.test/start"; RefreshGet "http://a.test/next"]
  /\ html (article (download Example.parser Example.library Example.network
                             Example.fresh_article None None 0 false))
     = "<html>final</html>"
  /\ url (article (download Example.parser Example.library Example.network
                            Example.fresh_article None None 0 false))
     = "http://a.test/start"
  /\ url (article (download Example.parser Example.library Example.network
                            Example.fresh_article None None 0 false))
     <> "http://a.test/next"
  /\ url (article (download read_more_parser Example.library network_full
                            teaser_article None None 0 false))
     = "http://a.test/full".
Proof.
  split; [vm_compute; reflexivity|].
  split; [vm_compute; reflexivity|].
  split; [vm_compute; reflexivity|].
  split; [vm_compute; reflexivity|].
  split; [vm_compute; discriminate | vm_compute; reflexivity].
Qed.

(** ** The guards ([parse], [nlp]) *)

Section GuardFacts.
Variable P : Parser.
Variable L : Library.
Variable N : Network.
Variable extract_fields : Article -> Doc P -> Result Article.
Variable nlp_fields : Article -> Result Article.

Lemma parse_not_started self :
  download_state self = NOT_STARTED ->
  parse P extract_fields self
  = (self, Some (ArticleException "You must `download()` an article first!")).
Proof.
  intros H. unfold parse, throw_if_not_downloaded_verbose. rewrite H. reflexivity.
Qed.

Lemma failed_message_names_download m u :
  Py.contains "`download()`"
    ("Article `download()` failed with " ++ format_opt m ++ " on URL " ++ u)%string
  = true.
Proof.
  change ("Article `download()` failed with " ++ format_opt m ++ " on URL " ++ u)%string
    with ("Article `download()`" ++ (" failed with " ++ format_opt m ++ " on URL " ++ u))%string.
  apply contains_app_l. reflexivity.
Qed.

Lemma parse_failed self :
  download_state self = FAILED_RESPONSE ->
  exists msg,
    parse P extract_fields self = (self, Some (ArticleException msg))
    /\ msg = ("Article `download()` failed with "
              ++ format_opt (download_exception_msg self)
              ++ " on URL " ++ url self)%string
    /\ Py.contains "`download()`" msg = true.
Proof.
  intros H. unfold parse, throw_if_not_downloaded_verbose. rewrite H.
  eexists. split; [reflexivity|]. split; [reflexivity|].
  apply failed_message_names_download.
Qed.

Lemma nlp_not_parsed self :
  is_parsed self = false ->
  exists msg,
    nlp nlp_fields self = (self, Some (ArticleException msg))
    /\ (download_state self <> SUCCESS -> Py.contains "`download()`" msg = true)
    /\ (download_state self = SUCCESS -> msg = "You must `parse()` an article first!").
Proof.
  intros H. unfold nlp, throw_if_not_downloaded_verbose, throw_if_not_parsed_verbose.
  rewrite H. destruct (download_state self) eqn:E; simpl.
  - eexists. split; [reflexivity|]. split; [reflexivity | discriminate].
  - eexists. split; [reflexivity|]. split; [|discriminate].
    intros _. apply failed_message_names_download.
  - eexists. split; [reflexivity|]. split; [congruence | reflexivity].
Qed.

Lemma download_failure_recorded self title recursion_counter irm self' tr :
  fetch L N self None = (self', None, tr) ->
  download_state
    (article (download P L N self None title recursion_counter irm))
  = FAILED_RESPONSE.
Proof.
  intros Hf. rewrite (download_failed P L N self title recursion_counter irm self' tr None Hf).
  simpl. destruct (fetch_result L N _ _ _ _ _ Hf) as (_ & _ & _ & H). exact H.
Qed.

End GuardFacts.

(** C9: [parse] on an article whose download never started raises the
    [ArticleException] that asks for [download()] first; on an article
    whose download failed it raises the [ArticleException] that reports
    the failed [download()]; [nlp] on an article that is not parsed raises
    an [ArticleException] that names [download()] when the article is not
    downloaded, and the one that asks for [parse()] first when it is.  The
    article is left as it was, so the call fails again when repeated.  A
    new article is in the state [NOT_STARTED] and not parsed; a download
    whose fetch fails leaves the state [FAILED_RESPONSE]. *)
Theorem C9_parse_and_nlp_guards :
  forall (P : Parser) (L : Library) (N : Network)
         (extract_fields : Article -> Doc P -> Result Article)
         (nlp_fields : Article -> Result Article) (self : Article),
    (download_state self = NOT_STARTED ->
     parse P extract_fields self
     = (self, Some (ArticleException "You must `download()` an article first!")))
    /\ (download_state self = FAILED_RESPONSE ->
        exists msg,
          parse P extract_fields self = (self, Some (ArticleException msg))
          /\ msg = ("Article `download()` failed with "
                    ++ format_opt (download_exception_msg self)
                    ++ " on URL " ++ url self)%string
          /\ Py.contains "`download()`" msg = true)
    /\ (is_parsed self = false ->
        exists msg,
          nlp nlp_fields self = (self, Some (ArticleException msg))
          /\ (download_state self <> SUCCESS -> Py.contains "`download()`" msg = true)
          /\ (download_state self = SUCCESS ->
              msg = "You must `parse()` an article first!"))
    /\ (forall title recursion_counter irm self' tr,
          fetch L N self None = (self', None, tr) ->
          download_state
            (article (download P L N self None title recursion_counter irm))
          = FAILED_RESPONSE)
    /\ (forall config_ url_ title_ read_more_link_,
          download_state (init config_ url_ title_ read_more_link_) = NOT_STARTED
          /\ is_parsed (init config_ url_ title_ read_more_link_) = false).
Proof.
  intros P L N extract_fields nlp_fields self.
  split; [apply parse_not_started|].
  split; [apply parse_failed|].
  split; [apply nlp_not_parsed|].
  split; [intros; eapply download_failure_recorded; eassumption|].
  intros; split; reflexivity.
Qed.

(** The theorem on a new article, and on the article a download answered
    with status 404 leaves. *)
Lemma C9_example_guards :
  parse Example.parser Example.no_extraction Example.fresh_article
  = (Example.fresh_article,
     Some (ArticleException "You must `download()` an article first!"))
  /\ exists msg,
       parse Example.parser Example.no_extraction
             (article (download Example.parser Example.library Example.network_404
                                Example.fresh_article None None 0 false))
       = (article (download Example.parser Example.library Example.network_404
                            Example.fresh_article None None 0 false),
          Some (ArticleException msg))
       /\ Py.contains "`download()`" msg = true.
Proof.
  split.
  - destruct (C9_parse_and_nlp_guards
                Example.parser Example.library Example.network_404
                Example.no_extraction Example.no_analysis Example.fresh_article)
      as (H & _).
    apply H. reflexivity.
  - destruct (C9_parse_and_nlp_guards
                Example.parser Example.library Example.network_404
                Example.no_extraction Example.no_analysis
                (article (download Example.parser Example.library Example.network_404
                                   Example.fresh_article None None 0 false)))
      as (_ & H & _).
    destruct (H eq_refl) as (msg & Hp & _ & Hc).
    exists msg. split; [exact Hp | exact Hc].
Defined.

(* ===================================================================== *)
(** * Further properties of the code *)
(* ===================================================================== *)

Local Open Scope list_scope.

(** ** Names returned by [parse_byline] *)

Lemma all_chars_and p q s :
  Py.all_chars (fun c => p c && q c) s = Py.all_chars p s && Py.all_chars q s.
Proof.
  induction s as [|c s IH]; simpl; [reflexivity|]. rewrite IH.
  destruct (p c), (q c), (Py.all_chars p s); reflexivity.
Qed.

Lemma all_chars_lstrip p s :
  Py.all_chars p s = true -> Py.all_chars p (Py.lstrip s) = true.
Proof.
  induction s as [|c s IH]; simpl; [reflexivity|]. intros H.
  apply andb_true_iff in H as [Hc Hs].
  destruct (Py.isspace c); [apply IH, Hs | simpl; rewrite Hc; exact Hs].
Qed.

Lemma all_chars_rstrip p s :
  Py.all_chars p s = true -> Py.all_chars p (Py.rstrip s) = true.
Proof.
  induction s as [|c s IH]; simpl; [reflexivity|]. intros H.
  apply andb_true_iff in H as [Hc Hs]. specialize (IH Hs).
  destruct (Py.rstrip s) as [|c' r].
  - destruct (Py.isspace c); simpl; [reflexivity | rewrite Hc; reflexivity].
  - simpl. rewrite Hc. exact IH.
Qed.

Lemma all_chars_strip p s :
  Py.all_chars p s = true -> Py.all_chars p (Py.strip s) = true.
Proof.
  intros H. unfold Py.strip. apply all_chars_rstrip, all_chars_lstrip, H.
Qed.

Lemma split_where_pieces p s :
  Forall (fun t => Py.all_chars (fun c => negb (p c)) t = true) (Py.split_where p s).
Proof.
  induction s as [|c s IH]; simpl; [repeat constructor|].
  destruct (p c) eqn:E; [constructor; [reflexivity | exact IH]|].
  destruct (Py.split_where p s) as [|piece rest]; [repeat constructor; simpl; rewrite E; reflexivity|].
  inversion IH; subst. constructor; [|assumption]. simpl. rewrite E. assumption.
Qed.

Lemma not_any_all p s :
  negb (Py.any_char p s) = Py.all_chars (fun c => negb (p c)) s.
Proof.
  induction s as [|c s IH]; simpl; [reflexivity|].
  rewrite negb_orb, IH. reflexivity.
Qed.

Lemma is_delimiter_empty : is_delimiter "" = true.
Proof. reflexivity. Qed.

(** The loop keeps well-formed names in [_authors] and name tokens in
    [curname]. *)
Lemma byline_step_invariant st token :
  Py.all_chars (fun c => negb (name_separator c)) token = true ->
  Forall well_formed_name (fst st) ->
  Forall (fun t => name_token t = true) (snd st) ->
  Forall well_formed_name (fst (byline_step st token))
  /\ Forall (fun t => name_token t = true) (snd (byline_step st token)).
Proof.
  destruct st as [authors curname]. simpl. intros Htok Ha Hc.
  destruct (is_delimiter token) eqn:Ed.
  - destruct curname as [|t0 curname]; simpl; [auto|].
    split; [|constructor]. apply Forall_app. split; [exact Ha|].
    constructor; [|constructor]. exists (t0 :: curname). split; [discriminate|]. auto.
  - destruct (negb (contains_digits token)) eqn:Edig; simpl; [|auto].
    split; [exact Ha|]. apply Forall_app. split; [exact Hc|].
    constructor; [|constructor]. unfold name_token.
    unfold contains_digits in Edig. rewrite not_any_all in Edig.
    rewrite Htok, Edig. destruct token; [discriminate Ed | reflexivity].
Qed.

Lemma byline_loop_invariant tokens : forall st,
  Forall (fun t => Py.all_chars (fun c => negb (name_separator c)) t = true) tokens ->
  Forall well_formed_name (fst st) ->
  Forall (fun t => name_token t = true) (snd st) ->
  Forall well_formed_name (fst (fold_left byline_step tokens st))
  /\ Forall (fun t => name_token t = true) (snd (fold_left byline_step tokens st)).
Proof.
  induction tokens as [|t tokens IH]; intros st Ht Ha Hc; simpl; [auto|].
  inversion Ht as [|? ? Htok Hrest]; subst.
  destruct (byline_step_invariant st t Htok Ha Hc) as [Ha' Hc'].
  apply IH; assumption.
Qed.

(** X1: every name [parse_byline] returns is made of one token or more
    joined by single spaces, each token being not empty, made of word
    characters, apostrophes, hyphens and periods only, and free of decimal
    digits: no markup, comma or digit reaches a name. *)
Theorem X1_parse_byline_names_well_formed :
  forall search_str, Forall well_formed_name (parse_byline search_str).
Proof.
  intros s. unfold parse_byline.
  set (toks := map Py.strip _).
  assert (Ht : Forall (fun t => Py.all_chars (fun c => negb (name_separator c)) t = true) toks).
  { unfold toks. apply Forall_map.
    eapply Forall_impl; [|apply split_where_pieces]. intros t. apply all_chars_strip. }
  destruct (byline_loop_invariant toks ([], []) Ht (Forall_nil _) (Forall_nil _))
    as [H1 H2].
  destruct (fold_left byline_step toks ([], [])) as [authors curname].
  simpl fst in H1. simpl snd in H2. cbv beta zeta.
  destruct (2 <=? length curname)%nat eqn:E; [|exact H1].
  apply Forall_app. split; [exact H1|]. constructor; [|constructor].
  exists curname. split; [destruct curname; [discriminate E | discriminate]|]. auto.
Qed.

(** ** More on [uniqify_list] *)

Lemma first_seen_length l : (length (first_seen l) <= length l)%nat.
Proof.
  induction l as [|x l IH]; simpl; [lia|].
  pose proof (filter_length_le (fun y => negb (y =? x)) (first_seen l)). lia.
Qed.

Lemma uniqify_list_entry lst v :
  In v (uniqify_list lst) ->
  v <> "" /\ Py.strip v = v /\ exists x, In x lst /\ v = Py.strip x.
Proof.
  unfold uniqify_list. fold (seen_of lst). intros H.
  apply in_map_iff in H as ([k v'] & <- & H). apply filter_In in H as [H Hk].
  simpl in Hk.
  apply seen_of_values in H as (l1 & x & l2 & -> & Hkey & -> & _). simpl.
  split; [|split].
  - intros E. rewrite <- Hkey, <- author_key_strip, E in Hk. discriminate.
  - apply strip_idem.
  - exists x. split; [apply in_or_app; right; left; reflexivity | reflexivity].
Qed.

(** X2: every entry [uniqify_list] returns is the trimmed text of an
    entry of its input, is not empty and has no surrounding whitespace;
    and the list returned is not longer than the input. *)
Theorem X2_uniqify_list_entries :
  forall lst,
    Forall (fun v => v <> "" /\ Py.strip v = v /\ exists x, In x lst /\ v = Py.strip x)
           (uniqify_list lst)
    /\ (length (uniqify_list lst) <= length lst)%nat.
Proof.
  intros lst. split.
  - apply Forall_forall. intros v. apply uniqify_list_entry.
  - rewrite <- (length_map author_key (uniqify_list lst)), uniqify_list_keys.
    pose proof (filter_length_le Py.truthy (first_seen (map author_key lst))).
    pose proof (first_seen_length (map author_key lst)).
    rewrite length_map in *. lia.
Qed.

Lemma od_set_new seen k v :
  ~ In k (map fst seen) -> od_set seen k v = seen ++ [(k, v)].
Proof.
  induction seen as [|[k0 v0] rest IH]; simpl; [reflexivity|]. intros H.
  destruct (String.eqb_spec k0 k) as [->|Hne]; [tauto|].
  rewrite IH; tauto.
Qed.

Lemma seen_of_distinct l :
  NoDup (map author_key l) ->
  Forall (fun v => Py.strip v = v) l ->
  seen_of l = map (fun v => (author_key v, v)) l.
Proof.
  induction l as [|x l IH] using rev_ind; intros Hnd Hs; [reflexivity|].
  rewrite seen_of_snoc. apply Forall_app in Hs as [Hl Hx].
  inversion Hx as [|? ? Hx' _]; subst.
  rewrite map_app in Hnd. simpl in Hnd.
  pose proof (NoDup_remove_1 _ _ _ Hnd) as Hnd'.
  pose proof (NoDup_remove_2 _ _ _ Hnd) as Hnot.
  rewrite app_nil_r in Hnd', Hnot.
  rewrite (IH Hnd' Hl), Hx', map_app. simpl.
  apply od_set_new. rewrite map_map. simpl. exact Hnot.
Qed.

Lemma uniqify_list_fixed l :
  NoDup (map author_key l) ->
  Forall (fun v => Py.strip v = v) l ->
  Forall (fun v => Py.truthy (author_key v) = true) l ->
  uniqify_list l = l.
Proof.
  intros Hnd Hs Ht. unfold uniqify_list. fold (seen_of l).
  rewrite (seen_of_distinct l Hnd Hs). clear Hnd Hs.
  induction Ht as [|v l Hv Ht IH]; simpl; [reflexivity|].
  rewrite Hv. simpl. rewrite IH. reflexivity.
Qed.

(** X3: [uniqify_list] is idempotent: applied to a list it returned, it
    returns that list. *)
Theorem X3_uniqify_list_idempotent :
  forall lst, uniqify_list (uniqify_list lst) = uniqify_list lst.
Proof.
  intros lst. apply uniqify_list_fixed.
  - rewrite uniqify_list_keys. apply NoDup_filter, first_seen_NoDup.
  - apply Forall_forall. intros v Hv. apply (uniqify_list_entry lst v Hv).
  - assert (H : Forall (fun k => Py.truthy k = true)
                       (map author_key (uniqify_list lst))).
    { rewrite uniqify_list_keys. apply Forall_forall. intros k Hk.
      apply filter_In in Hk as [_ Hk]. exact Hk. }
    apply Forall_forall. intros v Hv. rewrite Forall_forall in H.
    apply H, in_map, Hv.
Qed.

(** ** More on [split_title] and [get_meta_content] *)

Lemma largest_piece_bound hint pieces : forall i len idx,
  largest_piece hint pieces i len idx = idx
  \/ (i <= largest_piece hint pieces i len idx < i + length pieces)%nat.
Proof.
  induction pieces as [|q pieces IH]; intros i len idx; simpl; [auto|].
  destruct (Py.truthy hint && _); [right; lia|].
  destruct (len <? String.length (Py.strip q))%nat.
  - destruct (IH (S i) (String.length (Py.strip q)) i) as [->|H]; right; lia.
  - destruct (IH (S i) len idx) as [->|H]; [left; reflexivity | right; lia].
Qed.

(** X4: [split_title] raises [IndexError] when the splitter yields no
    piece, and only then; otherwise it returns one of the pieces, after
    the title replacements, stripped of surrounding whitespace. *)
Theorem X4_split_title_returns_a_piece :
  forall (D : Defines) (title_ : string) (splitter : string -> list string)
         (hint : string),
    (splitter title_ = [] -> split_title D title_ splitter hint = Raise IndexError)
    /\ (splitter title_ <> [] ->
        exists p,
          In p (splitter title_)
          /\ split_title D title_ splitter hint
             = Ok (Py.strip (TITLE_REPLACEMENTS D p)))
    /\ (forall r, split_title D title_ splitter hint = Ok r -> Py.strip r = r).
Proof.
  intros D title_ splitter hint. unfold split_title.
  set (h := if Py.truthy hint then _ else _).
  split; [|split].
  - intros ->. reflexivity.
  - intros Hne.
    destruct (largest_piece_bound h (splitter title_) 0 0 0) as [E|E].
    + rewrite E. destruct (splitter title_) as [|p rest]; [congruence|].
      exists p. split; [left; reflexivity | reflexivity].
    + destruct (nth_error (splitter title_) (largest_piece h (splitter title_) 0 0 0))
        as [p|] eqn:En.
      * exists p. split; [eapply nth_error_In, En | reflexivity].
      * apply nth_error_None in En. lia.
  - intros r. destruct (nth_error _ _); [|discriminate].
    intros H. inversion H. apply strip_idem.
Qed.

Lemma largest_piece_keeps hint pieces : forall i len idx,
  Py.truthy hint = false ->
  Forall (fun q => (piece_length q <= len)%nat) pieces ->
  largest_piece hint pieces i len idx = idx.
Proof.
  induction pieces as [|q pieces IH]; intros i len idx Hh Hp; simpl; [reflexivity|].
  inversion Hp as [|? ? Hq Hrest]; subst. rewrite Hh. simpl.
  unfold piece_length in Hq.
  destruct (Nat.ltb_spec len (String.length (Py.strip q))); [lia|].
  apply IH; assumption.
Qed.

Lemma largest_piece_longest hint pre p post : forall i len idx,
  Py.truthy hint = false ->
  (len < piece_length p)%nat ->
  Forall (fun q => (piece_length q < piece_length p)%nat) pre ->
  Forall (fun q => (piece_length q <= piece_length p)%nat) post ->
  largest_piece hint (pre ++ p :: post) i len idx = (i + length pre)%nat.
Proof.
  intros i len idx Hh Hlen Hpre Hpost. revert i len idx Hlen.
  induction Hpre as [|q pre Hq Hpre IH]; intros i len idx Hlen; simpl.
  - rewrite Hh. simpl. fold (piece_length p).
    destruct (Nat.ltb_spec len (piece_length p)); [|lia].
    rewrite (largest_piece_keeps hint post (S i) (piece_length p) i Hh Hpost). lia.
  - rewrite Hh. simpl. fold (piece_length q).
    destruct (Nat.ltb_spec len (piece_length q)); rewrite IH; lia.
Qed.

(** X5: when the hint is empty once filtered, [split_title] returns the
    first piece of greatest stripped length. *)
Theorem X5_split_title_first_longest_piece :
  forall (D : Defines) (title_ : string) (splitter : string -> list string)
         (hint : string) (pre : list string) (p : string) (post : list string),
    Py.truthy (filtered hint) = false ->
    splitter title_ = pre ++ p :: post ->
    Forall (fun q => (piece_length q < piece_length p)%nat) pre ->
    Forall (fun q => (piece_length q <= piece_length p)%nat) post ->
    split_title D title_ splitter hint = Ok (Py.strip (TITLE_REPLACEMENTS D p)).
Proof.
  intros D title_ splitter hint pre p post Hf Hs Hpre Hpost.
  unfold split_title. rewrite Hs.
  set (h := if Py.truthy hint then _ else _).
  assert (Hh : Py.truthy h = false).
  { unfold h. destruct (Py.truthy hint) eqn:E; [exact Hf | exact E]. }
  assert (E : largest_piece h (pre ++ p :: post) 0 0 0 = length pre).
  { destruct (Nat.eq_dec (piece_length p) 0) as [Hz|Hnz].
    - destruct Hpre as [|q pre Hq Hpre]; [|lia]. simpl length.
      apply largest_piece_keeps; [exact Hh|].
      constructor; [lia|]. rewrite Hz in Hpost. exact Hpost.
    - rewrite (largest_piece_longest h pre p post 0 0 0 Hh); auto. lia. }
  rewrite E, nth_error_app2, Nat.sub_diag by lia. reflexivity.
Qed.

(** The theorem at the title of the specification, with no hint. *)
Lemma X5_example_bar_news :
  split_title Example.defines "Foo - Bar News" (DASH_SPLITTER Example.defines) ""
  = Ok "Bar News".
Proof.
  apply (X5_split_title_first_longest_piece
           Example.defines "Foo - Bar News" (DASH_SPLITTER Example.defines) ""
           ["Foo"] "Bar News" []).
  - reflexivity.
  - reflexivity.
  - constructor; [vm_compute; lia | constructor].
  - constructor.
Defined.

(** X6: [get_meta_content] always returns a string without surrounding
    whitespace, and the empty string when no element matches the selector
    or the first match has no content, or an empty one. *)
Theorem X6_get_meta_content_stripped :
  forall (P : Parser) (doc : Doc P) (metaname : string),
    Py.strip (get_meta_content P doc metaname) = get_meta_content P doc metaname
    /\ (css_select P doc metaname = [] -> get_meta_content P doc metaname = "")
    /\ (forall meta0 rest,
          css_select P doc metaname = meta0 :: rest ->
          truthy_opt (getAttribute P meta0 "content") = false ->
          get_meta_content P doc metaname = "").
Proof.
  intros P doc metaname. unfold get_meta_content. split; [|split].
  - destruct (css_select P doc metaname) as [|meta0 rest]; [reflexivity|].
    destruct (getAttribute P meta0 "content") as [c|]; [|reflexivity].
    destruct (Py.truthy c); [apply strip_idem | reflexivity].
  - intros ->. reflexivity.
  - intros meta0 rest -> H.
    destruct (getAttribute P meta0 "content") as [c|]; [|reflexivity].
    simpl in H. rewrite H. reflexivity.
Qed.

(** ** More on [get_publishing_date] *)

Lemma for_each_raises (A S : Type) (Q : Exception -> Prop)
  (body : S -> A -> Result S) :
  (forall s a e, body s a = Raise e -> Q e) ->
  forall l s e, for_each body l s = Raise e -> Q e.
Proof.
  intros Hbody. induction l as [|a l IH]; simpl; intros s e H; [discriminate|].
  destruct (body s a) as [s1|e1] eqn:E; simpl in H.
  - exact (IH _ _ H).
  - inversion H; subst. exact (Hbody _ _ _ E).
Qed.

Lemma for_each_returns (A S : Type) (body : S -> A -> Result S) l :
  (forall a, In a l -> forall s, exists s', body s a = Ok s') ->
  forall s, exists s', for_each body l s = Ok s'.
Proof.
  induction l as [|a l IH]; simpl; intros Hbody s; [eauto|].
  destruct (Hbody a (or_introl eq_refl) s) as [s1 ->]. simpl.
  apply IH. intros b Hb. apply Hbody. right. exact Hb.
Qed.

Lemma for_each_first_raise (A S : Type) (body : S -> A -> Result S) e pre a post :
  (forall b, In b pre -> forall s, exists s', body s b = Ok s') ->
  (forall s, body s a = Raise e) ->
  forall s, for_each body (pre ++ a :: post) s = Raise e.
Proof.
  intros Hpre Ha. induction pre as [|b pre IH]; simpl; intros s.
  - rewrite Ha. reflexivity.
  - destruct (Hpre b (or_introl eq_refl) s) as [s1 ->]. simpl.
    apply IH. intros c Hc. apply Hpre. right. exact Hc.
Qed.

Section MoreDateFacts.
Variable P : Parser.
Variable D : Defines.
Variable L : Library.

Lemma graph_dates_raises g dm e :
  graph_dates L g dm = Raise e -> e = AttributeError \/ e = TypeError.
Proof.
  destruct g as [| | |s|items|members]; simpl;
    try (intros H; inversion H; auto; fail).
  - destruct (Py.truthy s); intros H; inversion H; auto.
  - apply (for_each_raises _ _ (fun e => e = AttributeError \/ e = TypeError)).
    intros s a e0.
    destruct a; try (intros H; inversion H; auto; fail).
    destruct (parse_date_json L (dict_get members "datePublished")); discriminate.
  - destruct members; intros H; inversion H; auto.
Qed.

Lemma script_dates_raises dm script_tag e :
  script_dates L dm script_tag = Raise e -> e = AttributeError \/ e = TypeError.
Proof.
  unfold script_dates. destruct (Py.contains _ _).
  - destruct (text script_tag) as [txt|]; [|discriminate].
    destruct (json_loads L txt) as [j|]; [|discriminate].
    destruct j; try (intros H; inversion H; auto; fail).
    apply graph_dates_raises.
  - destruct (text script_tag) as [txt|]; [|intros H; inversion H; auto].
    destruct (datePublished_search txt); [|discriminate].
    destruct (parse_date_str L (Some s)); discriminate.
Qed.

Lemma script_dates_searched dm script_tag :
  searched_script script_tag = true -> exists dm', script_dates L dm script_tag = Ok dm'.
Proof.
  unfold searched_script, script_dates.
  destruct (text script_tag) as [txt|]; [|discriminate].
  destruct (Py.contains _ _); [discriminate|]. intros _.
  destruct (datePublished_search txt); [|eauto].
  destruct (parse_date_str L (Some s)); eauto.
Qed.

Lemma script_dates_textless dm script_tag :
  textless_script script_tag = true -> script_dates L dm script_tag = Raise TypeError.
Proof.
  unfold textless_script, script_dates.
  destruct (text script_tag) as [txt|]; [discriminate|].
  destruct (Py.contains _ _); [discriminate|]. reflexivity.
Qed.

Lemma get_publishing_date_collect url doc :
  get_publishing_date P D L url doc
  = (date_matches <- jsonld_date_matches P L doc (url_date_matches D L url) ;;
     Ok (match sort_desc (fun x : date_match => snd x)
                 (meta_date_matches P D L doc date_matches) with
         | x :: _ => Some (fst x)
         | [] => None
         end)).
Proof.
  unfold get_publishing_date, collect_date_matches.
  destruct (jsonld_date_matches P L doc (url_date_matches D L url)); reflexivity.
Qed.

Lemma structured_scores url doc cands :
  structured_dates P D L url doc = Ok cands ->
  Forall (fun c : date_match => snd c = 10%Z \/ snd c = 9%Z) cands.
Proof.
  unfold structured_dates. intros H.
  destruct (jsonld_date_matches_appends P L _ _ _ H) as (new & -> & Hnew).
  apply Forall_app. split; [|exact Hnew].
  eapply Forall_impl; [|apply url_date_matches_score]. simpl. auto.
Qed.

End MoreDateFacts.

(** X7: when the URL or a JSON-LD script yields a date, the date that
    [get_publishing_date] returns is one of these, of score 9 or 10 and of
    greatest score among them: no date of a meta tag is returned. *)
Theorem X7_structured_date_beats_meta_tags :
  forall (P : Parser) (D : Defines) (L : Library) (url_ : string) (doc : Doc P)
         (c : date_match) (cs : list date_match),
    structured_dates P D L url_ doc = Ok (c :: cs) ->
    exists d s,
      In (d, s) (c :: cs)
      /\ (s = 10%Z \/ s = 9%Z)
      /\ Forall (fun c' : date_match => (snd c' <= s)%Z) (c :: cs)
      /\ get_publishing_date P D L url_ doc = Ok (Some d).
Proof.
  intros P D L url_ doc c cs Hs.
  pose proof (structured_scores P D L _ _ _ Hs) as Hsc.
  destruct (meta_date_matches_appends P D L doc (c :: cs)) as (nm & Em & Hnm).
  assert (Hc : collect_date_matches P D L url_ doc = Ok ((c :: cs) ++ nm)).
  { unfold collect_date_matches. unfold structured_dates in Hs. rewrite Hs.
    simpl bind. rewrite Em. reflexivity. }
  pose proof (get_publishing_date_choice P D L _ _ _ Hc) as Hch.
  cbn [app] in Hch.
  destruct Hch as (pre & d & s & post & Hl & Hpre & Hpost & Hres).
  assert (Hall : Forall (fun c' : date_match => (snd c' <= s)%Z) (c :: cs ++ nm)).
  { rewrite Hl. apply Forall_app. split.
    - eapply Forall_impl; [|exact Hpre]. simpl. intros; lia.
    - constructor; [simpl; lia | exact Hpost]. }
  assert (Hin : In (d, s) (c :: cs)).
  { assert (Hi : In (d, s) ((c :: cs) ++ nm)).
    { cbn [app]. rewrite Hl. apply in_or_app. right. left. reflexivity. }
    apply in_app_or in Hi as [Hi|Hi]; [exact Hi|]. exfalso.
    rewrite Forall_forall in Hnm. apply Hnm, meta_scored_le in Hi. simpl in Hi.
    inversion Hall as [|? ? Hcs _]; subst.
    inversion Hsc as [|? ? Hc9 _]; subst. lia. }
  exists d, s. split; [exact Hin|]. split.
  - rewrite Forall_forall in Hsc. exact (Hsc _ Hin).
  - split; [|exact Hres].
    change (c :: cs ++ nm) with ((c :: cs) ++ nm) in Hall.
    apply Forall_app in Hall. exact (proj1 Hall).
Qed.

(** The theorem on a page whose JSON-LD script holds a date of 2022 and
    whose meta tag holds a date of 2023: the date of 2022 is returned. *)
Lemma X7_example_json_ld :
  exists d s,
    In (d, s) [(mkDatetime 2022 3 4 "00:00:00", 9%Z)]
    /\ (s = 10%Z \/ s = 9%Z)
    /\ Forall (fun c' : date_match => (snd c' <= s)%Z)
              [(mkDatetime 2022 3 4 "00:00:00", 9%Z)]
    /\ get_publishing_date Example.parser Example.defines Example.library
                           "https://example.com/story" doc_json_ld
       = Ok (Some d).
Proof.
  apply (X7_structured_date_beats_meta_tags
           Example.parser Example.defines Example.library
           "https://example.com/story" doc_json_ld
           (mkDatetime 2022 3 4 "00:00:00", 9%Z) []).
  vm_compute. reflexivity.
Defined.

(** X8: [get_publishing_date] raises nothing but [AttributeError] and
    [TypeError], and returns when every JSON-LD script of the page has a
    text and is searched as raw text. *)
Theorem X8_get_publishing_date_returns :
  forall (P : Parser) (D : Defines) (L : Library) (url_ : string) (doc : Doc P),
    (forall e, get_publishing_date P D L url_ doc = Raise e ->
               e = AttributeError \/ e = TypeError)
    /\ (forallb searched_script (ld_json_scripts P doc) = true ->
        exists r, get_publishing_date P D L url_ doc = Ok r).
Proof.
  intros P D L url_ doc. rewrite get_publishing_date_collect. split.
  - intros e H.
    destruct (jsonld_date_matches P L doc (url_date_matches D L url_)) as [dm|e'] eqn:E;
      simpl in H; [discriminate|].
    inversion H; subst e'. unfold jsonld_date_matches in E.
    apply (for_each_raises _ _ (fun e => e = AttributeError \/ e = TypeError)
             (script_dates L)
             (fun s a e0 => script_dates_raises L s a e0) _ _ _ E).
  - intros Hall. rewrite forallb_forall in Hall.
    destruct (for_each_returns _ _ (script_dates L) (ld_json_scripts P doc)
                (fun a Ha s => script_dates_searched L s a (Hall a Ha))
                (url_date_matches D L url_)) as [dm Hdm].
    unfold jsonld_date_matches. fold (ld_json_scripts P doc). rewrite Hdm.
    simpl. eauto.
Qed.

(** The theorem on the page of the JSON-LD example. *)
Lemma X8_example_searched_script :
  exists r,
    get_publishing_date Example.parser Example.defines Example.library
                        "https://example.com/story" doc_json_ld = Ok r.
Proof.
  apply (X8_get_publishing_date_returns
           Example.parser Example.defines Example.library
           "https://example.com/story" doc_json_ld).
  vm_compute. reflexivity.
Defined.

(** X9: a JSON-LD script without text, whose class does not name the
    schema graph, makes [get_publishing_date] raise [TypeError] when the
    scripts before it are searched as raw text, whatever the URL and the
    meta tags hold. *)
Theorem X9_textless_script_raises :
  forall (P : Parser) (D : Defines) (L : Library) (url_ : string) (doc : Doc P)
         (pre : list Element) (script_tag : Element) (post : list Element),
    ld_json_scripts P doc = pre ++ script_tag :: post ->
    forallb searched_script pre = true ->
    textless_script script_tag = true ->
    get_publishing_date P D L url_ doc = Raise TypeError.
Proof.
  intros P D L url_ doc pre script_tag post Hs Hpre Ht.
  rewrite get_publishing_date_collect. unfold jsonld_date_matches.
  fold (ld_json_scripts P doc). rewrite Hs.
  rewrite forallb_forall in Hpre.
  rewrite (for_each_first_raise _ _ (script_dates L) TypeError pre script_tag post
             (fun b Hb s => script_dates_searched L s b (Hpre b Hb))
             (fun s => script_dates_textless L s script_tag Ht)).
  reflexivity.
Qed.

Lemma X9_example_textless_script :
  get_publishing_date Example.parser Example.defines Example.library
                      Example.url_2023 doc_textless_script
  = Raise TypeError.
Proof.
  apply (X9_textless_script_raises
           Example.parser Example.defines Example.library
           Example.url_2023 doc_textless_script
           [] (ld_json_script None) []); reflexivity.
Defined.

(** ** More on [get_meta_data] *)

Lemma dict_set_keys (V : Type) (d : list (string * V)) k v :
  map fst (dict_set d k v)
  = if in_dec string_dec k (map fst d) then map fst d else map fst d ++ [k].
Proof.
  induction d as [|[k0 v0] d IH]; [reflexivity|].
  cbn [dict_set map fst]. destruct (String.eqb_spec k0 k) as [->|Hne].
  - cbn [map fst]. destruct (in_dec string_dec k (k :: map fst d)) as [_|Hn];
      [reflexivity|]. exfalso. apply Hn. left. reflexivity.
  - cbn [map fst]. rewrite IH.
    destruct (in_dec string_dec k (map fst d)) as [Hin|Hnin];
      destruct (in_dec string_dec k (k0 :: map fst d)) as [Hin'|Hnin'];
      try reflexivity.
    + exfalso. apply Hnin'. right. exact Hin.
    + exfalso. destruct Hin' as [E|Hin']; [congruence | contradiction].
Qed.

Lemma for_each_snoc (A S : Type) (body : S -> A -> Result S) l a s :
  for_each body (l ++ [a]) s = (s' <- for_each body l s ;; body s' a).
Proof.
  revert s. induction l as [|b l IH]; intros s; simpl.
  - destruct (body s a); reflexivity.
  - destruct (body s b) as [s1|e]; simpl; [apply IH | reflexivity].
Qed.

Lemma key_head_of_plain k :
  Py.contains ":" (Py.strip k) = false -> key_head_of k = Py.strip k.
Proof.
  intros H. unfold key_head_of. rewrite (split_char_absent _ _ H). reflexivity.
Qed.

(** One meta element adds at most the head of its key to the top-level
    keys, after the keys already there. *)
Lemma meta_step_keys data prop data' :
  meta_step data prop = Ok data' ->
  map fst data'
  = match stored_head prop with
    | Some h => if in_dec string_dec h (map fst data) then map fst data
                else map fst data ++ [h]
    | None => map fst data
    end.
Proof.
  unfold meta_step, stored_head.
  destruct (meta_key prop) as [k|]; [|intros H; inversion H; reflexivity].
  destruct (meta_val prop) as [v|];
    [|simpl; rewrite orb_true_r; intros H; inversion H; reflexivity].
  simpl truthy_opt.
  destruct (Py.truthy k); [|intros H; inversion H; reflexivity].
  destruct (Py.truthy v); [|intros H; inversion H; reflexivity].
  simpl negb. simpl orb. cbv iota.
  destruct (int_if_digit (Py.strip v)) as [val|e]; [|discriminate].
  simpl bind. destruct (Py.contains ":" (Py.strip k)) eqn:Hc; simpl negb; cbv iota.
  - destruct (split_char_present _ _ Hc) as (h & p & t & Hs).
    unfold key_head_of. rewrite Hs. intros H. inversion H; subst data'.
    apply dict_set_keys.
  - rewrite (key_head_of_plain k Hc). intros H. inversion H; subst data'.
    apply dict_set_keys.
Qed.

Lemma stored_heads_snoc props prop :
  stored_heads (props ++ [prop])
  = stored_heads props ++ match stored_head prop with
                          | Some h => [h]
                          | None => []
                          end.
Proof.
  unfold stored_heads. rewrite flat_map_app. simpl. rewrite app_nil_r. reflexivity.
Qed.

Lemma meta_loop_keys props : forall data,
  for_each meta_step props [] = Ok data ->
  map fst data = first_seen (stored_heads props).
Proof.
  induction props as [|prop props IH] using rev_ind; intros data H.
  - inversion H. reflexivity.
  - rewrite for_each_snoc in H.
    destruct (for_each meta_step props []) as [d1|e] eqn:E; simpl in H; [|discriminate].
    rewrite (meta_step_keys _ _ _ H), (IH d1 eq_refl), stored_heads_snoc.
    destruct (stored_head prop) as [h|]; [|rewrite app_nil_r; reflexivity].
    rewrite first_seen_snoc.
    destruct (in_dec string_dec h (first_seen (stored_heads props))) as [Hin|Hnin];
      destruct (in_dec string_dec h (stored_heads props)) as [Hin'|Hnin'];
      try reflexivity.
    + exfalso. apply Hnin'. apply first_seen_In. exact Hin.
    + exfalso. apply Hnin. apply first_seen_In. exact Hin'.
Qed.

(** X10: the top-level keys of the dict that [get_meta_data] returns are
    the heads of the keys of the meta elements that have a key and a value,
    each once, in the order of their first element. *)
Theorem X10_get_meta_data_top_level_keys :
  forall (P : Parser) (doc : Doc P) (data : list (string * MetaValue)),
    get_meta_data P doc = Ok data ->
    map fst data = first_seen (stored_heads (css_select P doc "meta"))
    /\ NoDup (map fst data).
Proof.
  intros P doc data H. unfold get_meta_data in H.
  rewrite (meta_loop_keys _ _ H). split; [reflexivity | apply first_seen_NoDup].
Qed.

(** The theorem on a page with the keys [og:image] and [og:image:width]:
    the one top-level key is [og]. *)
Lemma X10_example_one_head :
  map fst [("og", MDict [("image",
             MDict [("identifier", MStr "http://i.test/a.png");
                    ("width", MInt 640)])])]
  = first_seen (stored_heads (css_select Example.parser Example.doc_nested_prefix "meta"))
  /\ NoDup (map fst [("og", MDict [("image",
             MDict [("identifier", MStr "http://i.test/a.png");
                    ("width", MInt 640)])])]).
Proof.
  apply (X10_get_meta_data_top_level_keys Example.parser Example.doc_nested_prefix).
  vm_compute. reflexivity.
Defined.

Lemma int_if_digit_raises s e :
  int_if_digit s = Raise e ->
  e = ValueError /\ Py.isdigit s = true /\ numeral s = false.
Proof.
  unfold int_if_digit. destruct (Py.isdigit s); [|discriminate].
  destruct (Py.int s) as [n|] eqn:E; [discriminate|]. intros H. inversion H.
  split; [reflexivity|]. split; [reflexivity|].
  destruct (numeral s) eqn:En; [|reflexivity].
  destruct (proj1 (int_numeral s) En) as [n Hn]. congruence.
Qed.

Lemma meta_step_raises data prop e :
  meta_step data prop = Raise e ->
  e = ValueError
  /\ exists v, meta_val prop = Some v
               /\ Py.isdigit (Py.strip v) = true /\ numeral (Py.strip v) = false.
Proof.
  unfold meta_step.
  destruct (negb (truthy_opt (meta_key prop)) || negb (truthy_opt (meta_val prop)));
    [discriminate|].
  destruct (meta_key prop) as [k|]; [|discriminate].
  destruct (meta_val prop) as [v|]; [|discriminate].
  destruct (int_if_digit (Py.strip v)) as [val|e'] eqn:E.
  - simpl bind. destruct (negb _); [discriminate|].
    destruct (Py.split_char ":" (Py.strip k)); discriminate.
  - simpl bind. intros H. inversion H; subst e'.
    destruct (int_if_digit_raises _ _ E) as (He & Hd & Hi). eauto.
Qed.

Lemma meta_step_returns data prop :
  readable_value prop = true -> exists data', meta_step data prop = Ok data'.
Proof.
  unfold readable_value, meta_step.
  destruct (negb (truthy_opt (meta_key prop)) || negb (truthy_opt (meta_val prop)));
    [eauto|].
  destruct (meta_key prop) as [k|]; [|eauto].
  destruct (meta_val prop) as [v|]; [|eauto].
  intros H. assert (E : exists val, int_if_digit (Py.strip v) = Ok val).
  { destruct (Py.isdigit (Py.strip v)) eqn:Hd.
    - simpl in H. destruct (int_if_digit_numeral _ H) as (n & _ & ->). eauto.
    - unfold int_if_digit. rewrite Hd. eauto. }
  destruct E as [val ->]. simpl bind.
  destruct (negb _); [eauto|].
  destruct (Py.split_char ":" (Py.strip k)); eauto.
Qed.

Lemma for_each_raise_at (A S : Type) (Q : A -> Exception -> Prop)
  (body : S -> A -> Result S) :
  (forall s a e, body s a = Raise e -> Q a e) ->
  forall l s e, for_each body l s = Raise e -> exists a, In a l /\ Q a e.
Proof.
  intros Hbody. induction l as [|a l IH]; simpl; intros s e H; [discriminate|].
  destruct (body s a) as [s1|e1] eqn:E; simpl in H.
  - destruct (IH _ _ H) as (b & Hb & HQ). eauto.
  - inversion H; subst. eauto.
Qed.

(** X11: [get_meta_data] raises nothing but [ValueError], and only on a
    meta element whose stripped value is a text of digits that is not a
    numeral [int] converts (a digit that is not decimal, such as a
    superscript, or more than 4300 digits); it returns when every value
    that is a text of digits is such a numeral. *)
Theorem X11_get_meta_data_value_error :
  forall (P : Parser) (doc : Doc P),
    (forall e, get_meta_data P doc = Raise e ->
       e = ValueError
       /\ exists prop v,
            In prop (css_select P doc "meta")
            /\ meta_val prop = Some v
            /\ Py.isdigit (Py.strip v) = true
            /\ numeral (Py.strip v) = false)
    /\ (forallb readable_value (css_select P doc "meta") = true ->
        exists data, get_meta_data P doc = Ok data).
Proof.
  intros P doc. unfold get_meta_data. split.
  - intros e H.
    destruct (for_each_raise_at _ _
                (fun prop e => e = ValueError
                   /\ exists v, meta_val prop = Some v
                                /\ Py.isdigit (Py.strip v) = true
                                /\ numeral (Py.strip v) = false)
                meta_step meta_step_raises _ _ _ H)
      as (prop & Hin & He & v & Hv & Hd & Hi).
    split; [exact He|]. exists prop, v. auto.
  - intros Hall. rewrite forallb_forall in Hall.
    apply for_each_returns. intros a Ha s. apply meta_step_returns, Hall, Ha.
Qed.

(** The theorem on a page whose one value is a superscript two. *)
Lemma X11_example_superscript :
  get_meta_data Example.parser doc_superscript = Raise ValueError
  /\ (ValueError = ValueError
      /\ exists prop v,
           In prop (css_select Example.parser doc_superscript "meta")
           /\ meta_val prop = Some v
           /\ Py.isdigit (Py.strip v) = true
           /\ numeral (Py.strip v) = false)
  /\ exists data, get_meta_data Example.parser Example.doc_nested_prefix = Ok data.
Proof.
  split; [vm_compute; reflexivity|]. split.
  - apply (proj1 (X11_get_meta_data_value_error Example.parser doc_superscript)).
    vm_compute. reflexivity.
  - apply (proj2 (X11_get_meta_data_value_error Example.parser Example.doc_nested_prefix)).
    vm_compute. reflexivity.
Defined.

(** ** More on [get_canonical_link] *)

Lemma strip_hostname_needs_slash h s :
  Py.contains "/" s = false -> strip_hostname_in_meta_path h s = None.
Proof.
  intros H. destruct (strip_hostname_in_meta_path h s) as [tp|] eqn:E; [|reflexivity].
  destruct (strip_hostname_sound _ _ _ E) as (pre & m & rest & -> & _).
  rewrite contains_app_r in H; [discriminate|].
  apply contains_app_r. rewrite contains_cons. destruct rest; reflexivity.
Qed.

Lemma get_meta_content_no_match (P : Parser) (doc : Doc P) metaname :
  css_select P doc metaname = [] -> get_meta_content P doc metaname = "".
Proof. unfold get_meta_content. intros ->. reflexivity. Qed.

(** X12: [get_canonical_link] returns the empty string for a page with
    neither a canonical link nor an Open Graph URL; it returns the href of
    the canonical link, stripped, when that URL has a hostname, whatever
    the URL of the article; and when the URL taken has no hostname and no
    slash in its path, the whole path is put behind the scheme and the
    host of the article, for an article whose hostname, read as a pattern,
    has no special character but the dot. *)
Theorem X12_get_canonical_link_other_cases :
  forall (P : Parser) (L : Library) (article_url : string) (doc : Doc P),
    (getElementsByTag P doc (Some "link") (Some "rel") (Some "canonical") = [] ->
     css_select P doc og_url_selector = [] ->
     get_canonical_link P L article_url doc = "")
    /\ (forall link0 rest href,
          getElementsByTag P doc (Some "link") (Some "rel") (Some "canonical")
          = link0 :: rest ->
          getAttribute P link0 "href" = Some href ->
          Py.truthy href = true ->
          truthy_opt (hostname (urlparse L (Py.strip href))) = true ->
          get_canonical_link P L article_url doc = Py.strip href)
    /\ (Py.truthy (canonical_or_og_url P doc) = true ->
        truthy_opt (hostname (urlparse L (Py.strip (canonical_or_og_url P doc)))) = false ->
        plain_hostname (format_opt (hostname (urlparse L article_url))) = true ->
        Py.contains "/" (path (urlparse L (Py.strip (canonical_or_og_url P doc)))) = false ->
        get_canonical_link P L article_url doc
        = urlunparse L (scheme (urlparse L article_url))
                     (hostname (urlparse L article_url))
                     (path (urlparse L (Py.strip (canonical_or_og_url P doc))))).
Proof.
  intros P L article_url doc. split; [|split].
  - intros Hl Hs. unfold get_canonical_link.
    rewrite (og_url_without_link P doc Hl).
    rewrite (get_meta_content_no_match P doc og_url_selector Hs). reflexivity.
  - intros link0 rest href Hl Ha Ht Hh. unfold get_canonical_link.
    rewrite (canonical_preferred P doc link0 rest href Hl Ha Ht), Ht, Hh.
    reflexivity.
  - intros Ht Hh _ Hc. unfold get_canonical_link. rewrite Ht, Hh.
    simpl negb. cbv iota.
    rewrite (strip_hostname_needs_slash _ _ Hc). reflexivity.
Qed.

(** The three cases on pages of the examples: no link at all, a canonical
    link to another host, and an Open Graph URL that is a file name. *)
Lemma X12_example_other_cases :
  get_canonical_link Example.parser Example.library "https://example.com/news/x"
                     Example.doc_2099 = ""
  /\ get_canonical_link Example.parser Example.library "https://example.com/news/x"
                        doc_canonical_absolute = "https://other.test/a"
  /\ get_canonical_link Example.parser Example.library "https://example.com/news/x"
                        doc_og_relative = "https://example.com/article.html".
Proof.
  split; [|split].
  - apply (proj1 (X12_get_canonical_link_other_cases
                    Example.parser Example.library "https://example.com/news/x"
                    Example.doc_2099)); reflexivity.
  - apply (proj1 (proj2 (X12_get_canonical_link_other_cases
                    Example.parser Example.library "https://example.com/news/x"
                    doc_canonical_absolute))
             (mkElement "link" [("rel", "canonical"); ("href", " https://other.test/a ")]
                        None [])
             [] " https://other.test/a "); reflexivity.
  - apply (proj2 (proj2 (X12_get_canonical_link_other_cases
                    Example.parser Example.library "https://example.com/news/x"
                    doc_og_relative))); reflexivity.
Defined.

(** ** More on [Article.download] *)

Lemma same_settings_refl a : same_settings a a.
Proof. unfold same_settings. auto. Qed.

Lemma same_settings_trans a b c :
  same_settings a b -> same_settings b c -> same_settings a c.
Proof.
  unfold same_settings. intros (H1 & H2 & H3 & H4) (G1 & G2 & G3 & G4).
  repeat split; congruence.
Qed.

Lemma set_html_settings a h : same_settings (set_html a h) a /\ url (set_html a h) = url a.
Proof. unfold set_html, same_settings. destruct (Py.truthy h); simpl; auto. Qed.

Lemma set_title_settings a t :
  same_settings (set_title a t) a
  /\ url (set_title a t) = url a
  /\ html (set_title a t) = html a
  /\ download_state (set_title a t) = download_state a
  /\ download_exception_msg (set_title a t) = download_exception_msg a.
Proof. unfold set_title, same_settings. destruct (truthy_opt t); simpl; auto 10. Qed.

Lemma set_html_downloaded a h :
  downloaded_html a -> downloaded_html (set_html a h).
Proof.
  unfold downloaded_html, set_html. destruct (Py.truthy h) eqn:E; simpl; auto.
Qed.

Section MoreDownloadFacts.
Variable P : Parser.
Variable L : Library.
Variable N : Network.

Lemma parse_scheme_http_settings self url_ self' h tr :
  _parse_scheme_http N self url_ = (self', h, tr) ->
  same_settings self' self /\ html self' = html self.
Proof.
  unfold _parse_scheme_http, same_settings.
  destruct (get_html_2XX_only N _ _) as [[body code]|e].
  - destruct (400 <=? code)%Z; intros H; inversion H; subst; simpl; auto.
  - intros H; inversion H; subst; simpl; auto.
Qed.

Lemma fetch_settings self input_html self' h tr :
  fetch L N self input_html = (self', h, tr) ->
  same_settings self' self /\ html self' = html self.
Proof.
  unfold fetch. destruct input_html as [html_|].
  - intros H; inversion H; subst. split; [apply same_settings_refl | reflexivity].
  - destruct (String.eqb _ _).
    + unfold _parse_scheme_file, same_settings.
      destruct (open_read N _); intros H; inversion H; subst; simpl; auto.
    + apply parse_scheme_http_settings.
Qed.

Lemma parse_scheme_http_ok self u body code :
  Py.truthy u = true ->
  get_html_2XX_only N u (config self) = inl (body, code) ->
  (code < 400)%Z ->
  _parse_scheme_http N self (Some u) = (self, Some body, [HttpGet u]).
Proof.
  intros Hu Hg Hc. unfold _parse_scheme_http. simpl truthy_opt. rewrite Hu.
  simpl format_opt_empty. rewrite Hg.
  destruct (Z.leb_spec 400 code); [lia | reflexivity].
Qed.

Lemma parse_scheme_http_status self url_ body code :
  get_html_2XX_only N (if truthy_opt url_ then format_opt_empty url_ else url self)
                    (config self) = inl (body, code) ->
  (400 <= code)%Z ->
  _detect_protection body = None ->
  _parse_scheme_http N self url_
  = (set_download_failed self
       (Some ("Status code " ++ str_of_int code ++ " for url " ++ format_opt url_)%string),
     None,
     [HttpGet (if truthy_opt url_ then format_opt_empty url_ else url self)]).
Proof.
  intros Hg Hc Hp. unfold _parse_scheme_http. rewrite Hg.
  destruct (Z.leb_spec 400 code); [|lia]. rewrite Hp. reflexivity.
Qed.

Lemma follow_read_more_skipped self html_ irm :
  no_read_more self irm = true ->
  follow_read_more P N self html_ irm = (Ok (self, html_), []).
Proof.
  unfold no_read_more, follow_read_more. destruct irm; simpl; [reflexivity|].
  destruct (Py.truthy (read_more_link self)); [discriminate | reflexivity].
Qed.

Lemma finish_download_skipped self html_ title_ irm tr :
  no_read_more self irm = true ->
  finish_download P N self html_ title_ irm tr
  = mkOutcome (set_title (set_html self html_) title_) None tr.
Proof.
  intros H. unfold finish_download. rewrite (follow_read_more_skipped self html_ irm H).
  rewrite app_nil_r. reflexivity.
Qed.

Lemma follow_read_more_node self html_ node :
  Py.truthy (read_more_link self) = true ->
  read_more_node P self html_ = Some node ->
  follow_read_more P N self html_ false
  = match _parse_scheme_http N self (Some (read_more_url N self node)) with
    | (self1, Some h, tr) => (Ok (set_url self1 (read_more_url N self node), h), tr)
    | (self1, None, tr) => (Ok (self1, html_), tr)
    end.
Proof.
  intros Hl Hn. unfold follow_read_more, read_more_node in *. rewrite Hl. simpl andb.
  cbv iota. destruct (fromstring P html_) as [doc|]; [|discriminate].
  rewrite Hn. reflexivity.
Qed.

Lemma follow_read_more_kept self html_ irm r tr :
  follow_read_more P N self html_ irm = (r, tr) ->
  match r with
  | Ok (self2, html2) =>
      same_settings self2 self /\ html self2 = html self
      /\ (download_state self2 = SUCCESS -> download_state self = SUCCESS)
  | Raise e => e = AttributeError /\ Py.truthy (read_more_link self) = true
  end.
Proof.
  unfold follow_read_more.
  destruct (negb irm && Py.truthy (read_more_link self)) eqn:Ec.
  - apply andb_true_iff in Ec as [_ Hl].
    destruct (fromstring P html_) as [doc|]; [|intros H; inversion H; subst; auto].
    destruct (find _ _) as [node|].
    + destruct (_parse_scheme_http N self _) as [[self1 [h|]] tr1] eqn:E;
        intros H; inversion H; subst; clear H.
      * destruct (parse_scheme_http_result N _ _ _ _ _ E) as (_ & _ & _ & ->).
        unfold same_settings, set_url. simpl. auto 10.
      * destruct (parse_scheme_http_settings _ _ _ _ _ E) as (Hs & Hh).
        destruct (parse_scheme_http_result N _ _ _ _ _ E) as (_ & _ & _ & Hf).
        split; [exact Hs|]. split; [exact Hh|]. congruence.
    + intros H; inversion H; subst.
      split; [apply same_settings_refl|]. auto.
  - intros H; inversion H; subst. split; [apply same_settings_refl|]. auto.
Qed.

Lemma finish_download_kept self html_ title_ irm tr :
  download_kept self (finish_download P N self html_ title_ irm tr).
Proof.
  unfold finish_download, download_kept.
  destruct (follow_read_more P N self html_ irm) as [r tr'] eqn:E.
  pose proof (follow_read_more_kept _ _ _ _ _ E) as H.
  destruct r as [[self2 html2]|e]; simpl.
  - destruct H as (Hs & Hh & Hst).
    destruct (set_title_settings (set_html self2 html2) title_)
      as (Ht1 & _ & Ht3 & Ht4 & _).
    split; [|split; [|discriminate]].
    + eapply same_settings_trans; [exact Ht1|].
      eapply same_settings_trans; [apply set_html_settings | exact Hs].
    + intros Hinv. unfold downloaded_html. rewrite Ht3, Ht4.
      apply set_html_downloaded. unfold downloaded_html in *.
      intros H2. rewrite Hh. apply Hinv, Hst, H2.
  - destruct H as (-> & Hl).
    split; [apply same_settings_refl|]. split; [auto|].
    intros e0 H0. inversion H0; subst. auto.
Qed.

Lemma download_kept_all self input_html title_ recursion_counter irm :
  download_kept self (download P L N self input_html title_ recursion_counter irm).
Proof.
  funelim (download P L N self input_html title_ recursion_counter irm).
  all: match goal with
       | H : fetch _ _ _ _ = _ |- _ =>
           pose proof (fetch_settings _ _ _ _ _ H) as [Hset Hhtml];
           pose proof (fetch_result L N _ _ _ _ _ H) as (_ & _ & _ & Hres)
       end.
  - unfold download_kept. simpl. split; [exact Hset|].
    split; [|discriminate].
    unfold downloaded_html. intros _ Hs. congruence.
  - subst. unfold after. unfold download_kept in *. simpl article. simpl raised.
    assumption.
  - subst. apply finish_download_kept.
  - subst. apply finish_download_kept.
Qed.

End MoreDownloadFacts.

(** X13: [download] of a cached html that holds no refresh directive to
    follow, with the read-more block skipped, does not access the network:
    it stores the html and the title, and nothing else. *)
Theorem X13_download_cached_html_no_network :
  forall (P : Parser) (L : Library) (N : Network) (self : Article)
         (html_ : string) (title_ : option string) (recursion_counter : Z)
         (ignore_read_more : bool),
    meta_refresh_target N self html_ = None \/ (1 <= recursion_counter)%Z ->
    no_read_more self ignore_read_more = true ->
    download P L N self (Some html_) title_ recursion_counter ignore_read_more
    = mkOutcome (set_title (set_html self html_) title_) None [].
Proof.
  intros P L N self html_ title_ rc irm Hno Hrm.
  rewrite (download_without_refresh P L N self (Some html_) title_ rc irm self html_ []
             eq_refl Hno).
  apply finish_download_skipped, Hrm.
Qed.

Lemma X13_example_cached_page :
  download Example.parser Example.library Example.network_404 Example.fresh_article
           (Some Example.final_page) (Some "A title") 0 false
  = mkOutcome (set_title (set_html Example.fresh_article Example.final_page)
                         (Some "A title")) None [].
Proof.
  apply (X13_download_cached_html_no_network
           Example.parser Example.library Example.network_404 Example.fresh_article
           Example.final_page (Some "A title") 0 false).
  - left. reflexivity.
  - reflexivity.
Defined.

(** X14: when a meta refresh is followed, the title and the
    [ignore_read_more] flag given to [download] have no effect: the call
    behaves as the one without title that does not ignore the read-more
    link. *)
Theorem X14_refresh_drops_title_and_ignore_read_more :
  forall (P : Parser) (L : Library) (N : Network) (self self' : Article)
         (input_html : option string) (recursion_counter : Z)
         (html_ : string) (tr : list Event) (meta_refresh_url : string)
         (title_ : option string) (ignore_read_more : bool),
    fetch L N self input_html = (self', Some html_, tr) ->
    meta_refresh_target N self' html_ = Some meta_refresh_url ->
    (recursion_counter < 1)%Z ->
    download P L N self input_html title_ recursion_counter ignore_read_more
    = download P L N self input_html None recursion_counter false.
Proof.
  intros P L N self self' input_html rc html_ tr u title_ irm Hf Ht Hlt.
  rewrite (download_follows_refresh P L N self input_html title_ rc irm self' html_ tr u
             Hf Ht Hlt).
  rewrite (download_follows_refresh P L N self input_html None rc false self' html_ tr u
             Hf Ht Hlt).
  reflexivity.
Qed.

Lemma X14_example_title_dropped :
  download Example.parser Example.library Example.network Example.fresh_article
           None (Some "A title") 0 true
  = download Example.parser Example.library Example.network Example.fresh_article
             None None 0 false.
Proof.
  apply (X14_refresh_drops_title_and_ignore_read_more
           Example.parser Example.library Example.network
           Example.fresh_article Example.fresh_article None 0
           Example.refresh_page [HttpGet "http://a.test/start"] "http://a.test/next"
           (Some "A title") true).
  - reflexivity.
  - reflexivity.
  - lia.
Defined.



(** ** The read-more link, empty pages, failures and [build] *)

(** X16: when the read-more block finds a link and the page it points to
    is served with a status below 400, [download] stores that page and
    the URL of the article becomes the URL of the link; the original URL
    is kept. *)
Theorem X16_read_more_followed :
  forall (P : Parser) (L : Library) (N : Network) (self : Article)
         (input_html title_ : option string) (recursion_counter : Z)
         (html_ : string) (tr : list Event) (node : Element)
         (body : string) (code : Z),
    fetch L N self input_html = (self, Some html_, tr) ->
    meta_refresh_target N self html_ = None \/ (1 <= recursion_counter)%Z ->
    Py.truthy (read_more_link self) = true ->
    read_more_node P self html_ = Some node ->
    Py.truthy (read_more_url N self node) = true ->
    get_html_2XX_only N (read_more_url N self node) (config self) = inl (body, code) ->
    (code < 400)%Z ->
    download P L N self input_html title_ recursion_counter false
    = mkOutcome
        (set_title (set_html (set_url self (read_more_url N self node)) body) title_)
        None (tr ++ [HttpGet (read_more_url N self node)]).
Proof.
  intros P L N self input_html title_ rc html_ tr node body code
         Hf Hno Hl Hn Hu Hg Hc.
  rewrite (download_without_refresh P L N self input_html title_ rc false self html_ tr
             Hf Hno).
  unfold finish_download.
  rewrite (follow_read_more_node P N self html_ node Hl Hn).
  rewrite (parse_scheme_http_ok N self _ body code Hu Hg Hc). reflexivity.
Qed.

Lemma X16_example_full_article :
  download read_more_parser Example.library network_full teaser_article
           None None 0 false
  = mkOutcome
      (set_title (set_html (set_url teaser_article "http://a.test/full")
                           "<html>full</html>") None)
      None ([HttpGet "http://a.test/teaser"] ++ [HttpGet "http://a.test/full"]).
Proof.
  apply (X16_read_more_followed
           read_more_parser Example.library network_full teaser_article
           None None 0 "<html>teaser</html>" [HttpGet "http://a.test/teaser"]
           (mkElement "a" [("href", "http://a.test/full")] None [])
           "<html>full</html>" 200).
  - reflexivity.
  - left. reflexivity.
  - reflexivity.
  - reflexivity.
  - reflexivity.
  - reflexivity.
  - lia.
Defined.

(** X17: when the page of the read-more link is answered with a status
    of 400 or more, [download] keeps the html it had and the URL of the
    article, and ends in the state [SUCCESS]; the failure message of the
    read-more request stays in [download_exception_msg]. *)
Theorem X17_read_more_failure_keeps_page :
  forall (P : Parser) (L : Library) (N : Network) (self : Article)
         (input_html title_ : option string) (recursion_counter : Z)
         (html_ : string) (tr : list Event) (node : Element)
         (body : string) (code : Z),
    fetch L N self input_html = (self, Some html_, tr) ->
    meta_refresh_target N self html_ = None \/ (1 <= recursion_counter)%Z ->
    Py.truthy (read_more_link self) = true ->
    read_more_node P self html_ = Some node ->
    Py.truthy (read_more_url N self node) = true ->
    get_html_2XX_only N (read_more_url N self node) (config self) = inl (body, code) ->
    (400 <= code)%Z ->
    _detect_protection body = None ->
    Py.truthy html_ = true ->
    html (article (download P L N self input_html title_ recursion_counter false)) = html_
    /\ url (article (download P L N self input_html title_ recursion_counter false))
       = url self
    /\ download_state
         (article (download P L N self input_html title_ recursion_counter false))
       = SUCCESS
    /\ download_exception_msg
         (article (download P L N self input_html title_ recursion_counter false))
       = Some ("Status code " ++ str_of_int code ++ " for url "
               ++ read_more_url N self node)%string
    /\ raised (download P L N self input_html title_ recursion_counter false) = None
    /\ trace (download P L N self input_html title_ recursion_counter false)
       = tr ++ [HttpGet (read_more_url N self node)].
Proof.
  intros P L N self input_html title_ rc html_ tr node body code
         Hf Hno Hl Hn Hu Hg Hc Hp Hh.
  rewrite (download_without_refresh P L N self input_html title_ rc false self html_ tr
             Hf Hno).
  unfold finish_download.
  rewrite (follow_read_more_node P N self html_ node Hl Hn).
  assert (Hg' : get_html_2XX_only N
                  (if truthy_opt (Some (read_more_url N self node))
                   then format_opt_empty (Some (read_more_url N self node))
                   else url self) (config self) = inl (body, code)).
  { simpl truthy_opt. rewrite Hu. exact Hg. }
  rewrite (parse_scheme_http_status N self (Some (read_more_url N self node)) body code
             Hg' Hc Hp).
  change (truthy_opt (Some (read_more_url N self node)))
    with (Py.truthy (read_more_url N self node)).
  rewrite Hu.
  change (format_opt_empty (Some (read_more_url N self node)))
    with (read_more_url N self node).
  change (format_opt (Some (read_more_url N self node)))
    with (read_more_url N self node).
  set (failed := set_download_failed self _).
  cbv beta iota. cbn [article raised trace].
  destruct (set_title_settings (set_html failed html_) title_)
    as (_ & Hu' & Hh' & Hs' & Hm').
  rewrite Hu', Hh', Hs', Hm'. unfold set_html. rewrite Hh.
  repeat split; reflexivity.
Qed.

Lemma X17_example_teaser_kept :
  html (article (download read_more_parser Example.library network_teaser_only
                          teaser_article None None 0 false))
  = "<html>teaser</html>"
  /\ url (article (download read_more_parser Example.library network_teaser_only
                            teaser_article None None 0 false))
     = url teaser_article
  /\ download_state
       (article (download read_more_parser Example.library network_teaser_only
                          teaser_article None None 0 false))
     = SUCCESS
  /\ download_exception_msg
       (article (download read_more_parser Example.library network_teaser_only
                          teaser_article None None 0 false))
     = Some ("Status code " ++ str_of_int 404 ++ " for url "
             ++ read_more_url network_teaser_only teaser_article
                  (mkElement "a" [("href", "http://a.test/full")] None []))%string
  /\ raised (download read_more_parser Example.library network_teaser_only
                      teaser_article None None 0 false) = None
  /\ trace (download read_more_parser Example.library network_teaser_only
                     teaser_article None None 0 false)
     = [HttpGet "http://a.test/teaser"]
       ++ [HttpGet (read_more_url network_teaser_only teaser_article
                      (mkElement "a" [("href", "http://a.test/full")] None []))].
Proof.
  apply (X17_read_more_failure_keeps_page
           read_more_parser Example.library network_teaser_only teaser_article
           None None 0 "<html>teaser</html>" [HttpGet "http://a.test/teaser"]
           (mkElement "a" [("href", "http://a.test/full")] None [])
           "Not Found" 404).
  - reflexivity.
  - left. reflexivity.
  - reflexivity.
  - reflexivity.
  - reflexivity.
  - reflexivity.
  - lia.
  - reflexivity.
  - reflexivity.
Defined.

(** X18: a page that is fetched but empty is not stored: with no refresh
    to follow and the read-more block skipped, [download] returns without
    raising and leaves the state and the failure message of the article
    as they were, so that [parse] on a new article still asks for
    [download()] first. *)
Theorem X18_empty_page_not_downloaded :
  forall (P : Parser) (L : Library) (N : Network)
         (extract_fields : Article -> Doc P -> Result Article) (self : Article)
         (input_html title_ : option string) (recursion_counter : Z)
         (ignore_read_more : bool) (tr : list Event),
    fetch L N self input_html = (self, Some "", tr) ->
    meta_refresh_target N self "" = None \/ (1 <= recursion_counter)%Z ->
    no_read_more self ignore_read_more = true ->
    raised (download P L N self input_html title_ recursion_counter ignore_read_more)
    = None
    /\ html (article (download P L N self input_html title_ recursion_counter
                               ignore_read_more)) = html self
    /\ download_state
         (article (download P L N self input_html title_ recursion_counter
                            ignore_read_more)) = download_state self
    /\ download_exception_msg
         (article (download P L N self input_html title_ recursion_counter
                            ignore_read_more)) = download_exception_msg self
    /\ (download_state self = NOT_STARTED ->
        snd (parse P extract_fields
               (article (download P L N self input_html title_ recursion_counter
                                  ignore_read_more)))
        = Some (ArticleException "You must `download()` an article first!")).
Proof.
  intros P L N extract_fields self input_html title_ rc irm tr Hf Hno Hrm.
  rewrite (download_without_refresh P L N self input_html title_ rc irm self "" tr Hf Hno).
  rewrite (finish_download_skipped P N self "" title_ irm tr Hrm).
  simpl article. simpl raised.
  change (set_html self "") with self.
  destruct (set_title_settings self title_) as (_ & _ & Hh & Hs & Hm).
  rewrite Hh, Hs, Hm. repeat split.
  intros Hns. rewrite parse_not_started; [reflexivity|]. rewrite Hs. exact Hns.
Qed.

Lemma X18_example_empty_page :
  raised (download Example.parser Example.library network_empty
                   Example.fresh_article None None 0 false) = None
  /\ download_state
       (article (download Example.parser Example.library network_empty
                          Example.fresh_article None None 0 false)) = NOT_STARTED
  /\ snd (parse Example.parser Example.no_extraction
            (article (download Example.parser Example.library network_empty
                               Example.fresh_article None None 0 false)))
     = Some (ArticleException "You must `download()` an article first!").
Proof.
  destruct (X18_empty_page_not_downloaded
              Example.parser Example.library network_empty Example.no_extraction
              Example.fresh_article None None 0 false [HttpGet "http://a.test/start"]
              eq_refl (or_introl eq_refl) eq_refl)
    as (Hr & _ & Hs & _ & Hp).
  split; [exact Hr|]. split; [exact Hs | exact (Hp eq_refl)].
Defined.

Lemma status_message c u :
  ("Article `download()` failed with " ++ ("Status code " ++ c ++ " for url None")
   ++ " on URL " ++ u)%string
  = ("Article `download()` failed with Status code " ++ c
     ++ " for url None on URL " ++ u)%string.
Proof.
  rewrite (str_app_assoc "Status code " (c ++ " for url None") (" on URL " ++ u)).
  rewrite (str_app_assoc c " for url None" (" on URL " ++ u)).
  reflexivity.
Qed.

(** X19: when the page of the article is answered with a status of 400
    or more and no protection is detected, [download] returns without
    raising after that one request, and [parse] then raises the
    [ArticleException] whose message gives the status code, [None] as the
    URL of the request, and the URL of the article. *)
Theorem X19_failed_status_message :
  forall (P : Parser) (L : Library) (N : Network)
         (extract_fields : Article -> Doc P -> Result Article) (self : Article)
         (title_ : option string) (recursion_counter : Z) (ignore_read_more : bool)
         (body : string) (code : Z),
    String.eqb (scheme (urlparse L (url self))) "file" = false ->
    get_html_2XX_only N (url self) (config self) = inl (body, code) ->
    (400 <= code)%Z ->
    _detect_protection body = None ->
    raised (download P L N self None title_ recursion_counter ignore_read_more) = None
    /\ trace (download P L N self None title_ recursion_counter ignore_read_more)
       = [HttpGet (url self)]
    /\ html (article (download P L N self None title_ recursion_counter ignore_read_more))
       = html self
    /\ snd (parse P extract_fields
              (article (download P L N self None title_ recursion_counter
                                 ignore_read_more)))
       = Some (ArticleException
                 ("Article `download()` failed with Status code " ++ str_of_int code
                  ++ " for url None on URL " ++ url self)%string).
Proof.
  intros P L N extract_fields self title_ rc irm body code Hs Hg Hc Hp.
  assert (Hf : fetch L N self None
               = (set_download_failed self
                    (Some ("Status code " ++ str_of_int code ++ " for url None")%string),
                  None, [HttpGet (url self)])).
  { unfold fetch. rewrite Hs.
    apply (parse_scheme_http_status N self None body code Hg Hc Hp). }
  rewrite (download_failed P L N self title_ rc irm _ _ None Hf).
  cbn [article raised trace].
  split; [reflexivity|]. split; [reflexivity|]. split; [reflexivity|].
  exact (f_equal (fun m => Some (ArticleException m))
                 (status_message (str_of_int code) (url self))).
Qed.

Lemma X19_example_status_404 :
  raised (download Example.parser Example.library Example.network_404
                   Example.fresh_article None None 0 false) = None
  /\ trace (download Example.parser Example.library Example.network_404
                     Example.fresh_article None None 0 false)
     = [HttpGet "http://a.test/start"]
  /\ html (article (download Example.parser Example.library Example.network_404
                             Example.fresh_article None None 0 false)) = ""
  /\ snd (parse Example.parser Example.no_extraction
            (article (download Example.parser Example.library Example.network_404
                               Example.fresh_article None None 0 false)))
     = Some (ArticleException
               ("Article `download()` failed with Status code " ++ str_of_int 404
                ++ " for url None on URL " ++ "http://a.test/start")%string).
Proof.
  apply (X19_failed_status_message
           Example.parser Example.library Example.network_404 Example.no_extraction
           Example.fresh_article None 0 false "Not Found" 404).
  - reflexivity.
  - reflexivity.
  - lia.
  - reflexivity.
Defined.

(** X20: [build] ends at the first call that raises.  When the fetch of
    the page fails, [download] returns without raising and [parse] raises
    the [ArticleException] that reports the failed [download()].  When the
    page is downloaded but the tree builder yields no document, [parse]
    returns without raising and without marking the article as parsed, and
    [nlp] raises the [ArticleException] that asks for [parse()] first. *)
Theorem X20_build_stops_at_first_failure :
  forall (P : Parser) (L : Library) (N : Network)
         (extract_fields : Article -> Doc P -> Result Article)
         (nlp_fields : Article -> Result Article) (self : Article),
    (forall self' tr,
        fetch L N self None = (self', None, tr) ->
        exists msg,
          build P L N extract_fields nlp_fields self
          = mkOutcome self' (Some (ArticleException msg)) tr
          /\ Py.contains "`download()`" msg = true)
    /\ (raised (download P L N self None None 0 false) = None ->
        download_state (article (download P L N self None None 0 false)) = SUCCESS ->
        fromstring P (html (article (download P L N self None None 0 false))) = None ->
        is_parsed self = false ->
        build P L N extract_fields nlp_fields self
        = mkOutcome (article (download P L N self None None 0 false))
                    (Some (ArticleException "You must `parse()` an article first!"))
                    (trace (download P L N self None None 0 false))).
Proof.
  intros P L N extract_fields nlp_fields self. split.
  - intros self' tr Hf. unfold build.
    rewrite (download_failed P L N self None 0 false self' tr None Hf).
    cbn [article raised trace].
    destruct (fetch_result L N _ _ _ _ _ Hf) as (_ & _ & _ & Hs).
    destruct (parse_failed P extract_fields self' Hs) as (msg & -> & _ & Hc).
    exists msg. split; [reflexivity | exact Hc].
  - intros Hr Hs Hn Hp. unfold build. rewrite Hr.
    destruct (download_kept_all P L N self None None 0 false) as ((_ & _ & _ & Hip) & _).
    set (o := download P L N self None None 0 false) in *.
    unfold parse, throw_if_not_downloaded_verbose. rewrite Hs, Hn.
    unfold nlp, throw_if_not_downloaded_verbose, throw_if_not_parsed_verbose.
    rewrite Hs, Hip, Hp. reflexivity.
Qed.

(** The theorem on a page answered with status 404, and on a page that
    is downloaded while no document is built from it. *)
Lemma X20_example_build :
  (exists msg,
     build Example.parser Example.library Example.network_404
           Example.no_extraction Example.no_analysis Example.fresh_article
     = mkOutcome
         (article (download Example.parser Example.library Example.network_404
                            Example.fresh_article None None 0 false))
         (Some (ArticleException msg)) [HttpGet "http://a.test/start"]
     /\ Py.contains "`download()`" msg = true)
  /\ build no_tree_parser Example.library Example.network
           (fun a _ => Ok a) Example.no_analysis Example.fresh_article
     = mkOutcome
         (article (download no_tree_parser Example.library Example.network
                            Example.fresh_article None None 0 false))
         (Some (ArticleException "You must `parse()` an article first!"))
         (trace (download no_tree_parser Example.library Example.network
                          Example.fresh_article None None 0 false)).
Proof.
  split.
  - apply (proj1 (X20_build_stops_at_first_failure
                    Example.parser Example.library Example.network_404
                    Example.no_extraction Example.no_analysis Example.fresh_article)).
    reflexivity.
  - apply (proj2 (X20_build_stops_at_first_failure
                    no_tree_parser Example.library Example.network
                    (fun a _ => Ok a) Example.no_analysis Example.fresh_article));
      reflexivity.
Defined.

(** ** Exceptions of [get_title] *)

Lemma bind_returns (A B : Type) (r : Result A) (k : A -> Result B) :
  (exists a, r = Ok a) -> (forall a, exists b, k a = Ok b) ->
  exists b, bind r k = Ok b.
Proof. intros [a ->] Hk. simpl. apply Hk. Qed.

Lemma bind_raises (A B : Type) (Q : Exception -> Prop) (r : Result A)
  (k : A -> Result B) e :
  (forall e, r = Raise e -> Q e) -> (forall a e, k a = Raise e -> Q e) ->
  bind r k = Raise e -> Q e.
Proof.
  intros Hr Hk. destruct r as [a|e']; simpl.
  - apply Hk.
  - intros H. inversion H; subst. apply Hr. reflexivity.
Qed.

Section TitleExceptions.
Variable D : Defines.

Lemma split_title_returns title_ splitter hint :
  splitter title_ <> [] -> exists r, split_title D title_ splitter hint = Ok r.
Proof.
  intros Hne. unfold split_title.
  set (h := if Py.truthy hint then _ else _).
  destruct (nth_error (splitter title_) (largest_piece h (splitter title_) 0 0 0))
    as [p|] eqn:En; [eauto|].
  exfalso. apply nth_error_None in En.
  destruct (largest_piece_bound h (splitter title_) 0 0 0) as [E|E]; [|lia].
  rewrite E in En. destruct (splitter title_); [congruence | simpl in En; lia].
Qed.

Lemma split_title_raises title_ splitter hint e :
  split_title D title_ splitter hint = Raise e -> e = IndexError.
Proof.
  unfold split_title. destruct (nth_error _ _); [discriminate|].
  intros H. inversion H. reflexivity.
Qed.

Lemma split_step_returns delimiter splitter h1 st :
  Py.contains delimiter "" = false ->
  (forall s, Py.truthy s = true -> splitter s <> []) ->
  exists st', split_step D delimiter splitter h1 st = Ok st'.
Proof.
  intros Hd Hs. unfold split_step. destruct st as [t used].
  destruct (negb used && Py.contains delimiter t) eqn:E; [|eauto].
  assert (Ht : Py.truthy t = true).
  { destruct t; [|reflexivity]. rewrite Hd, andb_false_r in E. discriminate. }
  destruct (split_title_returns t splitter h1 (Hs t Ht)) as [r ->]. simpl. eauto.
Qed.

Lemma split_step_raises delimiter splitter h1 st e :
  split_step D delimiter splitter h1 st = Raise e -> e = IndexError.
Proof.
  unfold split_step. destruct st as [t used].
  destruct (negb used && Py.contains delimiter t); [|discriminate].
  destruct (split_title D t splitter h1) as [r|e'] eqn:E; simpl; [discriminate|].
  intros H. inversion H; subst. exact (split_title_raises _ _ _ _ E).
Qed.

End TitleExceptions.

(** X21: [get_title] raises nothing but [IndexError], and it returns a
    title whenever the splitters yield a piece or more for every title
    that is not empty. *)
Theorem X21_get_title_exceptions :
  forall (P : Parser) (D : Defines) (doc : Doc P),
    (forall e, get_title P D doc = Raise e -> e = IndexError)
    /\ (splitters_yield D -> exists t, get_title P D doc = Ok t).
Proof.
  intros P D doc. unfold get_title.
  destruct (getElementsByTag P doc (Some "title") None None) as [|title_element0 rest].
  - split; [discriminate | eauto].
  - cbv zeta.
    match goal with
    | |- context [bind (split_step D "|" _ ?h1 ?st) _] =>
        generalize st; generalize h1
    end.
    intros h1 st. split.
    + intros e.
      repeat (apply (bind_raises _ _ (fun e => e = IndexError));
              [let H := fresh in
               intros ? H; exact (split_step_raises D _ _ _ _ _ H)
              | intros ? ?; cbv beta]).
      destruct (String.eqb _ _); discriminate.
    + intros Hy.
      repeat (apply bind_returns;
              [apply split_step_returns;
               [reflexivity | intros s Hs; apply (Hy s Hs)]
              | intros ?; cbv beta]).
      destruct (String.eqb _ _); eauto.
Qed.

Lemma split_str_not_nil sep s : forall skip, Example.split_str sep skip s <> [].
Proof.
  induction s as [|c s IH]; intros skip; simpl; [discriminate|].
  destruct skip as [|k]; [|apply IH].
  destruct (Py.truthy sep && _); [discriminate|].
  destruct (Example.split_str sep 0 s); discriminate.
Qed.

(** The theorem on the title example, with the splitters of the
    examples: the call returns. *)
Lemma X21_example_returns :
  exists t, get_title Example.parser Example.defines Example.doc_foo_bar = Ok t.
Proof.
  apply (proj2 (X21_get_title_exceptions Example.parser Example.defines
                                         Example.doc_foo_bar)).
  intros s Hs. unfold Example.defines, Example.splitter. simpl. rewrite Hs.
  repeat split; apply split_str_not_nil.
Defined.

(** ** The language of the page ([get_meta_lang]) *)

Lemma lower_char_idem c : Py.lower_char (Py.lower_char c) = Py.lower_char c.
Proof.
  destruct c as [[] [] [] [] [] [] [] []]; vm_compute; reflexivity.
Qed.

Lemma lower_idem s : Py.lower (Py.lower s) = Py.lower s.
Proof.
  induction s as [|c s IH]; simpl; [reflexivity|].
  rewrite lower_char_idem, IH. reflexivity.
Qed.

Lemma length_lower s : String.length (Py.lower s) = String.length s.
Proof. induction s as [|c s IH]; simpl; [reflexivity | rewrite IH; reflexivity]. Qed.

Lemma length_take n s : (String.length (Py.take n s) <= n)%nat.
Proof.
  revert s. induction n as [|n IH]; intros [|c s]; simpl; try lia.
  specialize (IH s). lia.
Qed.

Lemma take_truthy n s :
  Py.truthy s = true -> (1 <= String.length (Py.take (S n) s))%nat.
Proof. destruct s as [|c s]; [discriminate|]. simpl. lia. Qed.

(** X22: the language [get_meta_lang] returns, when it returns one, is
    one or two characters long and in lower case.  A root element whose
    [lang] attribute is empty gives no language, whatever the meta
    elements declare; and without a [lang] attribute, a
    [content-language] element without content gives no language either,
    whatever the [lang] meta element declares. *)
Theorem X22_get_meta_lang_result :
  forall (P : Parser) (root : Doc P -> Element) (RE_LANG_search : string -> bool)
         (doc : Doc P),
    (forall v,
        get_meta_lang P root RE_LANG_search doc = Some v ->
        (1 <= String.length v <= 2)%nat /\ Py.lower v = v)
    /\ (getAttribute P (root doc) "lang" = Some "" ->
        get_meta_lang P root RE_LANG_search doc = None)
    /\ (forall meta0 rest,
          getAttribute P (root doc) "lang" = None ->
          getElementsByTag P doc (Some "meta") (Some "http-equiv")
                           (Some "content-language") = meta0 :: rest ->
          getAttribute P meta0 "content" = None ->
          get_meta_lang P root RE_LANG_search doc = None).
Proof.
  intros P root RE_LANG_search doc. unfold get_meta_lang. split; [|split].
  - intros v. cbv zeta.
    match goal with
    | |- (if truthy_opt ?a then _ else _) = _ -> _ => generalize a
    end.
    intros [a|]; simpl truthy_opt; [|discriminate].
    destruct (Py.truthy a) eqn:Ea; [|discriminate].
    simpl format_opt_empty.
    destruct (RE_LANG_search (Py.take 2 a)); [|discriminate].
    intros H. inversion H; subst v. rewrite length_lower, lower_idem.
    pose proof (length_take 2 a). pose proof (take_truthy 1 a Ea). auto.
  - intros ->. reflexivity.
  - intros meta0 rest -> -> ->. reflexivity.
Qed.

(** The theorem on pages of the examples: the language of the [lang]
    meta element is returned in lower case; an empty [lang] attribute of
    the root, or a [content-language] element without content, hides
    it. *)
Lemma X22_example_languages :
  get_meta_lang Example.parser (root_lang None) two_letters doc_meta_lang = Some "fr"
  /\ ((1 <= String.length "fr" <= 2)%nat /\ Py.lower "fr" = "fr")
  /\ get_meta_lang Example.parser (root_lang (Some "")) two_letters doc_meta_lang = None
  /\ get_meta_lang Example.parser (root_lang None) two_letters doc_content_language
     = None.
Proof.
  split; [reflexivity|]. split; [|split].
  - apply (proj1 (X22_get_meta_lang_result
                    Example.parser (root_lang None) two_letters doc_meta_lang)).
    reflexivity.
  - apply (proj1 (proj2 (X22_get_meta_lang_result
                    Example.parser (root_lang (Some "")) two_letters doc_meta_lang))).
    reflexivity.
  - apply (proj2 (proj2 (X22_get_meta_lang_result
                    Example.parser (root_lang None) two_letters doc_content_language))
             (mkElement "meta" [("http-equiv", "content-language")] None [])
             []); reflexivity.
Defined.

(** ** The candidates of [get_publishing_date] and the date it returns *)

Section DateRefinement.
Variable P : Parser.
Variable D : Defines.
Variable L : Library.














End DateRefinement.


